(** * CrossFire: manager selection and multi-manager orchestration

    A shallow embedding of the decision logic of CrossFire's
    [managers/detection.py], [managers/commands.py],
    [managers/installer.py] and [search/engine.py], and the properties of
    the candidate ranker, the install/remove orchestrator and the search
    aggregator.

    Modelling conventions.
    - A Python [str] is a Rocq [string]. Equality, [startswith] and the
      substring test [in] are computed on it directly. The methods whose
      result depends on Unicode tables ([lower], [upper], [title],
      [strip], [splitlines], [len], slicing, [re.search]) are the fields
      of the class [PyStr]; every theorem holds for any implementation
      of them, and [ascii_PyStr] is the one used to run the model.
    - A [Dict[str, X]] is an association list in insertion order; a dict
      has each key once ([dict_wf]).
    - A call that may raise returns a [result]; the orchestrators run in
      the monad [M]: from a state (the outside world and the local
      [attempts] list) to a result, a state and the effects produced
      (console lines, spawned commands, record-store writes, requests).
      Writing to the console is an effect and does not fail; the
      progress bar of the search only draws and is left out.
    - The orchestrators and the aggregator are stated over the interface
      [World] of their collaborators, so what is proved of them holds
      whatever the collaborators return or raise.  [System_World] is the
      instance this program gives: [run_command] of [core/execution.py]
      and the record store of [core/database.py], over [subprocess] and
      [sqlite3]. *)

From Stdlib Require Import String Ascii List ZArith QArith Lia Bool Arith.
From Stdlib Require Import DecimalString Decimal Permutation Sorted.
Import ListNotations.
Open Scope string_scope.
Open Scope list_scope.

(** ** Python strings *)

Module pystr.

(** The regular expressions of the source, as syntax trees. *)
Inductive regex : Type :=
| RLit (c : ascii)
| RAny
| RDigit
| RNonSpace
| RSeq (r1 r2 : regex)
| RStar (r : regex)
| RPlus (r : regex)
| RGroup (r : regex).

Class PyStr := {
  str_lower : string -> string;
  str_upper : string -> string;
  str_title : string -> string;
  str_strip : string -> string;
  str_splitlines : string -> list string;
  str_len : string -> nat;
  (** [str_prefix n s] is the slice [s[:n]]. *)
  str_prefix : nat -> string -> string;
  (** [re.search(r, s)]: [None] when nothing matches, else the groups
      1, 2, ... of the leftmost match. *)
  re_search : regex -> string -> option (list string)
}.

(** [sub in s] *)
Fixpoint str_in (sub s : string) : bool :=
  prefix sub s ||
  match s with
  | EmptyString => false
  | String _ s' => str_in sub s'
  end.

(** [s.startswith(p)] *)
Definition startswith (s p : string) : bool := prefix p s.

(** Truth value of a string: the empty string is false. *)
Definition str_truthy (s : string) : bool :=
  match s with EmptyString => false | _ => true end.

(** [a or b] on strings. *)
Definition str_or (a b : string) : string := if str_truthy a then a else b.

(** [x in l] for a list of strings. *)
Definition mem (x : string) (l : list string) : bool :=
  existsb (String.eqb x) l.

(** [str(n)] for a natural number. *)
Definition str_of_nat (n : nat) : string := NilZero.string_of_uint (Nat.to_uint n).

(** [str(z)] for an integer. *)
Definition str_of_Z (z : Z) : string :=
  match z with
  | Zneg p => "-" ++ str_of_nat (Pos.to_nat p)
  | _ => str_of_nat (Z.to_nat z)
  end.

(** The ASCII reading of the Unicode-dependent methods. *)

Definition is_upper (c : ascii) : bool :=
  let n := nat_of_ascii c in (65 <=? n)%nat && (n <=? 90)%nat.

Definition is_lower (c : ascii) : bool :=
  let n := nat_of_ascii c in (97 <=? n)%nat && (n <=? 122)%nat.

Definition lower_char (c : ascii) : ascii :=
  if is_upper c then ascii_of_nat (nat_of_ascii c + 32) else c.

Definition upper_char (c : ascii) : ascii :=
  if is_lower c then ascii_of_nat (nat_of_ascii c - 32) else c.

Fixpoint map_string (f : ascii -> ascii) (s : string) : string :=
  match s with
  | EmptyString => EmptyString
  | String c s' => String (f c) (map_string f s')
  end.

Fixpoint title_from (prev_cased : bool) (s : string) : string :=
  match s with
  | EmptyString => EmptyString
  | String c s' =>
      if is_upper c || is_lower c
      then String (if prev_cased then lower_char c else upper_char c) (title_from true s')
      else String c (title_from false s')
  end.

Definition is_space (c : ascii) : bool :=
  let n := nat_of_ascii c in
  ((9 <=? n)%nat && (n <=? 13)%nat) || ((28 <=? n)%nat && (n <=? 32)%nat).

Fixpoint lstrip (s : string) : string :=
  match s with
  | String c s' => if is_space c then lstrip s' else s
  | EmptyString => EmptyString
  end.

Fixpoint rstrip (s : string) : string :=
  match s with
  | EmptyString => EmptyString
  | String c s' =>
      match rstrip s' with
      | EmptyString => if is_space c then EmptyString else String c EmptyString
      | r => String c r
      end
  end.

Definition is_linebreak (c : ascii) : bool :=
  let n := nat_of_ascii c in
  ((10 <=? n)%nat && (n <=? 13)%nat) || ((28 <=? n)%nat && (n <=? 30)%nat).

Fixpoint splitlines_from (cur : string) (s : string) : list string :=
  match s with
  | EmptyString => if str_truthy cur then [cur] else []
  | String c s' =>
      if Ascii.eqb c "013"%char then
        match s' with
        | String "010"%char s'' => cur :: splitlines_from EmptyString s''
        | _ => cur :: splitlines_from EmptyString s'
        end
      else if is_linebreak c then cur :: splitlines_from EmptyString s'
      else splitlines_from (cur ++ String c EmptyString) s'
  end.

Definition is_digit (c : ascii) : bool :=
  let n := nat_of_ascii c in (48 <=? n)%nat && (n <=? 57)%nat.

Definition one_char (p : ascii -> bool) (s : string) (caps : list string)
    (k : string -> list string -> option (list string)) : option (list string) :=
  match s with
  | String c s' => if p c then k s' caps else None
  | EmptyString => None
  end.

(** Greedy repetition of the matcher [m], then the continuation [k]. *)
Fixpoint star (m : string -> list string ->
                   (string -> list string -> option (list string)) -> option (list string))
    (k : string -> list string -> option (list string))
    (fuel : nat) (s : string) (caps : list string) : option (list string) :=
  match fuel with
  | O => k s caps
  | S fuel' =>
      match m s caps (fun s' caps' =>
                        if (String.length s' <? String.length s)%nat
                        then star m k fuel' s' caps' else None) with
      | Some r => Some r
      | None => k s caps
      end
  end.

(** A backtracking matcher: [rmatch r s caps k] matches [r] at the start
    of [s] and hands the rest of [s] and the groups closed so far to [k]. *)
Fixpoint rmatch (r : regex) (s : string) (caps : list string)
    (k : string -> list string -> option (list string)) {struct r} : option (list string) :=
  match r with
  | RLit c => one_char (Ascii.eqb c) s caps k
  | RAny => one_char (fun c => negb (Ascii.eqb c "010"%char)) s caps k
  | RDigit => one_char is_digit s caps k
  | RNonSpace => one_char (fun c => negb (is_space c)) s caps k
  | RSeq r1 r2 => rmatch r1 s caps (fun s' caps' => rmatch r2 s' caps' k)
  | RStar r' => star (rmatch r') k (S (String.length s)) s caps
  | RPlus r' =>
      rmatch r' s caps (fun s' caps' => star (rmatch r') k (S (String.length s')) s' caps')
  | RGroup r' =>
      rmatch r' s caps
        (fun s' caps' =>
           k s' (caps' ++ [substring 0 (String.length s - String.length s') s]))
  end.

Fixpoint search_from (r : regex) (s : string) : option (list string) :=
  match rmatch r s [] (fun _ caps => Some caps) with
  | Some caps => Some caps
  | None =>
      match s with
      | String _ s' => search_from r s'
      | EmptyString => None
      end
  end.

Definition ascii_PyStr : PyStr := {|
  str_lower := map_string lower_char;
  str_upper := map_string upper_char;
  str_title := title_from false;
  str_strip := fun s => rstrip (lstrip s);
  str_splitlines := splitlines_from EmptyString;
  str_len := String.length;
  str_prefix := fun n s => substring 0 n s;
  re_search := search_from
|}.

End pystr.
Export pystr.

(** ** Python dicts, in insertion order *)

Module pydict.

Definition dict (V : Type) := list (string * V).

(** [d.get(k)] *)
Fixpoint dict_get {V} (d : dict V) (k : string) : option V :=
  match d with
  | [] => None
  | (k', v) :: d' => if String.eqb k k' then Some v else dict_get d' k
  end.

(** [k in d] *)
Definition dict_has {V} (d : dict V) (k : string) : bool :=
  match dict_get d k with Some _ => true | None => false end.

(** [d[k] = v]: an existing key keeps its place, a new one goes last. *)
Fixpoint dict_set {V} (d : dict V) (k : string) (v : V) : dict V :=
  match d with
  | [] => [(k, v)]
  | (k', v') :: d' =>
      if String.eqb k k' then (k', v) :: d' else (k', v') :: dict_set d' k v
  end.

Definition dict_keys {V} (d : dict V) : list string := map fst d.
Definition dict_values {V} (d : dict V) : list V := map snd d.

(** A dict holds each key once. *)
Definition dict_wf {V} (d : dict V) : Prop := NoDup (dict_keys d).

(** Truth value of [d.get(k)] for a [Dict[str, bool]]: [None] and [False]
    are false. *)
Definition get_truthy (d : dict bool) (k : string) : bool :=
  match dict_get d k with Some true => true | _ => false end.

End pydict.
Export pydict.

(** ** core/config.py and the host *)

Module config.

(** What the code reads from the machine it runs on. *)
Record Host := {
  (** [platform.system()] *)
  platform_system : string;
  (** [shutil.which(name) is not None] *)
  which : string -> bool;
  (** [sys.executable]; the empty string when it is [None] or empty. *)
  sys_executable : string
}.

(** The keys of [MANAGER_INSTALL_HANDLERS], in the order of the source. *)
Definition MANAGER_INSTALL_HANDLERS : dict string :=
  [ ("pip", "pip_install"); ("npm", "npm_install"); ("apt", "apt_install");
    ("dnf", "dnf_install"); ("yum", "yum_install"); ("pacman", "pacman_install");
    ("zypper", "zypper_install"); ("apk", "apk_install"); ("brew", "brew_install");
    ("choco", "choco_install"); ("winget", "winget_install"); ("snap", "snap_install");
    ("flatpak", "flatpak_install") ].

Section with_strings.
Context {PS : PyStr}.

Definition _os_type (h : Host) : string :=
  let s := str_lower (platform_system h) in
  if startswith s "win" then "windows"
  else if String.eqb s "darwin" then "macos"
  else if String.eqb s "linux" then "linux"
  else "unknown".

End with_strings.
End config.
Export config.

(** ** managers/detection.py *)

Module detection.
Section with_strings.
Context {PS : PyStr}.

Definition _get_python_commands (h : Host) : list (list string) :=
  let commands := [] in
  let commands :=
    if str_truthy (sys_executable h) then commands ++ [[sys_executable h]] else commands in
  fold_left
    (fun commands cmd => if which h cmd then commands ++ [[cmd]] else commands)
    ["python3"; "python"; "py"] commands.

(** [cmd[0]] of an argument vector (never empty where it is used). *)
Definition argv0 (cmd : list string) : string := hd EmptyString cmd.

Definition _detect_installed_managers (h : Host) : dict bool :=
  fold_left
    (fun available name =>
       if String.eqb name "pip" then
         let python_cmds := _get_python_commands h in
         dict_set available name
           (existsb (fun cmd => which h (argv0 cmd))
                    (filter (fun cmd => match cmd with [] => false | _ => true end) python_cmds))
       else dict_set available name (which h name))
    (dict_keys MANAGER_INSTALL_HANDLERS) [].

Definition manager_names : dict string :=
  [ ("pip", "Python (pip)"); ("npm", "Node.js (npm)"); ("apt", "APT"); ("dnf", "DNF");
    ("yum", "YUM"); ("pacman", "Pacman"); ("zypper", "Zypper"); ("apk", "APK");
    ("brew", "Homebrew"); ("choco", "Chocolatey"); ("winget", "Winget");
    ("snap", "Snap"); ("flatpak", "Flatpak") ].

Definition _manager_human (name : string) : string :=
  match dict_get manager_names name with
  | Some n => n
  | None => str_title name
  end.

Definition linux_managers : list (string * list string) :=
  [ ("apt", ["apt"; "apt-get"]); ("dnf", ["dnf"]); ("yum", ["yum"]);
    ("pacman", ["pacman"]); ("zypper", ["zypper"]); ("apk", ["apk"]) ].

(** The loop over [linux_managers]: the first manager one of whose
    commands is on the PATH decides. *)
Fixpoint first_linux_manager (h : Host) (l : list (string * list string)) : list string :=
  match l with
  | [] => ["snap"; "flatpak"]
  | (manager, commands) :: l' =>
      if existsb (which h) commands then [manager; "snap"; "flatpak"]
      else first_linux_manager h l'
  end.

Definition _system_manager_priority (h : Host) : list string :=
  let ot := _os_type h in
  if String.eqb ot "macos" then ["brew"; "snap"; "flatpak"]
  else if String.eqb ot "windows" then ["winget"; "choco"]
  else if String.eqb ot "linux" then first_linux_manager h linux_managers
  else ["snap"; "flatpak"].

Definition python_indicators : list string := ["=="; ">="; "<="; "~="; "!="; "["; "]"].
Definition python_common : list string :=
  ["py"; "django"; "flask"; "numpy"; "pandas"; "requests"; "boto3"; "tensorflow"; "torch"].

Definition _looks_like_python_pkg (pkg : string) : bool :=
  if existsb (fun indicator => str_in indicator pkg) python_indicators then true
  else
    let pkg_lower := str_lower pkg in
    if existsb (fun prefix => startswith pkg_lower prefix) python_common then true
    else false.

Definition npm_common : list string :=
  ["express"; "react"; "vue"; "angular"; "typescript"; "eslint"; "webpack"; "lodash"; "axios"].

Definition _looks_like_npm_pkg (pkg : string) : bool :=
  let npm_indicators := startswith pkg "@" in
  if npm_indicators then true
  else
    let pkg_lower := str_lower pkg in
    if mem pkg_lower npm_common then true else false.

(** [if cond and manager not in prefs: prefs.append(manager)] *)
Definition append_new (cond : bool) (manager : string) (prefs : list string) : list string :=
  if cond && negb (mem manager prefs) then prefs ++ [manager] else prefs.

Definition _ordered_install_manager_candidates
    (h : Host) (pkg : string) (installed : dict bool) : list string :=
  let prefs := [] in
  let prefs :=
    if _looks_like_python_pkg pkg && get_truthy installed "pip"
    then prefs ++ ["pip"] else prefs in
  let prefs :=
    if _looks_like_npm_pkg pkg && get_truthy installed "npm"
    then prefs ++ ["npm"] else prefs in
  let prefs :=
    fold_left (fun prefs manager => append_new (get_truthy installed manager) manager prefs)
              (_system_manager_priority h) prefs in
  let prefs :=
    fold_left (fun prefs '(manager, is_installed) => append_new is_installed manager prefs)
              installed prefs in
  prefs.

End with_strings.
End detection.
Export detection.

(** ** Values exchanged with the collaborators *)

Module values.

(** A call either returns or raises an exception, kept as its text
    [str(e)]. *)
Inductive result (A : Type) : Type :=
| Ok (a : A)
| Raise (msg : string).
Arguments Ok {A} a.
Arguments Raise {A} msg.

(** core/execution.py, [RunResult] *)
Record RunResult := mkRunResult {
  ok : bool;
  code : Z;
  out : string;
  err : string
}.

(** One orchestration attempt: [(manager, RunResult)]. *)
Definition AttemptRecord : Type := string * RunResult.

(** A decoded JSON document, as [r.json()] returns it. *)
#[warnings="-register-all"] Inductive json : Type :=
| JNull
| JBool (b : bool)
| JNum (q : Q)
| JStr (s : string)
| JArr (l : list json)
| JObj (fields : list (string * json)).

(** search/engine.py, [SearchResult].  The fields filled from a decoded
    document hold whatever the document holds. *)
Record SearchResult := mkSearchResult {
  name : json;
  description : json;
  version : json;
  manager : string;
  homepage : json;
  relevance_score : Q
}.

(** The response of [session.get]: the status and what [r.json()] gives. *)
Record Response := mkResponse {
  status_code : Z;
  json_body : result json
}.

(** The effects a run leaves behind, oldest first. *)
Inductive event : Type :=
| Cprint (text color : string)
| RunCommand (cmd : list string) (timeout retries : Z) (show_progress : bool)
| AddPackage (pkg_name pkg_version pkg_manager command : string)
| RemovePackage (pkg_name pkg_manager : string)
| HttpGet (url : string) (timeout : Z)
| SearchCall (mgr query : string).

(** The collaborators, as functions of the state of the outside world.
    - [world_run_command]: [core.execution.run_command];
    - [world_add_package], [world_remove_package]: [core.database.package_db];
    - [world_http_get]: [requests.Session.get];
    - [world_search]: the search functions of the managers other than
      pip ([_search_npm], [_search_brew], [_cli_search]);
    - [world_completed]: for the futures submitted to the pool, the ones
      that complete before the deadline of [as_completed], in the order
      in which they complete. *)
Class World (W : Type) := {
  world_run_command : list string -> Z -> Z -> bool -> W -> result RunResult * W;
  world_add_package : string -> string -> string -> string -> W -> result unit * W;
  world_remove_package : string -> string -> W -> result unit * W;
  world_http_get : string -> Z -> W -> result Response * W;
  world_search : string -> string -> W -> result (list SearchResult) * W;
  world_completed : list string -> W -> list string
}.

(** What becomes of a process started with [subprocess.Popen] and waited
    for with [communicate(timeout)]. *)
Inductive spawned : Type :=
| PopenRaises (e : string)
| Exits (returncode : Z) (stdout stderr : string)
| TimesOut (stdout stderr : string)
| CommunicateRaises (e : string).

(** The operating system and the libraries under the collaborators:
    [subprocess], [sqlite3], [requests], and, as in [World], the search
    functions of the other managers and the completion of the futures. *)
Class System (S : Type) := {
  sys_spawn : list string -> Z -> S -> spawned * S;
  sys_sqlite_connect : S -> result unit * S;
  sys_sqlite_execute : string -> list string -> S -> result unit * S;
  sys_sqlite_commit : S -> result unit * S;
  sys_http_get : string -> Z -> S -> result Response * S;
  sys_search : string -> string -> S -> result (list SearchResult) * S;
  sys_completed : list string -> S -> list string
}.

End values.
Export values.

(** ** core/execution.py *)

Module execution.
Section with_system.
Context {S : Type} {SY : System S}.

(** The iterations of [for attempt in range(retries + 1)] that are left.
    A process that ends gives its result; one that is killed at the
    timeout gives the timeout result, without another try; an exception
    gives the exception result on the last iteration and another try
    before it.  The lines printed and the pauses are left out. *)
Fixpoint run_attempts (cmd : list string) (timeout retries attempt : Z) (left : nat) (s : S)
  : RunResult * S :=
  match left with
  | O => (mkRunResult false (-1) "" "All retry attempts failed", s)
  | Datatypes.S left' =>
      let (outcome, s') := sys_spawn cmd timeout s in
      match outcome with
      | Exits returncode stdout stderr =>
          (mkRunResult (returncode =? 0)%Z returncode stdout stderr, s')
      | TimesOut stdout _ =>
          (mkRunResult false (-1) stdout
             ("Command timed out after " ++ str_of_Z timeout ++ " seconds"), s')
      | PopenRaises e | CommunicateRaises e =>
          if (attempt =? retries)%Z
          then (mkRunResult false (-1) "" ("Exception: " ++ e), s')
          else run_attempts cmd timeout retries (attempt + 1) left' s'
      end
  end.

Definition run_command (cmd : list string) (timeout retries : Z) (show_progress : bool) (s : S)
  : result RunResult * S :=
  let (r, s') := run_attempts cmd timeout retries 0 (Z.to_nat (retries + 1)) s in
  (Ok r, s').

End with_system.
End execution.

(** ** core/database.py *)

Module database.
Section with_system.
Context {S : Type} {SY : System S}.

(** [try: body  finally: conn.close()]: what [body] raises goes on. *)
Definition in_connection (body : S -> result unit * S) (s : S) : result unit * S :=
  match sys_sqlite_connect s with
  | (Ok _, s1) => body s1
  | (Raise e, s1) => (Raise e, s1)
  end.

Definition execute_and_commit (sql : string) (params : list string) (s : S)
  : result unit * S :=
  match sys_sqlite_execute sql params s with
  | (Ok _, s1) => sys_sqlite_commit s1
  | (Raise e, s1) => (Raise e, s1)
  end.

Definition add_package (name version manager command : string) : S -> result unit * S :=
  in_connection
    (execute_and_commit
       "INSERT OR REPLACE INTO installed_packages (name, version, manager, install_command) VALUES (?, ?, ?, ?)"
       [name; str_or version "unknown"; manager; command]).

Definition remove_package (name manager : string) : S -> result unit * S :=
  in_connection
    (if str_truthy manager
     then execute_and_commit
            "DELETE FROM installed_packages WHERE name = ? AND manager = ?" [name; manager]
     else execute_and_commit "DELETE FROM installed_packages WHERE name = ?" [name]).

End with_system.
End database.

(** The collaborators as this program implements them over a system. *)
#[export] Instance System_World {S : Type} {SY : System S} : World S := {|
  world_run_command := execution.run_command;
  world_add_package := database.add_package;
  world_remove_package := database.remove_package;
  world_http_get := sys_http_get;
  world_search := sys_search;
  world_completed := sys_completed
|}.

(** ** The state, effect and exception monad of the orchestrators *)

Module monad.
Section with_world.
Context {W : Type} {WO : World W}.

(** The state: the outside world and the local list [attempts]. *)
Record St := mkSt {
  world : W;
  attempts : list AttemptRecord
}.

(** What a computation does from a state: it returns or raises, leaves a
    state, and has produced effects, oldest first.  The state reached
    when an exception is raised is kept: what was appended before stays
    appended. *)
Record Run (A : Type) := mkRun {
  value : result A;
  final : St;
  effects : list event
}.
Arguments mkRun {A} value final effects.
Arguments value {A} r.
Arguments final {A} r.
Arguments effects {A} r.

Definition M (A : Type) : Type := St -> Run A.

Definition ret {A} (a : A) : M A := fun st => mkRun (Ok a) st [].

Definition bind {A B} (c : M A) (k : A -> M B) : M B :=
  fun st =>
    let r1 := c st in
    match value r1 with
    | Ok a =>
        let r2 := k a (final r1) in
        mkRun (value r2) (final r2) (effects r1 ++ effects r2)
    | Raise msg => mkRun (Raise msg) (final r1) (effects r1)
    end.

Definition raise {A} (msg : string) : M A := fun st => mkRun (Raise msg) st [].

(** [try: body  except Exception as e: handler(str(e))] *)
Definition try_except {A} (body : M A) (handler : string -> M A) : M A :=
  fun st =>
    let r1 := body st in
    match value r1 with
    | Ok a => r1
    | Raise msg =>
        let r2 := handler msg (final r1) in
        mkRun (value r2) (final r2) (effects r1 ++ effects r2)
    end.

Definition emit (e : event) : M unit := fun st => mkRun (Ok tt) st [e].

(** Calls a collaborator on the world. *)
Definition call {A} (f : W -> result A * W) : M A :=
  fun st =>
    let (r, w') := f (world st) in
    mkRun r (mkSt w' (attempts st)) [].

(** Reads the world. *)
Definition observe {A} (f : W -> A) : M A :=
  fun st => mkRun (Ok (f (world st))) st [].

(** Runs in [M] a call whose outcome is already known. *)
Definition lift {A} (r : result A) : M A := fun st => mkRun r st [].

(** core/logger.py, [cprint] *)
Definition cprint (text color : string) : M unit := emit (Cprint text color).

(** core/execution.py, [run_command], through the world. *)
Definition run_command (cmd : list string) (timeout retries : Z) (show_progress : bool)
  : M RunResult :=
  bind (emit (RunCommand cmd timeout retries show_progress))
       (fun _ => call (world_run_command cmd timeout retries show_progress)).

(** core/database.py, [package_db.add_package] and [remove_package]. *)
Definition add_package (n v m c : string) : M unit :=
  bind (emit (AddPackage n v m c)) (fun _ => call (world_add_package n v m c)).

Definition remove_package_record (n m : string) : M unit :=
  bind (emit (RemovePackage n m)) (fun _ => call (world_remove_package n m)).

(** [attempts = []], [attempts.append(a)] and reading [attempts]. *)
Definition reset_attempts : M unit :=
  fun st => mkRun (Ok tt) (mkSt (world st) []) [].

Definition append_attempt (a : AttemptRecord) : M unit :=
  fun st => mkRun (Ok tt) (mkSt (world st) (attempts st ++ [a])) [].

Definition get_attempts : M (list AttemptRecord) :=
  fun st => mkRun (Ok (attempts st)) st [].

End with_world.

Arguments St W : clear implicits.
Arguments Run W A : clear implicits.
Arguments M W A : clear implicits.
Arguments mkRun {W A} value final effects.
Arguments value {W A} r.
Arguments final {W A} r.
Arguments effects {W A} r.

Declare Scope monad_scope.
Delimit Scope monad_scope with monad.
Notation "x <- c1 ;; c2" := (bind c1 (fun x => c2))
  (at level 61, c1 at next level, right associativity) : monad_scope.
Notation "c1 ;; c2" := (bind c1 (fun _ => c2))
  (at level 61, right associativity) : monad_scope.

End monad.
Export monad.
Open Scope monad_scope.

(** ** managers/commands.py *)

Module commands.
Section with_strings.
Context {PS : PyStr}.

(** The loop shared by [_pip_install] and [_pip_remove]: the first Python
    command that is on the PATH, else [sys.executable]. *)
Fixpoint first_python (h : Host) (python_cmds : list (list string)) (args : list string)
  : list string :=
  match python_cmds with
  | [] => sys_executable h :: args
  | cmd :: rest => if which h (argv0 cmd) then cmd ++ args else first_python h rest args
  end.

Definition _pip_install (h : Host) (pkg : string) : list string :=
  first_python h (_get_python_commands h) ["-m"; "pip"; "install"; "--user"; pkg].
Definition _npm_install (pkg : string) : list string := ["npm"; "install"; "-g"; pkg].
Definition _apt_install (pkg : string) : list string := ["sudo"; "apt"; "install"; "-y"; pkg].
Definition _dnf_install (pkg : string) : list string := ["sudo"; "dnf"; "install"; "-y"; pkg].
Definition _yum_install (pkg : string) : list string := ["sudo"; "yum"; "install"; "-y"; pkg].
Definition _pacman_install (pkg : string) : list string :=
  ["sudo"; "pacman"; "-S"; "--noconfirm"; pkg].
Definition _zypper_install (pkg : string) : list string :=
  ["sudo"; "zypper"; "--non-interactive"; "install"; pkg].
Definition _apk_install (pkg : string) : list string := ["sudo"; "apk"; "add"; pkg].
Definition _brew_install (pkg : string) : list string := ["brew"; "install"; pkg].
Definition _choco_install (pkg : string) : list string := ["choco"; "install"; "-y"; pkg].
Definition _winget_install (pkg : string) : list string :=
  ["winget"; "install"; "--silent"; "--accept-package-agreements";
   "--accept-source-agreements"; pkg].
Definition _snap_install (pkg : string) : list string := ["sudo"; "snap"; "install"; pkg].
Definition _flatpak_install (pkg : string) : list string := ["flatpak"; "install"; "-y"; pkg].

Definition _pip_remove (h : Host) (pkg : string) : list string :=
  first_python h (_get_python_commands h) ["-m"; "pip"; "uninstall"; "-y"; pkg].
Definition _npm_remove (pkg : string) : list string := ["npm"; "uninstall"; "-g"; pkg].
Definition _brew_remove (pkg : string) : list string := ["brew"; "uninstall"; pkg].
Definition _apt_remove (pkg : string) : list string := ["sudo"; "apt"; "remove"; "-y"; pkg].
Definition _dnf_remove (pkg : string) : list string := ["sudo"; "dnf"; "remove"; "-y"; pkg].
Definition _yum_remove (pkg : string) : list string := ["sudo"; "yum"; "remove"; "-y"; pkg].
Definition _pacman_remove (pkg : string) : list string :=
  ["sudo"; "pacman"; "-R"; "--noconfirm"; pkg].
Definition _snap_remove (pkg : string) : list string := ["sudo"; "snap"; "remove"; pkg].
Definition _flatpak_remove (pkg : string) : list string := ["flatpak"; "uninstall"; "-y"; pkg].

Definition INSTALL_HANDLERS (h : Host) : dict (string -> list string) :=
  [ ("pip", _pip_install h); ("npm", _npm_install); ("apt", _apt_install);
    ("dnf", _dnf_install); ("yum", _yum_install); ("pacman", _pacman_install);
    ("zypper", _zypper_install); ("apk", _apk_install); ("brew", _brew_install);
    ("choco", _choco_install); ("winget", _winget_install); ("snap", _snap_install);
    ("flatpak", _flatpak_install) ].

Definition REMOVE_HANDLERS (h : Host) : dict (string -> list string) :=
  [ ("pip", _pip_remove h); ("npm", _npm_remove); ("brew", _brew_remove);
    ("apt", _apt_remove); ("dnf", _dnf_remove); ("yum", _yum_remove);
    ("pacman", _pacman_remove); ("snap", _snap_remove); ("flatpak", _flatpak_remove) ].

End with_strings.
End commands.
Export commands.

(** ** managers/installer.py *)

Module installer.
Section with_world.
Context {PS : PyStr} {W : Type} {WO : World W}.
Local Abbreviation M := (monad.M W).

Fixpoint rlit (s : string) (rest : regex) : regex :=
  match s with
  | EmptyString => rest
  | String c s' => RSeq (RLit c) (rlit s' rest)
  end.

(** [(\d+\.\d+\.\d+)] *)
Definition version_group : regex :=
  RGroup (RSeq (RPlus RDigit) (RSeq (RLit ".") (RSeq (RPlus RDigit)
         (RSeq (RLit ".") (RPlus RDigit))))).

(** [Successfully installed .* (\S+)-(\d+\.\d+\.\d+)] *)
Definition pip_version_re : regex :=
  rlit "Successfully installed "
    (RSeq (RStar RAny) (RSeq (RLit " ") (RSeq (RGroup (RPlus RNonSpace))
       (RSeq (RLit "-") version_group)))).

(** [@(\d+\.\d+\.\d+)] *)
Definition npm_version_re : regex := RSeq (RLit "@") version_group.

(** [m.group(n)] of a match [m]; a missing group raises, which the bare
    [except] of the caller turns into the sentinel. *)
Definition group_or_installed (m : option (list string)) (n : nat) : string :=
  match m with
  | Some groups =>
      match nth_error groups (n - 1) with
      | Some g => g
      | None => "installed"
      end
  | None => "installed"
  end.

Definition _extract_package_version (output manager : string) : string :=
  if String.eqb manager "pip" then group_or_installed (re_search pip_version_re output) 2
  else if String.eqb manager "npm" then group_or_installed (re_search npm_version_re output) 1
  else if mem manager ["apt"; "dnf"; "yum"]
       then group_or_installed (re_search version_group output) 1
  else "installed".

(** The report of a failed attempt, the same lines in [install_package]
    and [remove_package]. *)
Definition report_failure (manager : string) (res : RunResult) : M unit :=
  let err_msg := str_strip (str_or (err res) (out res)) in
  if str_truthy err_msg then
    let error_lines := str_splitlines err_msg in
    let relevant_error := last error_lines "Unknown error" in
    let relevant_error :=
      if (180 <? str_len relevant_error)%nat
      then (str_prefix 177 relevant_error ++ "...")%string else relevant_error in
    cprint (_manager_human manager ++ " failed: " ++ relevant_error) "WARNING"
  else
    cprint (_manager_human manager ++ " failed with no error message") "WARNING".

(** The [except Exception as e] clause of both loops. *)
Definition attempt_failed (manager : string) (e : string) : M (option bool) :=
  let err_result := mkRunResult false (-1) "" e in
  append_attempt (manager, err_result) ;;
  cprint (_manager_human manager ++ " failed with exception: " ++ e) "WARNING" ;;
  ret None.

(** The [try] block of the install loop.  [Some b] is [return (b,
    attempts)]; [None] falls through to the next candidate. *)
Definition install_try (pkg : string) (i total : nat) (manager : string)
    (cmd_builder : string -> list string) : M (option bool) :=
  let cmd := cmd_builder pkg in
  cprint ("Attempt " ++ str_of_nat i ++ "/" ++ str_of_nat total ++ ": Installing via "
          ++ _manager_human manager ++ "...") "INFO" ;;
  res <- run_command cmd 1800 0 true ;;
  append_attempt (manager, res) ;;
  if ok res then
    let version := _extract_package_version (out res) manager in
    add_package pkg version manager (String.concat " " cmd) ;;
    cprint ("Successfully installed '" ++ pkg ++ "' via " ++ _manager_human manager) "SUCCESS" ;;
    ret (Some true)
  else
    report_failure manager res ;;
    ret None.

(** The [try] statement of the install loop. *)
Definition install_attempt (pkg : string) (i total : nat) (manager : string)
    (cmd_builder : string -> list string) : M (option bool) :=
  try_except (install_try pkg i total manager cmd_builder) (attempt_failed manager).

(** [for i, manager in enumerate(candidates, 1): ...] and what follows
    the loop. *)
Fixpoint install_loop (h : Host) (pkg : string) (total i : nat) (candidates : list string)
  : M (bool * list AttemptRecord) :=
  match candidates with
  | [] =>
      cprint ("Failed to install '" ++ pkg ++ "' with all available managers.") "ERROR" ;;
      a <- get_attempts ;;
      ret (false, a)
  | manager :: rest =>
      match dict_get (INSTALL_HANDLERS h) manager with
      | None => install_loop h pkg total (S i) rest
      | Some cmd_builder =>
          r <- install_attempt pkg i total manager cmd_builder ;;
          match r with
          | Some b => a <- get_attempts ;; ret (b, a)
          | None => install_loop h pkg total (S i) rest
          end
      end
  end.

(** [for i, m in enumerate(candidates, 1): cprint(...)] *)
Fixpoint print_plan (i : nat) (candidates : list string) : M unit :=
  match candidates with
  | [] => ret tt
  | m :: rest =>
      cprint ("  " ++ str_of_nat i ++ ". " ++ _manager_human m) "MUTED" ;;
      print_plan (S i) rest
  end.

(** [[m for m, avail in installed.items() if avail]] *)
Definition available_managers (installed : dict bool) : list string :=
  map fst (filter snd installed).

(** [any(installed.values())] *)
Definition any_installed (installed : dict bool) : bool :=
  existsb (fun b => b) (dict_values installed).

(** The candidate list of [install_package] after the preferred manager
    has been looked at, and whether the warning is printed. *)
Definition install_candidates (h : Host) (pkg : string) (installed : dict bool)
    (preferred_manager : option string) : M (list string) :=
  let candidates := _ordered_install_manager_candidates h pkg installed in
  match preferred_manager with
  | Some p =>
      if str_truthy p then
        let pm := str_lower p in
        if dict_has (INSTALL_HANDLERS h) pm && get_truthy installed pm then
          ret (pm :: filter (fun m => negb (String.eqb m pm)) candidates)
        else
          cprint ("Warning: --manager '" ++ p ++ "' not available. Available: "
                  ++ String.concat ", " (available_managers installed)) "WARNING" ;;
          ret candidates
      else ret candidates
  | None => ret candidates
  end.

(** What [install_package] does once it has its candidates. *)
Definition install_run (h : Host) (pkg : string) (candidates : list string)
  : M (bool * list AttemptRecord) :=
  match candidates with
  | [] =>
      cprint "No package managers available for installation." "ERROR" ;;
      ret (false, [])
  | _ =>
      cprint "Installation plan:" "CYAN" ;;
      print_plan 1 candidates ;;
      install_loop h pkg (length candidates) 1 candidates
  end.

(** [install_package], from the availability map on. *)
Definition install_package_with (h : Host) (installed : dict bool) (pkg : string)
    (preferred_manager : option string) : M (bool * list AttemptRecord) :=
  cprint ("Preparing to install: " ++ pkg) "INFO" ;;
  if negb (any_installed installed) then
    cprint "No supported package managers are available on this system." "ERROR" ;;
    ret (false, [])
  else
    reset_attempts ;;
    candidates <- install_candidates h pkg installed preferred_manager ;;
    install_run h pkg candidates.

Definition install_package (h : Host) (pkg : string) (preferred_manager : option string)
  : M (bool * list AttemptRecord) :=
  install_package_with h (_detect_installed_managers h) pkg preferred_manager.

(** The [try] block of the removal loop. *)
Definition remove_try (pkg : string) (mgr : string)
    (cmd_builder : string -> list string) : M (option bool) :=
  let cmd := cmd_builder pkg in
  cprint ("Attempting removal via " ++ _manager_human mgr ++ "...") "INFO" ;;
  res <- run_command cmd 600 0 true ;;
  append_attempt (mgr, res) ;;
  if ok res then
    remove_package_record pkg mgr ;;
    cprint ("Removed '" ++ pkg ++ "' via " ++ _manager_human mgr) "SUCCESS" ;;
    ret (Some true)
  else
    report_failure mgr res ;;
    ret None.

(** The [try] statement of the removal loop. *)
Definition remove_attempt (pkg : string) (mgr : string)
    (cmd_builder : string -> list string) : M (option bool) :=
  try_except (remove_try pkg mgr cmd_builder) (attempt_failed mgr).

Fixpoint remove_loop (h : Host) (pkg : string) (candidates : list string)
  : M (bool * list AttemptRecord) :=
  match candidates with
  | [] =>
      cprint ("Failed to remove '" ++ pkg ++ "' with all available managers.") "ERROR" ;;
      a <- get_attempts ;;
      ret (false, a)
  | mgr :: rest =>
      match dict_get (REMOVE_HANDLERS h) mgr with
      | None => remove_loop h pkg rest
      | Some cmd_builder =>
          r <- remove_attempt pkg mgr cmd_builder ;;
          match r with
          | Some b => a <- get_attempts ;; ret (b, a)
          | None => remove_loop h pkg rest
          end
      end
  end.

(** [remove_package], from the availability map on. *)
Definition remove_package_with (h : Host) (installed : dict bool) (pkg : string)
    (manager : option string) : M (bool * list AttemptRecord) :=
  cprint ("Preparing to remove: " ++ pkg) "INFO" ;;
  if negb (any_installed installed) then
    cprint "No supported package managers are available on this system." "ERROR" ;;
    ret (false, [])
  else
    reset_attempts ;;
    let explicit :=
      match manager with
      | Some m => if str_truthy m then Some m else None
      | None => None
      end in
    match explicit with
    | Some m =>
        if dict_has (REMOVE_HANDLERS h) (str_lower m) && get_truthy installed (str_lower m)
        then
          let candidates := [str_lower m] in
          remove_loop h pkg candidates
        else
          cprint ("Manager '" ++ m ++ "' not available for package removal") "ERROR" ;;
          ret (false, [])
    | None =>
        let candidates := _ordered_install_manager_candidates h pkg installed in
        let candidates := filter (fun m => dict_has (REMOVE_HANDLERS h) m) candidates in
        match candidates with
        | [] =>
            cprint "No package managers available for package removal." "ERROR" ;;
            ret (false, [])
        | _ => remove_loop h pkg candidates
        end
    end.

Definition remove_package (h : Host) (pkg : string) (manager : option string)
  : M (bool * list AttemptRecord) :=
  remove_package_with h (_detect_installed_managers h) pkg manager.

End with_world.
End installer.
Export installer.

(** ** search/engine.py *)

Module engine.
Section with_world.
Context {PS : PyStr} {W : Type} {WO : World W}.
Local Abbreviation M := (monad.M W).

(** Sequencing of calls that may raise, outside the state. *)
Definition and_then {A B} (r : result A) (k : A -> result B) : result B :=
  match r with
  | Ok a => k a
  | Raise msg => Raise msg
  end.

(** [d.get(k, default)]: only a dict has [get]. *)
Definition json_get (d : json) (k : string) (default : json) : result json :=
  match d with
  | JObj fields =>
      Ok (match dict_get fields k with Some v => v | None => default end)
  | _ => Raise "AttributeError: object has no attribute 'get'"
  end.

(** [v[:n]]: a string or a list can be sliced. *)
Definition json_slice_to (n : nat) (v : json) : result json :=
  match v with
  | JStr s => Ok (JStr (str_prefix n s))
  | JArr l => Ok (JArr (firstn n l))
  | _ => Raise "TypeError: object is not subscriptable"
  end.

(** Truth value of a decoded value. *)
Definition json_truthy (v : json) : bool :=
  match v with
  | JNull => false
  | JBool b => b
  | JNum q => negb (Qeq_bool q 0)
  | JStr s => str_truthy s
  | JArr l => match l with [] => false | _ => true end
  | JObj f => match f with [] => false | _ => true end
  end.

Definition _parse_pypi_info (data : json) : result SearchResult :=
  and_then (json_get data "info" (JObj [])) (fun info =>
  and_then (json_get info "name" (JStr "")) (fun name =>
  and_then (json_get info "summary" (JStr "")) (fun summary =>
  and_then (json_slice_to 200 summary) (fun description =>
  and_then (json_get info "version" (JStr "unknown")) (fun version =>
  and_then (json_get info "home_page" JNull) (fun home_page =>
  and_then (if json_truthy home_page then Ok home_page
            else json_get info "project_url" JNull) (fun homepage =>
  Ok (mkSearchResult name description version "pip" homepage 50)))))))).

(** [self.session.get(url, timeout=t)] *)
Definition http_get (url : string) (timeout : Z) : M Response :=
  emit (HttpGet url timeout) ;; call (world_http_get url timeout).

Definition _search_pypi (query : string) : M (list SearchResult) :=
  try_except
    (let url := ("https://pypi.org/pypi/" ++ query ++ "/json")%string in
     r <- http_get url 10 ;;
     if (status_code r =? 200)%Z then
       data <- lift (json_body r) ;;
       found <- lift (_parse_pypi_info data) ;;
       ret [found]
     else ret [])
    (fun _ => ret []).

(** The keys of [manager_funcs]. *)
Definition manager_funcs : list string :=
  ["pip"; "npm"; "brew"; "apt"; "dnf"; "yum"; "pacman"; "zypper"; "apk";
   "choco"; "winget"; "snap"; "flatpak"].

(** [manager_funcs[mgr](query)]: [_search_pypi] for pip, a call into the
    world for the others. *)
Definition search_task (mgr query : string) : M (list SearchResult) :=
  if String.eqb mgr "pip" then _search_pypi query
  else emit (SearchCall mgr query) ;; call (world_search mgr query).

(** [all_results.sort(key=lambda x: x.relevance_score, reverse=True)]:
    the stable sort of Python, largest score first.  An element goes in
    front of the later elements whose score is not larger. *)
Fixpoint insert_desc (x : SearchResult) (l : list SearchResult) : list SearchResult :=
  match l with
  | [] => [x]
  | y :: l' =>
      if Qle_bool (relevance_score y) (relevance_score x)
      then x :: y :: l' else y :: insert_desc x l'
  end.

Fixpoint sort_desc (l : list SearchResult) : list SearchResult :=
  match l with
  | [] => []
  | x :: l' => insert_desc x (sort_desc l')
  end.

(** [l[:limit]]: a negative limit counts from the end. *)
Definition slice_to {A} (limit : Z) (l : list A) : list A :=
  if (0 <=? limit)%Z then firstn (Z.to_nat limit) l
  else firstn (length l - Z.to_nat (- limit)) l.

(** The body of [for future in as_completed(...)], over the futures that
    complete in time, in the order in which they complete.  The call of a
    worker is run where its result is read. *)
Fixpoint gather (query : string) (done : list string) (all_results : list SearchResult)
  : M (list SearchResult) :=
  match done with
  | [] => ret all_results
  | mgr :: rest =>
      all_results <-
        try_except
          (results <- search_task mgr query ;;
           cprint (str_upper mgr ++ ": Found " ++ str_of_nat (length results) ++ " results")
                  "SUCCESS" ;;
           ret (all_results ++ results))
          (fun e =>
             cprint (str_upper mgr ++ ": Search failed - " ++ e) "WARNING" ;;
             ret all_results) ;;
      gather query rest all_results
  end.

(** The futures [as_completed] yields before its deadline. *)
Definition completed_futures (submitted : list string) (w : W) : list string :=
  nodup string_dec (filter (fun m => mem m submitted) (world_completed submitted w)).

(** The futures still pending at the deadline. *)
Definition unfinished (submitted done : list string) : list string :=
  filter (fun m => negb (mem m done)) submitted.

(** [target_managers]: the manager asked for, when it is available, else
    every available manager. *)
Definition target_managers (installed : dict bool) (manager : option string) : list string :=
  let explicit :=
    match manager with
    | Some m => if str_truthy m then Some m else None
    | None => None
    end in
  match explicit with
  | Some m => if get_truthy installed (str_lower m) then [str_lower m] else []
  | None => available_managers installed
  end.

(** The managers of the futures in [future_to_manager]. *)
Definition submitted_managers (installed : dict bool) (manager : option string)
  : list string :=
  filter (fun mgr => mem mgr manager_funcs) (target_managers installed manager).

(** [RealSearchEngine.search], from the availability map on.  When
    futures are pending at the deadline [as_completed] raises
    [TimeoutError] from the [for] statement, outside the [try] of its
    body. *)
Definition search_with (installed : dict bool) (query : string) (manager : option string)
    (limit : Z) : M (list SearchResult) :=
  cprint ("Searching for '" ++ query ++ "' across available package managers...") "INFO" ;;
  match target_managers installed manager with
  | [] =>
      cprint "No usable package managers available for searching." "ERROR" ;;
      ret []
  | _ =>
      let submitted := submitted_managers installed manager in
      done <- observe (completed_futures submitted) ;;
      all_results <- gather query done [] ;;
      match unfinished submitted done with
      | [] => ret (slice_to limit (sort_desc all_results))
      | pending =>
          raise (str_of_nat (length pending) ++ " (of " ++ str_of_nat (length submitted)
                 ++ ") futures unfinished")
      end
  end.

Definition search (h : Host) (query : string) (manager : option string) (limit : Z)
  : M (list SearchResult) :=
  search_with (_detect_installed_managers h) query manager limit.

End with_world.
End engine.
Export engine.

(** ** The steps of the ranker and the effects of a run, by name *)

Module views.
Section with_strings.
Context {PS : PyStr}.

(** The list built by the two heuristics of the ranker. *)
Definition heuristic_prefs (pkg : string) (installed : dict bool) : list string :=
  (if _looks_like_python_pkg pkg && get_truthy installed "pip" then ["pip"] else [])
  ++ (if _looks_like_npm_pkg pkg && get_truthy installed "npm" then ["npm"] else []).

(** The loop of the ranker over the system managers. *)
Definition add_system (installed : dict bool) (l prefs : list string) : list string :=
  fold_left (fun prefs manager => append_new (get_truthy installed manager) manager prefs)
            l prefs.

(** The loop of the ranker over the items of the availability map. *)
Definition add_remaining (items : dict bool) (prefs : list string) : list string :=
  fold_left (fun prefs '(manager, is_installed) => append_new is_installed manager prefs)
            items prefs.

End with_strings.

(** The record the [except] clause builds from the text of an exception. *)
Definition synthetic (manager e : string) : AttemptRecord :=
  (manager, mkRunResult false (-1) "" e).

(** The record store does not raise. *)
Definition record_store_reliable {W : Type} {WO : World W} : Prop :=
  (forall n v m c w, exists w', world_add_package n v m c w = (Ok tt, w')) /\
  (forall n m w, exists w', world_remove_package n m w = (Ok tt, w')).

(** The command the install loop runs for a manager. *)
Definition install_command {PS : PyStr} (h : Host) (pkg manager : string) : list string :=
  match dict_get (INSTALL_HANDLERS h) manager with
  | Some cmd_builder => cmd_builder pkg
  | None => []
  end.

(** [b] may follow [a] in a list sorted by decreasing score. *)
Definition score_ge (a b : SearchResult) : Prop :=
  (relevance_score b <= relevance_score a)%Q.

(** The results with the score [q], in the order of the list. *)
Definition with_score (q : Q) (l : list SearchResult) : list SearchResult :=
  filter (fun r => Qeq_bool (relevance_score r) q) l.

(** The run [r], after the effects [es]. *)
Definition after {W A} (es : list event) (r : Run W A) : Run W A :=
  mkRun (value r) (final r) (es ++ effects r).

(** The commands handed to [run_command], in order. *)
Fixpoint commands_run (es : list event) : list (list string) :=
  match es with
  | [] => []
  | RunCommand cmd _ _ _ :: es' => cmd :: commands_run es'
  | _ :: es' => commands_run es'
  end.

(** The console lines printed with the given colour, in order. *)
Fixpoint printed (color : string) (es : list event) : list string :=
  match es with
  | [] => []
  | Cprint text c :: es' =>
      if String.eqb c color then text :: printed color es' else printed color es'
  | _ :: es' => printed color es'
  end.

End views.
Export views.

(** ** Worlds that answer from a script, to run the model *)

Module scripted.

Record Script := {
  (** the outcome of [run_command], by command *)
  on_run : list string -> result RunResult;
  (** the outcome of [package_db.add_package], by package and manager *)
  on_add : string -> string -> result unit;
  (** the outcome of [package_db.remove_package], by package and manager *)
  on_remove : string -> string -> result unit;
  (** the outcome of [session.get], by url *)
  on_get : string -> result Response;
  (** the outcome of the search function of a manager, by manager and query *)
  on_search : string -> string -> result (list SearchResult);
  (** the managers whose future completes in time, in completion order *)
  in_time : list string -> list string
}.

#[export] Instance Script_World : World Script := {|
  world_run_command cmd _ _ _ w := (on_run w cmd, w);
  world_add_package n _ m _ w := (on_add w n m, w);
  world_remove_package n m w := (on_remove w n m, w);
  world_http_get url _ w := (on_get w url, w);
  world_search mgr query w := (on_search w mgr query, w);
  world_completed submitted w := in_time w submitted
|}.

(** A world whose record store never raises: commands answer from a
    table, nothing is found on the network, every future is in time. *)
Record Steady := {
  steady_run : list string -> result RunResult
}.

#[export] Instance Steady_World : World Steady := {|
  world_run_command cmd _ _ _ w := (steady_run w cmd, w);
  world_add_package _ _ _ _ w := (Ok tt, w);
  world_remove_package _ _ w := (Ok tt, w);
  world_http_get _ _ w := (Raise "offline", w);
  world_search _ _ w := (Ok [], w);
  world_completed submitted _ := submitted
|}.

(** A system that answers from a script: what a process does, by
    command; what executing a statement does; the rest as in [Script]. *)
Record Machine := {
  spawning : list string -> spawned;
  executing : string -> result unit;
  getting : string -> result Response;
  searching : string -> string -> result (list SearchResult);
  completing : list string -> list string
}.

#[export] Instance Machine_System : System Machine := {|
  sys_spawn cmd _ s := (spawning s cmd, s);
  sys_sqlite_connect s := (Ok tt, s);
  sys_sqlite_execute sql _ s := (executing s sql, s);
  sys_sqlite_commit s := (Ok tt, s);
  sys_http_get url _ s := (getting s url, s);
  sys_search mgr query s := (searching s mgr query, s);
  sys_completed submitted s := completing s submitted
|}.

(** A command that exits with the given code and no output. *)
Definition exits (c : Z) : result RunResult := Ok (mkRunResult (c =? 0)%Z c "" "").

(** A Linux host with the interpreter that runs the program and the
    listed programs on the PATH. *)
Definition linux_with (programs : list string) : Host := {|
  platform_system := "Linux";
  which := fun p => mem p ("/usr/bin/python3" :: programs);
  sys_executable := "/usr/bin/python3"
|}.

(** Hosts: Debian with apt, openSUSE with zypper, a machine with npm. *)
Definition debian : Host := linux_with ["python3"; "apt"].
Definition suse : Host := linux_with ["python3"; "zypper"].
Definition node_box : Host := linux_with ["python3"; "npm"].

(** The availability map of the ranking scenario. *)
Definition scenario_map : dict bool := [("pip", true); ("apt", true); ("npm", false)].

(** A map in which no manager is available. *)
Definition nothing_installed : dict bool := [("pip", false); ("apt", false)].

(** The document PyPI serves for the project flask, cut down. *)
Definition flask_json : json :=
  JObj [("info",
         JObj [("name", JStr "Flask");
               ("summary", JStr "A simple framework for building complex web applications.");
               ("version", JStr "3.0.3");
               ("home_page", JNull);
               ("project_url", JStr "https://pypi.org/project/Flask/")])].

Definition npm_hit (n : string) (score : Q) : SearchResult :=
  mkSearchResult (JStr n) (JStr "") (JStr "1.0.0") "npm" JNull score.

(** Every command succeeds, the record store works, PyPI knows the
    project, the npm registry has two hits, every future is in time. *)
Definition quiet : Script := {|
  on_run := fun _ => exits 0;
  on_add := fun _ _ => Ok tt;
  on_remove := fun _ _ => Ok tt;
  on_get := fun _ => Ok (mkResponse 200 (Ok flask_json));
  on_search := fun mgr _ =>
    if String.eqb mgr "npm" then Ok [npm_hit "flask-cli" 50; npm_hit "flask" (175 # 2)]
    else Ok [];
  in_time := fun submitted => submitted
|}.

(** A machine on which the pip commands exit with 0 and the others with
    100, and sqlite refuses every statement because the database is
    locked. *)
Definition locked_db : Machine := {|
  spawning := fun cmd => Exits (if mem "pip" cmd then 0 else 100) "" "";
  executing := fun _ => Raise "database is locked";
  getting := fun _ => Raise "offline";
  searching := fun _ _ => Ok [];
  completing := fun submitted => submitted
|}.

(** The same machine with a database that works. *)
Definition working_db : Machine := {|
  spawning := spawning locked_db;
  executing := fun _ => Ok tt;
  getting := getting locked_db;
  searching := searching locked_db;
  completing := completing locked_db
|}.

(** A machine on which no program can be started. *)
Definition no_exec : Machine := {|
  spawning := fun _ => PopenRaises "[Errno 8] Exec format error";
  executing := fun _ => Ok tt;
  getting := fun _ => Raise "offline";
  searching := fun _ _ => Ok [];
  completing := fun submitted => submitted
|}.

(** As [quiet], but the future of npm is still running at the deadline. *)
Definition slow_npm : Script := {|
  on_run := fun _ => exits 0;
  on_add := fun _ _ => Ok tt;
  on_remove := fun _ _ => Ok tt;
  on_get := fun _ => Ok (mkResponse 200 (Ok flask_json));
  on_search := fun _ _ => Ok [];
  in_time := fun submitted => filter (fun m => negb (String.eqb m "npm")) submitted
|}.

(** Running a command raises. *)
Definition broken : Script := {|
  on_run := fun _ => Raise "[Errno 8] Exec format error";
  on_add := fun _ _ => Ok tt;
  on_remove := fun _ _ => Ok tt;
  on_get := fun _ => Raise "offline";
  on_search := fun _ _ => Raise "registry unreachable";
  in_time := fun submitted => submitted
|}.

End scripted.
Export scripted.

(** * The functions around the orchestrators

    The rest of the development covers what the modules above leave
    out: the status listing, [install_manager], the option parser of the
    interactive shell, the bulk installer and the exporter, the
    statistics, the updates of the managers and the search through the
    command line of a manager.  The conventions are the ones above.  The
    file system, the clock, the shell and the rows read from the record
    store are the fields of the class [Surroundings]; a flag of the
    logger that a function tests ([LOG.quiet]) is an argument of its
    model. *)

(** ** managers/detection.py, [list_managers_status] *)

Module listing.

Definition list_managers_status (h : Host) : dict string :=
  let installed := _detect_installed_managers h in
  fold_left
    (fun status manager =>
       if dict_has installed manager && get_truthy installed manager
       then dict_set status manager "Installed"
       else dict_set status manager "Not Installed")
    (dict_keys MANAGER_INSTALL_HANDLERS) [].

(** Some Python interpreter is found on the PATH: [sys.executable] or
    one of [python3], [python], [py]. *)
Definition python_on_path (h : Host) : bool :=
  (str_truthy (sys_executable h) && which h (sys_executable h))
  || which h "python3" || which h "python" || which h "py".

End listing.
Export listing.

(** ** core/config.py, [MANAGER_SETUP], and managers/installer.py,
    [install_manager] *)

Module manager_setup.

(** One entry of [MANAGER_SETUP]: the keys [os], [install] and
    [install_cmd] ([None] where the source has [None]). *)
Record SetupInfo := {
  setup_os : list string;
  setup_install : string;
  setup_install_cmd : option (list string)
}.

(** The character [U+0022]. *)
Definition dquote : string := String (ascii_of_nat 34) EmptyString.

Definition MANAGER_SETUP : dict SetupInfo :=
  [ ("pip", {| setup_os := ["windows"; "linux"; "macos"];
               setup_install :=
                 "Pip is bundled with Python 3.4+. Run: python -m ensurepip --upgrade";
               setup_install_cmd := Some ["-m"; "ensurepip"; "--upgrade"] |});
    ("npm", {| setup_os := ["windows"; "linux"; "macos"];
               setup_install := "https://nodejs.org/ (download Node.js which includes npm)";
               setup_install_cmd := None |});
    ("apt", {| setup_os := ["linux"];
               setup_install := "APT is preinstalled on Debian/Ubuntu systems";
               setup_install_cmd := None |});
    ("dnf", {| setup_os := ["linux"];
               setup_install := "DNF is preinstalled on Fedora systems";
               setup_install_cmd := None |});
    ("yum", {| setup_os := ["linux"];
               setup_install := "YUM is preinstalled on RHEL/CentOS systems";
               setup_install_cmd := None |});
    ("pacman", {| setup_os := ["linux"];
                  setup_install := "pacman is preinstalled on Arch Linux";
                  setup_install_cmd := None |});
    ("zypper", {| setup_os := ["linux"];
                  setup_install := "zypper is preinstalled on openSUSE";
                  setup_install_cmd := None |});
    ("apk", {| setup_os := ["linux"];
               setup_install := "apk is bundled with Alpine Linux";
               setup_install_cmd := None |});
    ("brew", {| setup_os := ["macos"; "linux"];
                setup_install :=
                  "/bin/bash -c " ++ dquote
                  ++ "$(curl -fsSL https://raw.githubusercontent.com/Homebrew/install/HEAD/install.sh)"
                  ++ dquote;
                setup_install_cmd := None |});
    ("choco", {| setup_os := ["windows"];
                 setup_install :=
                   "Set-ExecutionPolicy Bypass -Scope Process -Force; [System.Net.ServicePointManager]::SecurityProtocol = [System.Net.ServicePointManager]::SecurityProtocol -bor 3072; iex ((New-Object System.Net.WebClient).DownloadString("
                   ++ dquote ++ "https://chocolatey.org/install.ps1" ++ dquote ++ "))";
                 setup_install_cmd := None |});
    ("winget", {| setup_os := ["windows"];
                  setup_install :=
                    "winget is preinstalled on Windows 11. Install via Microsoft Store on Windows 10.";
                  setup_install_cmd := None |});
    ("snap", {| setup_os := ["linux"];
                setup_install := "Install snapd package";
                setup_install_cmd := Some ["sudo"; "apt"; "install"; "-y"; "snapd"] |});
    ("flatpak", {| setup_os := ["linux"];
                   setup_install := "Install flatpak package";
                   setup_install_cmd := Some ["sudo"; "apt"; "install"; "-y"; "flatpak"] |}) ].

Section with_world.
Context {PS : PyStr} {W : Type} {WO : World W}.
Local Abbreviation M := (monad.M W).

(** [if cmd:] for [cmd] a list or [None]. *)
Definition cmd_truthy (cmd : option (list string)) : bool :=
  match cmd with
  | Some (_ :: _) => true
  | _ => false
  end.

(** The branch [if cmd:] of [install_manager].
    [run_command(full_cmd, timeout=900, show_progress=True)] leaves
    [retries] at its default, 1. *)
Definition run_install_cmd (h : Host) (manager : string) (cmd : list string) : M bool :=
  cprint ("Installing " ++ _manager_human manager ++ "...") "INFO" ;;
  let full_cmd :=
    if String.eqb manager "pip" then [sys_executable h] ++ cmd else cmd in
  result <- run_command full_cmd 900 1 true ;;
  if ok result then
    cprint ("Successfully installed " ++ _manager_human manager) "SUCCESS" ;;
    ret true
  else
    cprint ("Failed to install " ++ _manager_human manager ++ ": " ++ err result)
           "ERROR" ;;
    ret false.

Definition install_manager (h : Host) (manager : string) : M bool :=
  let manager := str_lower manager in
  match dict_get MANAGER_SETUP manager with
  | None =>
      cprint ("Manager '" ++ manager ++ "' not supported.") "ERROR" ;;
      ret false
  | Some info =>
      let os_name := _os_type h in
      if negb (mem os_name (setup_os info)) then
        cprint (manager ++ " is not supported on this OS (" ++ os_name ++ ").") "ERROR" ;;
        ret false
      else if get_truthy (_detect_installed_managers h) manager then
        cprint (_manager_human manager ++ " is already installed.") "SUCCESS" ;;
        ret true
      else
        let cmd := setup_install_cmd info in
        let install_msg := setup_install info in
        if cmd_truthy cmd then
          run_install_cmd h manager (match cmd with Some c => c | None => [] end)
        else
          cprint ("Manual installation required for " ++ _manager_human manager ++ ":")
                 "WARNING" ;;
          cprint ("  " ++ install_msg) "INFO" ;;
          ret false
  end.

End with_world.
End manager_setup.
Export manager_setup.

(** ** A system that counts the processes it starts *)

Module counting.

(** The system [SY] with a counter of the calls of [subprocess.Popen]. *)
Definition Counted_System {S : Type} (SY : System S) : System (S * nat) := {|
  sys_spawn cmd timeout sn :=
    let (outcome, s') := sys_spawn cmd timeout (fst sn) in
    (outcome, (s', Datatypes.S (snd sn)));
  sys_sqlite_connect sn :=
    let (r, s') := sys_sqlite_connect (fst sn) in (r, (s', snd sn));
  sys_sqlite_execute sql params sn :=
    let (r, s') := sys_sqlite_execute sql params (fst sn) in (r, (s', snd sn));
  sys_sqlite_commit sn :=
    let (r, s') := sys_sqlite_commit (fst sn) in (r, (s', snd sn));
  sys_http_get url timeout sn :=
    let (r, s') := sys_http_get url timeout (fst sn) in (r, (s', snd sn));
  sys_search mgr query sn :=
    let (r, s') := sys_search mgr query (fst sn) in (r, (s', snd sn));
  sys_completed submitted sn := sys_completed submitted (fst sn)
|}.

End counting.
Export counting.

(** ** main.py: the option parser of the interactive shell and its
    [install] and [remove] commands *)

Module shell.

(** [tok[n:]], for the first [n] characters in ASCII (the two of [--]). *)
Fixpoint str_from (n : nat) (s : string) : string :=
  match n, s with
  | O, _ => s
  | Datatypes.S n', String _ s' => str_from n' s'
  | Datatypes.S _, EmptyString => EmptyString
  end.

(** The loop [while i < len(args)] of [_parse_kv], on the tokens from
    [i] on. *)
Fixpoint _parse_kv_from (args : list string) (out : dict string) : dict string :=
  match args with
  | [] => out
  | tok :: rest =>
      match rest with
      | value :: rest' =>
          if startswith tok "--"
          then _parse_kv_from rest' (dict_set out (str_from 2 tok) value)
          else _parse_kv_from rest out
      | [] => out
      end
  end.

Definition _parse_kv (args : list string) : dict string := _parse_kv_from args [].

(** [next((a for a in args if not a.startswith("--") and a not in
    opts.values()), None)] *)
Definition first_positional (args : list string) (opts : dict string) : option string :=
  find (fun a => negb (startswith a "--") && negb (mem a (dict_values opts))) args.

(** [if not pkg] for [pkg] a string or [None]. *)
Definition pkg_missing (pkg : option string) : bool :=
  match pkg with
  | Some p => negb (str_truthy p)
  | None => true
  end.

Section with_world.
Context {PS : PyStr} {W : Type} {WO : World W}.
Local Abbreviation M := (monad.M W).

(** The text of the last line of both commands. *)
Definition outcome_line (verb : string) (success : bool) (attempts : list AttemptRecord)
  : string :=
  verb ++ " " ++ (if success then "succeeded" else "failed") ++ " after "
  ++ str_of_nat (length attempts) ++ " attempt(s)".

(** The body of [if cmd == "install":], up to its [continue]. *)
Definition shell_install (h : Host) (args : list string) : M unit :=
  match args with
  | [] => cprint "Usage: install <pkg> [--manager <name>]" "WARNING"
  | _ =>
      let opts := _parse_kv args in
      let pkg := first_positional args opts in
      if pkg_missing pkg then cprint "Missing package name." "ERROR"
      else
        let pkg := match pkg with Some p => p | None => EmptyString end in
        r <- install_package h pkg (dict_get opts "manager") ;;
        let '(success, attempts) := r in
        cprint (outcome_line "Install" success attempts)
               (if success then "SUCCESS" else "ERROR")
  end.

(** The body of [if cmd == "remove":], up to its [continue]. *)
Definition shell_remove (h : Host) (args : list string) : M unit :=
  match args with
  | [] => cprint "Usage: remove <pkg> [--manager <name>]" "WARNING"
  | _ =>
      let opts := _parse_kv args in
      let pkg := first_positional args opts in
      if pkg_missing pkg then cprint "Missing package name." "ERROR"
      else
        let pkg := match pkg with Some p => p | None => EmptyString end in
        r <- remove_package h pkg (dict_get opts "manager") ;;
        let '(success, attempts) := r in
        cprint (outcome_line "Remove" success attempts)
               (if success then "SUCCESS" else "ERROR")
  end.

End with_world.
End shell.
Export shell.

(** ** The file system, the clock, the shell and the rows of the record
    store *)

Module surroundings.

(** A row of [installed_packages] as [get_installed_packages] returns
    it.  [name] and [manager] are [NOT NULL]; a [NULL] in [version] or
    [install_date] is [None]. *)
Record PackageRow := mkRow {
  row_name : string;
  row_version : option string;
  row_manager : string;
  row_install_date : option string
}.

(** The collaborators of the functions around the orchestrators, as
    functions of the state of the outside world.
    - [world_get_installed_packages]:
      [package_db.get_installed_packages(manager)];
    - [world_path_exists], [world_read_text], [world_write_text]: the
      methods [exists], [read_text] and [write_text] of [pathlib.Path];
    - [world_path_str]: [str(Path(p))];
    - [world_timestamp]: [datetime.now().strftime("%Y%m%d_%H%M%S")];
    - [world_is_recent d]: [datetime.fromisoformat(d.replace('Z',
      '+00:00')) > datetime.now() - timedelta(days=7)], which raises
      when [d] cannot be parsed or cannot be compared;
    - [world_run_shell]: [run_command(cmd, ..., shell=True)] for a
      command line given as one string. *)
Class Surroundings (W : Type) := {
  world_get_installed_packages : option string -> W -> result (list PackageRow) * W;
  world_path_exists : string -> W -> result bool * W;
  world_read_text : string -> W -> result string * W;
  world_write_text : string -> string -> W -> result unit * W;
  world_path_str : string -> string;
  world_timestamp : W -> string;
  world_is_recent : string -> W -> result bool;
  world_run_shell : string -> Z -> Z -> bool -> W -> result RunResult * W
}.

(** The character [U+000A]. *)
Definition LF : string := String (ascii_of_nat 10) EmptyString.

(** A count as a decoded JSON number. *)
Definition JNat (n : nat) : json := JNum (inject_Z (Z.of_nat n)).

(** Truth value of an optional string: [None] and the empty string are
    false. *)
Definition opt_truthy (s : option string) : bool :=
  match s with
  | Some s => str_truthy s
  | None => false
  end.

(** [if not LOG.quiet: cprint(text, color)] *)
Definition cprint_unless {W : Type} (quiet : bool) (text color : string) : monad.M W unit :=
  if negb quiet then cprint text color else ret tt.

End surroundings.
Export surroundings.

(** ** system/bulk.py *)

Module bulk.
Section with_world.
Context {PS : PyStr} {W : Type} {WO : World W} {SU : Surroundings W}.
Local Abbreviation M := (monad.M W).

(** One of the characters of the class [[=<>!]]. *)
Definition is_specifier_char (c : ascii) : bool :=
  existsb (Ascii.eqb c) ["="%char; "<"%char; ">"%char; "!"%char].

(** [re.split(r'[=<>!]', line)[0]] *)
Fixpoint before_specifier (line : string) : string :=
  match line with
  | EmptyString => EmptyString
  | String c rest =>
      if is_specifier_char c then EmptyString else String c (before_specifier rest)
  end.

(** [[line.strip() for line in content.splitlines()
      if line.strip() and not line.startswith('#')]] *)
Definition requirement_lines (content : string) : list string :=
  map str_strip
    (filter (fun line => str_truthy (str_strip line) && negb (startswith line "#"))
            (str_splitlines content)).

(** The dict [results] while the loop runs. *)
Record BulkResults := mkBulkResults {
  total_packages : nat;
  successful : nat;
  failed : nat;
  results : list (string * bool * nat)
}.

(** One element of [results["results"]]. *)
Definition result_dict (r : string * bool * nat) : json :=
  let '(package, success, attempts) := r in
  JObj [("package", JStr package); ("success", JBool success); ("attempts", JNat attempts)].

(** The dict [results] as it is returned. *)
Definition results_dict (r : BulkResults) : dict json :=
  [ ("total_packages", JNat (total_packages r));
    ("successful", JNat (successful r));
    ("failed", JNat (failed r));
    ("results", JArr (map result_dict (results r))) ].

(** [{"success": False, "error": error}] *)
Definition failure_dict (error : string) : dict json :=
  [ ("success", JBool false); ("error", JStr error) ].

(** [for line in lines: ...] *)
Fixpoint bulk_loop (h : Host) (lines : list string) (r : BulkResults) : M BulkResults :=
  match lines with
  | [] => ret r
  | line :: rest =>
      let pkg_name := str_strip (before_specifier line) in
      cprint ("Installing " ++ pkg_name ++ "...") "INFO" ;;
      installed <- install_package h line None ;;
      let '(success, attempts) := installed in
      let result := (line, success, length attempts) in
      let r :=
        mkBulkResults (total_packages r)
          (if success then (successful r + 1)%nat else successful r)
          (if success then failed r else (failed r + 1)%nat)
          (results r ++ [result]) in
      bulk_loop h rest r
  end.

Definition bulk_install_from_file (h : Host) (file_path : string) : M (dict json) :=
  cprint ("Installing packages from: " ++ file_path) "INFO" ;;
  try_except
    (found <- call (world_path_exists file_path) ;;
     if negb found then
       cprint ("File not found: " ++ file_path) "ERROR" ;;
       ret (failure_dict "File not found")
     else
       text <- call (world_read_text file_path) ;;
       let content := str_strip text in
       let lines := requirement_lines content in
       match lines with
       | [] =>
           cprint "No packages found in file" "WARNING" ;;
           ret (failure_dict "No packages found")
       | _ =>
           cprint ("Found " ++ str_of_nat (length lines) ++ " packages to install") "INFO" ;;
           r <- bulk_loop h lines (mkBulkResults (length lines) 0 0 []) ;;
           cprint (LF ++ "Installation Summary:") "CYAN" ;;
           cprint ("  Successful: " ++ str_of_nat (successful r) ++ "/"
                   ++ str_of_nat (total_packages r)) "SUCCESS" ;;
           cprint ("  Failed: " ++ str_of_nat (failed r) ++ "/"
                   ++ str_of_nat (total_packages r))
                  (if (0 <? failed r)%nat then "ERROR" else "SUCCESS") ;;
           ret (results_dict r)
       end)
    (fun e =>
       cprint ("Error reading file: " ++ e) "ERROR" ;;
       ret (failure_dict e)).

(** main.py, the branch [if args.install_from:] of [main]:
    [return 0 if results.get("success", False) else 1].  The dump of
    the dict in JSON mode is left out. *)
Definition main_install_from (h : Host) (install_from : string) : M Z :=
  r <- bulk_install_from_file h install_from ;;
  ret (if json_truthy (match dict_get r "success" with
                       | Some v => v
                       | None => JBool false
                       end)
       then 0%Z else 1%Z).

(** The string [export_packages] writes for a row. *)
Definition export_line (pkg : PackageRow) : string :=
  if opt_truthy (row_version pkg)
     && negb (match row_version pkg with
              | Some v => String.eqb v "unknown"
              | None => false
              end)
  then row_name pkg ++ "==" ++ match row_version pkg with Some v => v | None => "" end
  else row_name pkg.

(** [sorted(packages, key=lambda x: x['name'])]: the stable sort of
    Python, on strings in the order of their code points, which is the
    order of their UTF-8 bytes. *)
Fixpoint insert_by_name (pkg : PackageRow) (l : list PackageRow) : list PackageRow :=
  match l with
  | [] => [pkg]
  | y :: l' =>
      if String.leb (row_name pkg) (row_name y)
      then pkg :: y :: l' else y :: insert_by_name pkg l'
  end.

Fixpoint sort_by_name (l : list PackageRow) : list PackageRow :=
  match l with
  | [] => []
  | pkg :: l' => insert_by_name pkg (sort_by_name l')
  end.

(** ['\n'.join(lines) + '\n'] for the lines of the sorted packages. *)
Definition export_content (packages : list PackageRow) : string :=
  String.concat LF (map export_line (sort_by_name packages)) ++ LF.

Definition export_packages (manager : string) (output_file : option string) : M bool :=
  cprint ("Exporting packages from " ++ _manager_human manager ++ "...") "INFO" ;;
  try_except
    (packages <- call (world_get_installed_packages (Some manager)) ;;
     match packages with
     | [] =>
         cprint ("No packages installed via " ++ _manager_human manager
                 ++ " found in CrossFire database") "WARNING" ;;
         ret false
     | _ =>
         let content := export_content packages in
         out_path <-
           (if opt_truthy output_file
            then ret (match output_file with Some f => f | None => EmptyString end)
            else
              timestamp <- observe world_timestamp ;;
              ret ("crossfire_" ++ manager ++ "_requirements_" ++ timestamp
                   ++ ".txt")%string) ;;
         call (world_write_text out_path content) ;;
         cprint ("Exported " ++ str_of_nat (length packages) ++ " packages to: "
                 ++ world_path_str out_path) "SUCCESS" ;;
         cprint ("Install with: crossfire --install-from " ++ world_path_str out_path)
                "INFO" ;;
         ret true
     end)
    (fun e =>
       cprint ("Export failed: " ++ e) "ERROR" ;;
       ret false).

End with_world.

(** [b] may follow [a] in a list sorted by name. *)
Definition name_le (a b : PackageRow) : Prop :=
  String.leb (row_name a) (row_name b) = true.

(** The rows with the name [n], in the order of the list. *)
Definition with_name (n : string) (l : list PackageRow) : list PackageRow :=
  filter (fun pkg => String.eqb (row_name pkg) n) l.

(** Every character of [s] satisfies [p]. *)
Fixpoint all_chars (p : ascii -> bool) (s : string) : bool :=
  match s with
  | EmptyString => true
  | String c s' => p c && all_chars p s'
  end.

(** The last character of [s], or [c] when [s] is empty. *)
Fixpoint last_char (c : ascii) (s : string) : ascii :=
  match s with
  | EmptyString => c
  | String c' s' => last_char c' s'
  end.

(** A requirement line that survives being written to a file and read
    back: not empty, no comment, no line break in it, and no white space
    at either end. *)
Definition plain_line (s : string) : bool :=
  match s with
  | EmptyString => false
  | String c s' =>
      negb (is_space c) && negb (Ascii.eqb c "#"%char)
      && negb (is_space (last_char c s'))
      && all_chars (fun c => negb (is_linebreak c)) s
  end.

End bulk.
Export bulk.

(** ** system/stats.py, [get_package_statistics] *)

Module stats.
Section with_world.
Context {W : Type} {WO : World W} {SU : Surroundings W}.
Local Abbreviation M := (monad.M W).

(** One element of [stats["recent_installations"]]. *)
Record Recent := mkRecent {
  recent_name : string;
  recent_manager : string;
  recent_date : option string
}.

(** The dict [stats]. *)
Record Statistics := mkStatistics {
  total_packages : nat;
  packages_by_manager : dict nat;
  recent_installations : list Recent;
  available_managers : nat;
  total_supported_managers : nat
}.

(** [for pkg in packages: by_manager[m] = by_manager.get(m, 0) + 1] *)
Fixpoint group_by_manager (packages : list PackageRow) (by_manager : dict nat) : dict nat :=
  match packages with
  | [] => by_manager
  | pkg :: rest =>
      let manager := row_manager pkg in
      group_by_manager rest
        (dict_set by_manager manager
           (match dict_get by_manager manager with Some n => n | None => O end + 1)%nat)
  end.

(** The loop inside [try: ... except: pass]: an exception ends the loop,
    and what was appended before it stays. *)
Fixpoint recent_loop (w : W) (packages : list PackageRow) (recent : list Recent)
  : list Recent :=
  match packages with
  | [] => recent
  | pkg :: rest =>
      if opt_truthy (row_install_date pkg) then
        match world_is_recent
                (match row_install_date pkg with Some d => d | None => EmptyString end) w with
        | Ok true =>
            recent_loop w rest
              (recent ++ [mkRecent (row_name pkg) (row_manager pkg) (row_install_date pkg)])
        | Ok false => recent_loop w rest recent
        | Raise _ => recent
        end
      else recent_loop w rest recent
  end.

Definition get_package_statistics (h : Host) : M Statistics :=
  packages <- call (world_get_installed_packages None) ;;
  let managers := _detect_installed_managers h in
  w <- observe (fun w => w) ;;
  ret (mkStatistics
         (length packages)
         (group_by_manager packages [])
         (recent_loop w packages [])
         (length (filter (fun avail => avail) (dict_values managers)))
         (length managers)).

End with_world.
End stats.

(** ** system/update.py, [_update_manager] and [_update_all_managers], and
    the branch of [main] that calls them *)

Module update.

(** A command: an argument vector, or one string for the shell. *)
Inductive command : Type :=
| Argv (argv : list string)
| ShellLine (line : string).

Definition update_commands (h : Host) : dict command :=
  [ ("pip", Argv [sys_executable h; "-m"; "pip"; "install"; "--upgrade"; "pip"]);
    ("npm", Argv ["npm"; "update"; "-g"; "npm"]);
    ("brew", Argv ["brew"; "update"; "&&"; "brew"; "upgrade"]);
    ("apt", ShellLine "sudo apt update && sudo apt upgrade -y");
    ("dnf", Argv ["sudo"; "dnf"; "update"; "-y"]);
    ("yum", Argv ["sudo"; "yum"; "update"; "-y"]);
    ("pacman", Argv ["sudo"; "pacman"; "-Syu"; "--noconfirm"]);
    ("zypper", Argv ["sudo"; "zypper"; "update"; "-y"]);
    ("apk", Argv ["sudo"; "apk"; "update"; "&&"; "sudo"; "apk"; "upgrade"]);
    ("snap", Argv ["sudo"; "snap"; "refresh"]);
    ("flatpak", Argv ["flatpak"; "update"; "-y"]);
    ("choco", Argv ["choco"; "upgrade"; "all"; "-y"]);
    ("winget", Argv ["winget"; "upgrade"; "--all"; "--silent";
                     "--accept-package-agreements"; "--accept-source-agreements"]) ].

(** [s.split('\n')] *)
Fixpoint split_lf_from (cur : string) (s : string) : list string :=
  match s with
  | EmptyString => [cur]
  | String c s' =>
      if Ascii.eqb c (ascii_of_nat 10) then cur :: split_lf_from EmptyString s'
      else split_lf_from (cur ++ String c EmptyString) s'
  end.

Definition split_lf (s : string) : list string := split_lf_from EmptyString s.

Definition error_words : list string :=
  ["error"; "failed"; "denied"; "not found"; "permission"].

(** [str(ok).lower()] *)
Definition bool_word (b : bool) : string := if b then "true" else "false".

Section with_world.
Context {PS : PyStr} {W : Type} {WO : World W} {SU : Surroundings W}.
Local Abbreviation M := (monad.M W).

(** [run_command(cmd, timeout=1200, show_progress=True,
    shell=isinstance(cmd, str))], with [retries] at its default, 1. *)
Definition run_update (cmd : command) : M RunResult :=
  match cmd with
  | Argv argv => run_command argv 1200 1 true
  | ShellLine line => call (world_run_shell line 1200 1 true)
  end.

(** The message of a failed update: the [else] branch of [if result.ok]. *)
Definition update_error (res : RunResult) : string :=
  let error_msg := str_or (err res) (str_or (out res) "Update failed") in
  if str_truthy error_msg then
    let lines := split_lf (str_strip error_msg) in
    let relevant_lines :=
      filter (fun line => existsb (fun word => str_in word (str_lower line)) error_words)
             lines in
    let relevant_error :=
      match relevant_lines with
      | [] => last lines "Update failed"
      | _ => last relevant_lines EmptyString
      end in
    if (100 <? str_len relevant_error)%nat
    then (str_prefix 97 relevant_error ++ "...")%string
    else relevant_error
  else "Update failed with no error message".

Definition _update_manager (h : Host) (quiet : bool) (manager : string)
  : M (string * bool * string) :=
  let manager := str_lower manager in
  match dict_get (update_commands h) manager with
  | None => ret (manager, false, ("Update not supported for " ++ manager)%string)
  | Some cmd =>
      let installed := _detect_installed_managers h in
      if negb (get_truthy installed manager) then
        ret (manager, false, (_manager_human manager ++ " is not installed")%string)
      else
        try_except
          (cprint_unless quiet ("Updating " ++ _manager_human manager ++ "...") "INFO" ;;
           result <- run_update cmd ;;
           if ok result then ret (manager, true, "Update successful")
           else ret (manager, false, update_error result))
          (fun e => ret (manager, false, ("Exception: " ++ str_prefix 100 e)%string))
  end.

(** [{"ok": str(ok).lower(), "msg": msg}] *)
Definition outcome_dict (success : bool) (msg : string) : dict string :=
  [ ("ok", bool_word success); ("msg", msg) ].

(** [r.get("ok") == "true"] *)
Definition outcome_ok (r : dict string) : bool :=
  match dict_get r "ok" with
  | Some v => String.eqb v "true"
  | None => false
  end.

(** [for manager in available_managers: ...] of [_update_all_managers]. *)
Fixpoint update_loop (h : Host) (quiet : bool) (managers : list string)
    (results : dict (dict string)) : M (dict (dict string)) :=
  match managers with
  | [] => ret results
  | manager :: rest =>
      r <- _update_manager h quiet manager ;;
      let '(name, success, msg) := r in
      let results := dict_set results name (outcome_dict success msg) in
      cprint_unless quiet (_manager_human name ++ ": " ++ msg)
                    (if success then "SUCCESS" else "WARNING") ;;
      update_loop h quiet rest results
  end.

(** The function ends after its summary line without a [return]: where
    some manager is available the caller gets [None]. *)
Definition _update_all_managers (h : Host) (quiet : bool)
  : M (option (dict (dict string))) :=
  let installed := _detect_installed_managers h in
  let available_managers := available_managers installed in
  match available_managers with
  | [] =>
      cprint_unless quiet "No package managers found to update" "WARNING" ;;
      ret (Some [])
  | _ =>
      cprint_unless quiet
        ("Updating " ++ str_of_nat (length available_managers) ++ " package managers...")
        "INFO" ;;
      results <- update_loop h quiet available_managers [] ;;
      (let successful := length (filter outcome_ok (dict_values results)) in
       let total := length results in
       cprint_unless quiet
         ("Manager updates complete: " ++ str_of_nat successful ++ "/" ++ str_of_nat total
          ++ " successful")
         (if (0 <? successful)%nat then "SUCCESS" else "WARNING")) ;;
      ret None
  end.

(** [return 0 if all(r.get("ok") == "true" for r in results.values())
    else 1]: [None] has no method [values]. *)
Definition exit_code_of (results : option (dict (dict string))) : M Z :=
  match results with
  | None => raise "'NoneType' object has no attribute 'values'"
  | Some d => ret (if forallb outcome_ok (dict_values d) then 0%Z else 1%Z)
  end.

(** main.py, the branch [if args.update_manager:] of [main], inside the
    [try] of [main] with its clause [except Exception].  The dump of the
    results in JSON mode and the traceback in verbose mode are left
    out. *)
Definition main_update_manager (h : Host) (quiet : bool) (update_manager : string) : M Z :=
  try_except
    (let target := str_upper update_manager in
     if String.eqb target "ALL" then
       results <- _update_all_managers h quiet ;;
       exit_code_of results
     else
       match find (fun name => String.eqb (str_upper name) target)
                  (dict_keys MANAGER_INSTALL_HANDLERS) with
       | None =>
           cprint ("Unknown package manager: " ++ update_manager) "ERROR" ;;
           ret 1%Z
       | Some proper_name =>
           r <- _update_manager h quiet proper_name ;;
           let '(name, success, msg) := r in
           let results := [(name, outcome_dict success msg)] in
           cprint_unless quiet (name ++ ": " ++ msg)
                         (if success then "SUCCESS" else "ERROR") ;;
           exit_code_of (Some results)
       end)
    (fun e =>
       cprint ("Unexpected error: " ++ e) "ERROR" ;;
       ret 1%Z).

End with_world.
End update.
Export update.

(** ** search/engine.py, [_cli_search] *)

Module cli_search.

(** [s.split(None, 1)]: the first word of [s] and the rest after the
    white space that follows it; no part for a blank [s], one part when
    nothing follows the first word. *)
Class PyWords := {
  str_split_first : string -> list string
}.

Section with_world.
Context {PS : PyStr} {PW : PyWords} {W : Type} {WO : World W}.
Local Abbreviation M := (monad.M W).

(** The body of [for line in res.out.splitlines()]. *)
Definition cli_line (manager : string) (results : list SearchResult) (line : string)
  : list SearchResult :=
  let parts := str_split_first (str_strip line) in
  match parts with
  | [] => results
  | name :: rest =>
      let desc := match rest with d :: _ => d | [] => EmptyString end in
      results ++ [mkSearchResult (JStr name) (JStr (str_prefix 200 desc)) (JStr "unknown")
                    manager JNull 5]
  end.

(** [run_command(cmd, timeout=30)] leaves [retries] at 1 and
    [show_progress] at [False]. *)
Definition _cli_search (cmd : list string) (manager : string) : M (list SearchResult) :=
  res <- run_command cmd 30 1 false ;;
  let results :=
    if ok res then fold_left (cli_line manager) (str_splitlines (out res)) [] else [] in
  ret (firstn 10 results).

Definition _search_apt (query : string) : M (list SearchResult) :=
  _cli_search ["apt-cache"; "search"; query] "apt".
Definition _search_dnf (query : string) : M (list SearchResult) :=
  _cli_search ["dnf"; "search"; query] "dnf".
Definition _search_yum (query : string) : M (list SearchResult) :=
  _cli_search ["yum"; "search"; query] "yum".
Definition _search_pacman (query : string) : M (list SearchResult) :=
  _cli_search ["pacman"; "-Ss"; query] "pacman".
Definition _search_zypper (query : string) : M (list SearchResult) :=
  _cli_search ["zypper"; "search"; query] "zypper".
Definition _search_apk (query : string) : M (list SearchResult) :=
  _cli_search ["apk"; "search"; query] "apk".
Definition _search_choco (query : string) : M (list SearchResult) :=
  _cli_search ["choco"; "search"; query] "choco".
Definition _search_winget (query : string) : M (list SearchResult) :=
  _cli_search ["winget"; "search"; query] "winget".
Definition _search_snap (query : string) : M (list SearchResult) :=
  _cli_search ["snap"; "find"; query] "snap".
Definition _search_flatpak (query : string) : M (list SearchResult) :=
  _cli_search ["flatpak"; "search"; query] "flatpak".

End with_world.
End cli_search.
Export cli_search.

(** ** A world with files, rows and a shell, to run the model *)

Module desk.

(** What surrounds a scripted world: the files by path, the rows of the
    record store, the dates that count as recent, and what the shell
    answers. *)
Record Desk := {
  desk_script : Script;
  desk_files : string -> option string;
  desk_rows : list PackageRow;
  desk_recent : string -> result bool;
  desk_shell : string -> result RunResult
}.

#[export] Instance Desk_World : World Desk := {|
  world_run_command cmd _ _ _ w := (on_run (desk_script w) cmd, w);
  world_add_package n _ m _ w := (on_add (desk_script w) n m, w);
  world_remove_package n m w := (on_remove (desk_script w) n m, w);
  world_http_get url _ w := (on_get (desk_script w) url, w);
  world_search mgr query w := (on_search (desk_script w) mgr query, w);
  world_completed submitted w := in_time (desk_script w) submitted
|}.

(** [get_installed_packages(manager)] selects the rows of the manager,
    or all rows when the manager is [None] or empty; a file that is not
    there cannot be read; a write replaces the file. *)
#[export] Instance Desk_Surroundings : Surroundings Desk := {|
  world_get_installed_packages manager w :=
    (Ok (if opt_truthy manager
         then filter (fun r => String.eqb (row_manager r)
                                 (match manager with Some m => m | None => EmptyString end))
                     (desk_rows w)
         else desk_rows w), w);
  world_path_exists p w :=
    (Ok (match desk_files w p with Some _ => true | None => false end), w);
  world_read_text p w :=
    (match desk_files w p with
     | Some text => Ok text
     | None => Raise ("[Errno 2] No such file or directory: '" ++ p ++ "'")
     end, w);
  world_write_text p content w :=
    (Ok tt,
     {| desk_script := desk_script w;
        desk_files := fun q => if String.eqb q p then Some content else desk_files w q;
        desk_rows := desk_rows w;
        desk_recent := desk_recent w;
        desk_shell := desk_shell w |});
  world_path_str p := p;
  world_timestamp _ := "20240101_120000";
  world_is_recent d w := desk_recent w d;
  world_run_shell line _ _ _ w := (desk_shell w line, w)
|}.

(** A desk on which every command succeeds, with the given files and
    rows. *)
Definition desk_with (files : list (string * string)) (rows : list PackageRow) : Desk := {|
  desk_script := quiet;
  desk_files := dict_get files;
  desk_rows := rows;
  desk_recent := fun _ => Ok true;
  desk_shell := fun _ => exits 0
|}.

(** Three rows of the record store: two of npm, one without a known
    version and with a date that is no date, and one of pip without a
    version. *)
Definition left_pad : PackageRow :=
  mkRow "left-pad" (Some "1.3.0") "npm" (Some "2024-01-01 10:00:00").
Definition express : PackageRow :=
  mkRow "express" (Some "unknown") "npm" (Some "not a date").
Definition flask_row : PackageRow :=
  mkRow "flask" None "pip" (Some "2024-01-02 10:00:00").

(** A desk with these rows, on which the date that is no date cannot be
    parsed and the others are recent. *)
Definition dated_desk : Desk := {|
  desk_script := quiet;
  desk_files := fun _ => None;
  desk_rows := [left_pad; express; flask_row];
  desk_recent := fun d =>
    if String.eqb d "not a date" then Raise "Invalid isoformat string" else Ok true;
  desk_shell := fun _ => exits 0
|}.

End desk.
Export desk.

(** ** The command of a removal, by name *)

Module removal_views.

(** The command the removal loop runs for a manager. *)
Definition remove_command {PS : PyStr} (h : Host) (pkg manager : string) : list string :=
  match dict_get (REMOVE_HANDLERS h) manager with
  | Some cmd_builder => cmd_builder pkg
  | None => []
  end.

End removal_views.
Export removal_views.

(** * Properties *)

(** ** Dicts *)

Section dict_facts.
Context {V : Type}.

Lemma dict_get_In (d : dict V) k v :
  dict_wf d -> In (k, v) d -> dict_get d k = Some v.
Proof.
  unfold dict_wf, dict_keys.
  induction d as [|[k' v'] d IH]; simpl; intros Hnd Hin; [contradiction|].
  inversion Hnd as [|? ? Hnot Hnd']; subst.
  destruct Hin as [Heq|Hin].
  - inversion Heq; subst. now rewrite String.eqb_refl.
  - destruct (String.eqb_spec k k') as [->|_].
    + exfalso. apply Hnot. change k' with (fst (k', v)). now apply in_map.
    + now apply IH.
Qed.

Lemma dict_get_Some_In (d : dict V) k v :
  dict_get d k = Some v -> In (k, v) d.
Proof.
  induction d as [|[k' v'] d IH]; simpl; [discriminate|].
  destruct (String.eqb_spec k k') as [->|_].
  - intros [= ->]. now left.
  - intros H. right. now apply IH.
Qed.

End dict_facts.

Lemma get_truthy_true (d : dict bool) k :
  get_truthy d k = true <-> dict_get d k = Some true.
Proof.
  unfold get_truthy. destruct (dict_get d k) as [[|]|]; split; congruence.
Qed.

Lemma mem_In x l : mem x l = true <-> In x l.
Proof.
  unfold mem. rewrite existsb_exists. split.
  - intros [y [Hy Heq]]. apply String.eqb_eq in Heq. now subst.
  - intros H. exists x. split; [assumption | apply String.eqb_refl].
Qed.

Lemma mem_false x l : mem x l = false <-> ~ In x l.
Proof.
  rewrite <- mem_In. destruct (mem x l); split; congruence.
Qed.

(** ** The candidate ranker *)

Section ranker_facts.
Context {PS : PyStr}.

Lemma append_new_In cond x l m :
  In m (append_new cond x l) <-> In m l \/ (cond = true /\ m = x).
Proof.
  unfold append_new. destruct cond; simpl.
  - destruct (mem x l) eqn:E; simpl.
    + apply mem_In in E. split; [tauto|]. intros [H|[_ ->]]; assumption.
    + rewrite in_app_iff. simpl. split.
      * intros [H|[H|[]]]; [tauto | right; split; congruence].
      * intros [H|[_ ->]]; tauto.
  - split; [tauto|]. intros [H|[H _]]; [assumption | discriminate].
Qed.

Lemma append_new_NoDup cond x l : NoDup l -> NoDup (append_new cond x l).
Proof.
  intros Hnd. unfold append_new. destruct cond; simpl; [|assumption].
  destruct (mem x l) eqn:E; simpl; [assumption|].
  apply mem_false in E.
  apply NoDup_app; [assumption | repeat constructor; simpl; tauto |].
  intros a Ha [<-|[]]. contradiction.
Qed.

Lemma append_new_extends cond x l : exists t, append_new cond x l = l ++ t.
Proof.
  unfold append_new. destruct (cond && negb (mem x l)).
  - now exists [x].
  - exists []. now rewrite app_nil_r.
Qed.

Lemma add_system_In installed l prefs m :
  In m (add_system installed l prefs) <->
  In m prefs \/ (In m l /\ get_truthy installed m = true).
Proof.
  unfold add_system. revert prefs.
  induction l as [|x l IH]; simpl; intros prefs; [tauto|].
  rewrite IH, append_new_In. split.
  - intros [[H|[H ->]]|[H1 H2]]; tauto.
  - intros [H|[[<-|H1] H2]]; tauto.
Qed.

Lemma add_system_NoDup installed l prefs :
  NoDup prefs -> NoDup (add_system installed l prefs).
Proof.
  unfold add_system. revert prefs.
  induction l as [|x l IH]; simpl; intros prefs H; [assumption|].
  apply IH. now apply append_new_NoDup.
Qed.

Lemma add_system_extends installed l prefs :
  exists t, add_system installed l prefs = prefs ++ t.
Proof.
  unfold add_system. revert prefs.
  induction l as [|x l IH]; simpl; intros prefs.
  - exists []. now rewrite app_nil_r.
  - destruct (append_new_extends (get_truthy installed x) x prefs) as [t1 ->].
    destruct (IH (prefs ++ t1)) as [t2 ->].
    exists (t1 ++ t2). now rewrite app_assoc.
Qed.

Lemma add_remaining_In items prefs m :
  In m (add_remaining items prefs) <-> In m prefs \/ In (m, true) items.
Proof.
  unfold add_remaining. revert prefs.
  induction items as [|[x b] items IH]; simpl; intros prefs; [tauto|].
  rewrite IH, append_new_In. split.
  - intros [[H|[-> ->]]|H]; tauto.
  - intros [H|[[= -> ->]|H]]; tauto.
Qed.

Lemma add_remaining_NoDup items prefs :
  NoDup prefs -> NoDup (add_remaining items prefs).
Proof.
  unfold add_remaining. revert prefs.
  induction items as [|[x b] items IH]; simpl; intros prefs H; [assumption|].
  apply IH. now apply append_new_NoDup.
Qed.

Lemma add_remaining_extends items prefs :
  exists t, add_remaining items prefs = prefs ++ t.
Proof.
  unfold add_remaining. revert prefs.
  induction items as [|[x b] items IH]; simpl; intros prefs.
  - exists []. now rewrite app_nil_r.
  - destruct (append_new_extends b x prefs) as [t1 ->].
    destruct (IH (prefs ++ t1)) as [t2 ->].
    exists (t1 ++ t2). now rewrite app_assoc.
Qed.

Lemma ranker_unfold h pkg installed :
  _ordered_install_manager_candidates h pkg installed =
  add_remaining installed
    (add_system installed (_system_manager_priority h) (heuristic_prefs pkg installed)).
Proof.
  unfold _ordered_install_manager_candidates, heuristic_prefs, add_remaining, add_system.
  destruct (_looks_like_python_pkg pkg && get_truthy installed "pip");
    destruct (_looks_like_npm_pkg pkg && get_truthy installed "npm"); reflexivity.
Qed.

Lemma heuristic_prefs_NoDup pkg installed : NoDup (heuristic_prefs pkg installed).
Proof.
  unfold heuristic_prefs.
  destruct (_looks_like_python_pkg pkg && get_truthy installed "pip");
    destruct (_looks_like_npm_pkg pkg && get_truthy installed "npm"); simpl;
    repeat constructor; simpl; intuition discriminate.
Qed.

Lemma heuristic_prefs_truthy pkg installed m :
  In m (heuristic_prefs pkg installed) -> get_truthy installed m = true.
Proof.
  unfold heuristic_prefs. rewrite in_app_iff.
  destruct (_looks_like_python_pkg pkg); destruct (get_truthy installed "pip") eqn:Ep;
    destruct (_looks_like_npm_pkg pkg); destruct (get_truthy installed "npm") eqn:En;
    simpl; intuition (subst; assumption).
Qed.

(** Membership in the ranked list, whatever the map. *)
Lemma ranker_In h pkg installed m :
  In m (_ordered_install_manager_candidates h pkg installed) ->
  get_truthy installed m = true \/ In (m, true) installed.
Proof.
  rewrite ranker_unfold, add_remaining_In, add_system_In.
  intros [[H|[_ H]]|H]; [left | left | right]; try assumption.
  now apply heuristic_prefs_truthy in H.
Qed.

Lemma ranker_NoDup h pkg installed :
  NoDup (_ordered_install_manager_candidates h pkg installed).
Proof.
  rewrite ranker_unfold.
  apply add_remaining_NoDup, add_system_NoDup, heuristic_prefs_NoDup.
Qed.

Lemma ranker_complete h pkg installed m :
  In (m, true) installed -> In m (_ordered_install_manager_candidates h pkg installed).
Proof.
  intros H. rewrite ranker_unfold, add_remaining_In. now right.
Qed.

Lemma ranker_available h pkg installed m :
  dict_wf installed ->
  In m (_ordered_install_manager_candidates h pkg installed) ->
  dict_get installed m = Some true.
Proof.
  intros Hwf Hm. destruct (ranker_In _ _ _ _ Hm) as [H|H].
  - now apply get_truthy_true.
  - now apply dict_get_In.
Qed.

(** C2. For every package and every availability map, the list returned
    by [_ordered_install_manager_candidates] has no manager twice, and
    every manager in it has a true entry in the map. *)
Theorem C2_ranker_no_duplicates_only_available (h : Host) (pkg : string) (installed : dict bool) :
  dict_wf installed ->
  NoDup (_ordered_install_manager_candidates h pkg installed) /\
  forall m, In m (_ordered_install_manager_candidates h pkg installed) ->
            dict_get installed m = Some true.
Proof.
  intros Hwf. split; [apply ranker_NoDup|].
  intros m. now apply ranker_available.
Qed.

End ranker_facts.

Section ranker_scenarios.
Context {PS : PyStr}.

(** A version-specifier token makes a package look like a Python one,
    whatever the rest of its name. *)
Lemma version_specifier_looks_python pkg token :
  In token python_indicators -> str_in token pkg = true ->
  _looks_like_python_pkg pkg = true.
Proof.
  intros Hin Hsub. unfold _looks_like_python_pkg.
  assert (E : existsb (fun indicator => str_in indicator pkg) python_indicators = true).
  { apply existsb_exists. now exists token. }
  now rewrite E.
Qed.

Lemma linux_priority_with_apt h :
  _os_type h = "linux" -> which h "apt" = true ->
  _system_manager_priority h = ["apt"; "snap"; "flatpak"].
Proof.
  intros Hos Hapt. unfold _system_manager_priority. rewrite Hos. simpl.
  now rewrite Hapt.
Qed.

(** C8. For the package ["django==4.2"] on Linux, with a map in which pip
    and apt are true and npm is false (apt being on the PATH, as the map
    says), the candidates are pip, then apt, then the remaining true
    managers: the token [==] makes the Python heuristic fire, so pip
    comes before the system managers. *)
Theorem C8_django_version_specifier (h : Host) (installed : dict bool) :
  dict_wf installed ->
  _os_type h = "linux" ->
  which h "apt" = true ->
  dict_get installed "pip" = Some true ->
  dict_get installed "apt" = Some true ->
  dict_get installed "npm" = Some false ->
  In "==" python_indicators /\ str_in "==" "django==4.2" = true /\
  _looks_like_python_pkg "django==4.2" = true /\
  exists rest,
    _ordered_install_manager_candidates h "django==4.2" installed = "pip" :: "apt" :: rest /\
    NoDup rest /\
    forall m, In m rest <->
              (dict_get installed m = Some true /\ m <> "pip" /\ m <> "apt").
Proof.
  intros Hwf Hos Hwhich Hpip Hapt Hnpm.
  assert (Htok : In "==" python_indicators) by (simpl; tauto).
  assert (Hsub : str_in "==" "django==4.2" = true) by reflexivity.
  assert (Hpy : _looks_like_python_pkg "django==4.2" = true)
    by (now apply version_specifier_looks_python with (token := "==")).
  repeat split; try assumption.
  pose proof (ranker_NoDup h "django==4.2" installed) as Hnd.
  pose proof (fun m => ranker_available h "django==4.2" installed m Hwf) as Havail.
  pose proof (fun m => ranker_complete h "django==4.2" installed m) as Hcomplete.
  assert (Hshape : exists rest,
    _ordered_install_manager_candidates h "django==4.2" installed = "pip" :: "apt" :: rest).
  { rewrite ranker_unfold. unfold heuristic_prefs. rewrite Hpy.
    rewrite (proj2 (get_truthy_true installed "pip") Hpip).
    assert (En : get_truthy installed "npm" = false)
      by (unfold get_truthy; now rewrite Hnpm).
    rewrite En, andb_false_r. simpl app.
    rewrite (linux_priority_with_apt h Hos Hwhich).
    unfold add_system. simpl fold_left.
    rewrite (proj2 (get_truthy_true installed "apt") Hapt).
    change (append_new true "apt" ["pip"]) with ["pip"; "apt"].
    destruct (add_system_extends installed ["snap"; "flatpak"] ["pip"; "apt"]) as [t1 E1].
    unfold add_system in E1. simpl fold_left in E1. rewrite E1.
    destruct (add_remaining_extends installed (["pip"; "apt"] ++ t1)) as [t2 E2].
    rewrite E2. exists (t1 ++ t2). now rewrite <- app_assoc. }
  destruct Hshape as [rest Hrest]. exists rest. split; [assumption|].
  rewrite Hrest in Hnd, Havail, Hcomplete.
  inversion Hnd as [|? ? Hpip_out Hnd1]; subst.
  inversion Hnd1 as [|? ? Hapt_out Hnd2]; subst.
  split; [assumption|]. intros m. split.
  - intros Hm. split; [apply Havail; simpl; tauto|].
    split; intros ->; [apply Hpip_out | apply Hapt_out]; simpl; tauto.
  - intros [Hget [Hn1 Hn2]].
    destruct (Hcomplete m (dict_get_Some_In _ _ _ Hget)) as [E|[E|Hin]];
      [congruence | congruence | assumption].
Qed.

End ranker_scenarios.

(** ** The monad *)

Section monad_facts.
Context {W : Type} {WO : World W}.
Local Abbreviation M := (monad.M W).

Lemma bind_run_ok {A B} (c : M A) (k : A -> M B) st a st1 es :
  c st = mkRun (Ok a) st1 es ->
  bind c k st = mkRun (value (k a st1)) (final (k a st1)) (es ++ effects (k a st1)).
Proof. intros H. unfold bind. now rewrite H. Qed.

Lemma bind_cprint {B} text color (k : unit -> M B) st :
  bind (cprint text color) k st =
  mkRun (value (k tt st)) (final (k tt st)) (Cprint text color :: effects (k tt st)).
Proof. reflexivity. Qed.

Lemma commands_run_app es1 es2 :
  commands_run (es1 ++ es2) = commands_run es1 ++ commands_run es2.
Proof.
  induction es1 as [|e es1 IH]; simpl; [reflexivity|].
  destruct e; simpl; now rewrite ?IH.
Qed.

Lemma printed_app color es1 es2 :
  printed color (es1 ++ es2) = printed color es1 ++ printed color es2.
Proof.
  induction es1 as [|e es1 IH]; simpl; [reflexivity|].
  destruct e; simpl; rewrite ?IH; try reflexivity.
  now destruct (String.eqb color0 color).
Qed.

End monad_facts.

(** ** No manager available *)

Section no_manager.
Context {PS : PyStr} {W : Type} {WO : World W}.

Lemma any_installed_false installed :
  (forall m, ~ In (m, true) installed) -> any_installed installed = false.
Proof.
  intros Hnone. unfold any_installed, dict_values.
  destruct (existsb (fun b => b) (map snd installed)) eqn:E; [|reflexivity].
  apply existsb_exists in E. destruct E as [b [Hin ->]].
  apply in_map_iff in Hin. destruct Hin as [[m b] [Hb Hin]]. simpl in Hb. subst.
  exfalso. now apply (Hnone m).
Qed.

Lemma ranker_empty h pkg installed :
  (forall m, ~ In (m, true) installed) ->
  _ordered_install_manager_candidates h pkg installed = [].
Proof.
  intros Hnone.
  destruct (_ordered_install_manager_candidates h pkg installed) as [|m l] eqn:E;
    [reflexivity|].
  exfalso. assert (Hin : In m (_ordered_install_manager_candidates h pkg installed))
    by (rewrite E; now left).
  destruct (ranker_In _ _ _ _ Hin) as [H|H].
  - apply get_truthy_true, dict_get_Some_In in H. now apply (Hnone m).
  - now apply (Hnone m).
Qed.

(** C5. With an availability map that has no true entry, the ranker
    returns the empty list, and [install_package] and [remove_package]
    return [(False, [])] at once: they print two lines, run no command,
    record no attempt and leave the state as it was. *)
Theorem C5_no_manager_available (h : Host) (installed : dict bool) (pkg : string)
    (chosen : option string) (st : St W) :
  (forall m, ~ In (m, true) installed) ->
  _ordered_install_manager_candidates h pkg installed = [] /\
  install_package_with h installed pkg chosen st =
    mkRun (Ok (false, [])) st
      [Cprint ("Preparing to install: " ++ pkg) "INFO";
       Cprint "No supported package managers are available on this system." "ERROR"] /\
  remove_package_with h installed pkg chosen st =
    mkRun (Ok (false, [])) st
      [Cprint ("Preparing to remove: " ++ pkg) "INFO";
       Cprint "No supported package managers are available on this system." "ERROR"] /\
  commands_run (effects (install_package_with h installed pkg chosen st)) = [] /\
  commands_run (effects (remove_package_with h installed pkg chosen st)) = [].
Proof.
  intros Hnone. split; [now apply ranker_empty|].
  assert (Ei : install_package_with h installed pkg chosen st =
    mkRun (Ok (false, [])) st
      [Cprint ("Preparing to install: " ++ pkg) "INFO";
       Cprint "No supported package managers are available on this system." "ERROR"]).
  { unfold install_package_with. rewrite bind_cprint.
    rewrite (any_installed_false installed Hnone). reflexivity. }
  assert (Er : remove_package_with h installed pkg chosen st =
    mkRun (Ok (false, [])) st
      [Cprint ("Preparing to remove: " ++ pkg) "INFO";
       Cprint "No supported package managers are available on this system." "ERROR"]).
  { unfold remove_package_with. rewrite bind_cprint.
    rewrite (any_installed_false installed Hnone). reflexivity. }
  rewrite Ei, Er. repeat split.
Qed.

End no_manager.

(** ** One attempt of the orchestrators *)

Section attempt_facts.
Context {PS : PyStr} {W : Type} {WO : World W}.
Local Abbreviation M := (monad.M W).

Lemma report_failure_run manager res (st : St W) :
  exists text, report_failure manager res st = mkRun (Ok tt) st [Cprint text "WARNING"].
Proof.
  unfold report_failure.
  destruct (str_truthy (str_strip (str_or (err res) (out res)))); eexists; reflexivity.
Qed.

Lemma attempt_failed_run manager e (st : St W) :
  attempt_failed manager e st =
  mkRun (Ok None) (mkSt (world st) (attempts st ++ [synthetic manager e]))
        [Cprint (_manager_human manager ++ " failed with exception: " ++ e) "WARNING"].
Proof. reflexivity. Qed.

(** The four ways the [try] statement of the install loop can go. *)

Lemma install_attempt_run_raises pkg i total manager cmd_builder (st : St W) e w' :
  world_run_command (cmd_builder pkg) 1800 0 true (world st) = (Raise e, w') ->
  exists line1 line2,
    install_attempt pkg i total manager cmd_builder st =
    mkRun (Ok None) (mkSt w' (attempts st ++ [synthetic manager e]))
          [Cprint line1 "INFO"; RunCommand (cmd_builder pkg) 1800 0 true;
           Cprint line2 "WARNING"].
Proof.
  intros Hrun. do 2 eexists.
  unfold install_attempt, try_except, install_try, run_command, bind, cprint, emit, call.
  simpl. rewrite Hrun. simpl. reflexivity.
Qed.

Lemma install_attempt_command_fails pkg i total manager cmd_builder (st : St W) res w' :
  world_run_command (cmd_builder pkg) 1800 0 true (world st) = (Ok res, w') ->
  ok res = false ->
  exists line1 line2,
    install_attempt pkg i total manager cmd_builder st =
    mkRun (Ok None) (mkSt w' (attempts st ++ [(manager, res)]))
          [Cprint line1 "INFO"; RunCommand (cmd_builder pkg) 1800 0 true;
           Cprint line2 "WARNING"].
Proof.
  intros Hrun Hok.
  unfold install_attempt, try_except, install_try, run_command, bind, cprint, emit, call,
    append_attempt.
  simpl. rewrite Hrun. simpl. rewrite Hok. simpl.
  match goal with
  | |- context [report_failure ?m ?r ?s] =>
      destruct (report_failure_run m r s) as [text Htext]; rewrite Htext
  end.
  do 2 eexists. simpl. reflexivity.
Qed.

Lemma install_attempt_succeeds pkg i total manager cmd_builder (st : St W) res w' w'' :
  world_run_command (cmd_builder pkg) 1800 0 true (world st) = (Ok res, w') ->
  ok res = true ->
  world_add_package pkg (_extract_package_version (out res) manager) manager
    (String.concat " " (cmd_builder pkg)) w' = (Ok tt, w'') ->
  exists line1 line2,
    install_attempt pkg i total manager cmd_builder st =
    mkRun (Ok (Some true)) (mkSt w'' (attempts st ++ [(manager, res)]))
          [Cprint line1 "INFO"; RunCommand (cmd_builder pkg) 1800 0 true;
           AddPackage pkg (_extract_package_version (out res) manager) manager
             (String.concat " " (cmd_builder pkg));
           Cprint line2 "SUCCESS"].
Proof.
  intros Hrun Hok Hadd. do 2 eexists.
  unfold install_attempt, try_except, install_try, run_command, add_package, bind, cprint,
    emit, call, append_attempt.
  simpl. rewrite Hrun. simpl. rewrite Hok. simpl. rewrite Hadd. simpl. reflexivity.
Qed.

Lemma install_attempt_record_raises pkg i total manager cmd_builder (st : St W) res w' e w'' :
  world_run_command (cmd_builder pkg) 1800 0 true (world st) = (Ok res, w') ->
  ok res = true ->
  world_add_package pkg (_extract_package_version (out res) manager) manager
    (String.concat " " (cmd_builder pkg)) w' = (Raise e, w'') ->
  exists line1 line2,
    install_attempt pkg i total manager cmd_builder st =
    mkRun (Ok None) (mkSt w'' ((attempts st ++ [(manager, res)]) ++ [synthetic manager e]))
          [Cprint line1 "INFO"; RunCommand (cmd_builder pkg) 1800 0 true;
           AddPackage pkg (_extract_package_version (out res) manager) manager
             (String.concat " " (cmd_builder pkg));
           Cprint line2 "WARNING"].
Proof.
  intros Hrun Hok Hadd. do 2 eexists.
  unfold install_attempt, try_except, install_try, run_command, add_package, bind, cprint,
    emit, call, append_attempt.
  simpl. rewrite Hrun. simpl. rewrite Hok. simpl. rewrite Hadd. simpl. reflexivity.
Qed.

(** The same for the removal loop. *)

Lemma remove_attempt_run_raises pkg mgr cmd_builder (st : St W) e w' :
  world_run_command (cmd_builder pkg) 600 0 true (world st) = (Raise e, w') ->
  exists line1 line2,
    remove_attempt pkg mgr cmd_builder st =
    mkRun (Ok None) (mkSt w' (attempts st ++ [synthetic mgr e]))
          [Cprint line1 "INFO"; RunCommand (cmd_builder pkg) 600 0 true;
           Cprint line2 "WARNING"].
Proof.
  intros Hrun. do 2 eexists.
  unfold remove_attempt, try_except, remove_try, run_command, bind, cprint, emit, call.
  simpl. rewrite Hrun. simpl. reflexivity.
Qed.

Lemma remove_attempt_command_fails pkg mgr cmd_builder (st : St W) res w' :
  world_run_command (cmd_builder pkg) 600 0 true (world st) = (Ok res, w') ->
  ok res = false ->
  exists line1 line2,
    remove_attempt pkg mgr cmd_builder st =
    mkRun (Ok None) (mkSt w' (attempts st ++ [(mgr, res)]))
          [Cprint line1 "INFO"; RunCommand (cmd_builder pkg) 600 0 true;
           Cprint line2 "WARNING"].
Proof.
  intros Hrun Hok.
  unfold remove_attempt, try_except, remove_try, run_command, bind, cprint, emit, call,
    append_attempt.
  simpl. rewrite Hrun. simpl. rewrite Hok. simpl.
  match goal with
  | |- context [report_failure ?m ?r ?s] =>
      destruct (report_failure_run m r s) as [text Htext]; rewrite Htext
  end.
  do 2 eexists. simpl. reflexivity.
Qed.

Lemma remove_attempt_succeeds pkg mgr cmd_builder (st : St W) res w' w'' :
  world_run_command (cmd_builder pkg) 600 0 true (world st) = (Ok res, w') ->
  ok res = true ->
  world_remove_package pkg mgr w' = (Ok tt, w'') ->
  exists line1 line2,
    remove_attempt pkg mgr cmd_builder st =
    mkRun (Ok (Some true)) (mkSt w'' (attempts st ++ [(mgr, res)]))
          [Cprint line1 "INFO"; RunCommand (cmd_builder pkg) 600 0 true;
           RemovePackage pkg mgr; Cprint line2 "SUCCESS"].
Proof.
  intros Hrun Hok Hdel. do 2 eexists.
  unfold remove_attempt, try_except, remove_try, run_command, remove_package_record, bind,
    cprint, emit, call, append_attempt.
  simpl. rewrite Hrun. simpl. rewrite Hok. simpl. rewrite Hdel. simpl. reflexivity.
Qed.

Lemma remove_attempt_record_raises pkg mgr cmd_builder (st : St W) res w' e w'' :
  world_run_command (cmd_builder pkg) 600 0 true (world st) = (Ok res, w') ->
  ok res = true ->
  world_remove_package pkg mgr w' = (Raise e, w'') ->
  exists line1 line2,
    remove_attempt pkg mgr cmd_builder st =
    mkRun (Ok None) (mkSt w'' ((attempts st ++ [(mgr, res)]) ++ [synthetic mgr e]))
          [Cprint line1 "INFO"; RunCommand (cmd_builder pkg) 600 0 true;
           RemovePackage pkg mgr; Cprint line2 "WARNING"].
Proof.
  intros Hrun Hok Hdel. do 2 eexists.
  unfold remove_attempt, try_except, remove_try, run_command, remove_package_record, bind,
    cprint, emit, call, append_attempt.
  simpl. rewrite Hrun. simpl. rewrite Hok. simpl. rewrite Hdel. simpl. reflexivity.
Qed.

End attempt_facts.

(** ** The loops of the orchestrators *)

Section loop_facts.
Context {PS : PyStr} {W : Type} {WO : World W}.
Local Abbreviation M := (monad.M W).

Lemma install_loop_cons h pkg total i manager rest :
  install_loop h pkg total i (manager :: rest) =
  match dict_get (INSTALL_HANDLERS h) manager with
  | None => install_loop h pkg total (S i) rest
  | Some cmd_builder =>
      r <- install_attempt pkg i total manager cmd_builder ;;
      match r with
      | Some b => a <- get_attempts ;; ret (b, a)
      | None => install_loop h pkg total (S i) rest
      end
  end.
Proof. reflexivity. Qed.

Lemma remove_loop_cons h pkg mgr rest :
  remove_loop h pkg (mgr :: rest) =
  match dict_get (REMOVE_HANDLERS h) mgr with
  | None => remove_loop h pkg rest
  | Some cmd_builder =>
      r <- remove_attempt pkg mgr cmd_builder ;;
      match r with
      | Some b => a <- get_attempts ;; ret (b, a)
      | None => remove_loop h pkg rest
      end
  end.
Proof. reflexivity. Qed.

Lemma install_loop_skip h pkg total i manager rest (st : St W) :
  dict_get (INSTALL_HANDLERS h) manager = None ->
  install_loop h pkg total i (manager :: rest) st = install_loop h pkg total (S i) rest st.
Proof. intros H. now rewrite install_loop_cons, H. Qed.

Lemma install_loop_next h pkg total i manager rest cmd_builder (st st1 : St W) es :
  dict_get (INSTALL_HANDLERS h) manager = Some cmd_builder ->
  install_attempt pkg i total manager cmd_builder st = mkRun (Ok None) st1 es ->
  install_loop h pkg total i (manager :: rest) st =
  mkRun (value (install_loop h pkg total (S i) rest st1))
        (final (install_loop h pkg total (S i) rest st1))
        (es ++ effects (install_loop h pkg total (S i) rest st1)).
Proof.
  intros Hh Ha. rewrite install_loop_cons, Hh. unfold bind at 1. rewrite Ha. reflexivity.
Qed.

Lemma install_loop_return h pkg total i manager rest cmd_builder (st st1 : St W) es b :
  dict_get (INSTALL_HANDLERS h) manager = Some cmd_builder ->
  install_attempt pkg i total manager cmd_builder st = mkRun (Ok (Some b)) st1 es ->
  install_loop h pkg total i (manager :: rest) st = mkRun (Ok (b, attempts st1)) st1 es.
Proof.
  intros Hh Ha. rewrite install_loop_cons, Hh. unfold bind at 1. rewrite Ha. simpl.
  now rewrite app_nil_r.
Qed.

Lemma remove_loop_skip h pkg mgr rest (st : St W) :
  dict_get (REMOVE_HANDLERS h) mgr = None ->
  remove_loop h pkg (mgr :: rest) st = remove_loop h pkg rest st.
Proof. intros H. now rewrite remove_loop_cons, H. Qed.

Lemma remove_loop_next h pkg mgr rest cmd_builder (st st1 : St W) es :
  dict_get (REMOVE_HANDLERS h) mgr = Some cmd_builder ->
  remove_attempt pkg mgr cmd_builder st = mkRun (Ok None) st1 es ->
  remove_loop h pkg (mgr :: rest) st =
  mkRun (value (remove_loop h pkg rest st1)) (final (remove_loop h pkg rest st1))
        (es ++ effects (remove_loop h pkg rest st1)).
Proof.
  intros Hh Ha. rewrite remove_loop_cons, Hh. unfold bind at 1. rewrite Ha. reflexivity.
Qed.

Lemma remove_loop_return h pkg mgr rest cmd_builder (st st1 : St W) es b :
  dict_get (REMOVE_HANDLERS h) mgr = Some cmd_builder ->
  remove_attempt pkg mgr cmd_builder st = mkRun (Ok (Some b)) st1 es ->
  remove_loop h pkg (mgr :: rest) st = mkRun (Ok (b, attempts st1)) st1 es.
Proof.
  intros Hh Ha. rewrite remove_loop_cons, Hh. unfold bind at 1. rewrite Ha. simpl.
  now rewrite app_nil_r.
Qed.

Lemma install_loop_nil h pkg total i (st : St W) :
  install_loop h pkg total i [] st =
  mkRun (Ok (false, attempts st)) st
        [Cprint ("Failed to install '" ++ pkg ++ "' with all available managers.") "ERROR"].
Proof. reflexivity. Qed.

Lemma remove_loop_nil h pkg (st : St W) :
  remove_loop h pkg [] st =
  mkRun (Ok (false, attempts st)) st
        [Cprint ("Failed to remove '" ++ pkg ++ "' with all available managers.") "ERROR"].
Proof. reflexivity. Qed.

Ltac shape_case E :=
  rewrite E; do 4 eexists; split; [reflexivity|]; simpl; rewrite <- ?app_assoc; simpl;
  split; [reflexivity|]; split; [reflexivity|];
  split; [do 2 eexists; reflexivity | repeat constructor].

(** What one [try] statement leaves, in every case: it does not raise,
    it runs one command, and it appends one record for its manager, or
    two when the command succeeds and the record store raises. *)
Lemma install_attempt_shape pkg i total manager cmd_builder (st : St W) :
  exists r st1 es new,
    install_attempt pkg i total manager cmd_builder st = mkRun (Ok r) st1 es /\
    attempts st1 = attempts st ++ new /\
    commands_run es = [cmd_builder pkg] /\
    (exists a more, new = (manager, a) :: more) /\
    Forall (fun x => fst x = manager) new.
Proof.
  destruct (world_run_command (cmd_builder pkg) 1800 0 true (world st)) as [[res|e] w'] eqn:Hrun.
  - destruct (ok res) eqn:Hok.
    + destruct (world_add_package pkg (_extract_package_version (out res) manager) manager
                  (String.concat " " (cmd_builder pkg)) w') as [[[]|e] w''] eqn:Hadd.
      * destruct (install_attempt_succeeds pkg i total manager cmd_builder st res w' w''
                    Hrun Hok Hadd) as [l1 [l2 E]].
        shape_case E.
      * destruct (install_attempt_record_raises pkg i total manager cmd_builder st res w' e w''
                    Hrun Hok Hadd) as [l1 [l2 E]].
        shape_case E.
    + destruct (install_attempt_command_fails pkg i total manager cmd_builder st res w'
                  Hrun Hok) as [l1 [l2 E]].
      shape_case E.
  - destruct (install_attempt_run_raises pkg i total manager cmd_builder st e w' Hrun)
      as [l1 [l2 E]].
    shape_case E.
Qed.

Lemma remove_attempt_shape pkg mgr cmd_builder (st : St W) :
  exists r st1 es new,
    remove_attempt pkg mgr cmd_builder st = mkRun (Ok r) st1 es /\
    attempts st1 = attempts st ++ new /\
    commands_run es = [cmd_builder pkg] /\
    (exists a more, new = (mgr, a) :: more) /\
    Forall (fun x => fst x = mgr) new.
Proof.
  destruct (world_run_command (cmd_builder pkg) 600 0 true (world st)) as [[res|e] w'] eqn:Hrun.
  - destruct (ok res) eqn:Hok.
    + destruct (world_remove_package pkg mgr w') as [[[]|e] w''] eqn:Hdel.
      * destruct (remove_attempt_succeeds pkg mgr cmd_builder st res w' w'' Hrun Hok Hdel)
          as [l1 [l2 E]].
        shape_case E.
      * destruct (remove_attempt_record_raises pkg mgr cmd_builder st res w' e w''
                    Hrun Hok Hdel) as [l1 [l2 E]].
        shape_case E.
    + destruct (remove_attempt_command_fails pkg mgr cmd_builder st res w' Hrun Hok)
        as [l1 [l2 E]].
      shape_case E.
  - destruct (remove_attempt_run_raises pkg mgr cmd_builder st e w' Hrun) as [l1 [l2 E]].
    shape_case E.
Qed.

(** The loops do not raise; the list they return is the list they leave,
    and it extends the one they start from. *)
Lemma install_loop_total h pkg total candidates : forall i (st : St W),
  exists b new,
    value (install_loop h pkg total i candidates st) = Ok (b, attempts st ++ new) /\
    attempts (final (install_loop h pkg total i candidates st)) = attempts st ++ new /\
    Forall (fun x => In (fst x) candidates) new.
Proof.
  induction candidates as [|manager rest IH]; intros i st.
  - exists false, []. rewrite install_loop_nil, app_nil_r. simpl. auto.
  - destruct (dict_get (INSTALL_HANDLERS h) manager) as [cmd_builder|] eqn:Hh.
    + destruct (install_attempt_shape pkg i total manager cmd_builder st)
        as [r [st1 [es [new [E [Hatt [_ [_ Hall]]]]]]]].
      assert (Hall' : Forall (fun x => In (fst x) (manager :: rest)) new).
      { eapply Forall_impl; [|exact Hall]. simpl. intros x ->. now left. }
      destruct r as [b|].
      * rewrite (install_loop_return h pkg total i manager rest cmd_builder st st1 es b Hh E).
        exists b, new. simpl. now rewrite Hatt.
      * rewrite (install_loop_next h pkg total i manager rest cmd_builder st st1 es Hh E).
        destruct (IH (S i) st1) as [b [new2 [Hv [Hf Hall2]]]].
        exists b, (new ++ new2). simpl. rewrite Hv, Hf, Hatt, app_assoc.
        repeat split. apply Forall_app. split; [assumption|].
        eapply Forall_impl; [|exact Hall2]. simpl. intros x Hx. now right.
    + rewrite (install_loop_skip h pkg total i manager rest st Hh).
      destruct (IH (S i) st) as [b [new [Hv [Hf Hall]]]].
      exists b, new. repeat split; try assumption.
      eapply Forall_impl; [|exact Hall]. simpl. intros x Hx. now right.
Qed.

Lemma remove_loop_total h pkg candidates : forall (st : St W),
  exists b new,
    value (remove_loop h pkg candidates st) = Ok (b, attempts st ++ new) /\
    attempts (final (remove_loop h pkg candidates st)) = attempts st ++ new /\
    Forall (fun x => In (fst x) candidates) new.
Proof.
  induction candidates as [|mgr rest IH]; intros st.
  - exists false, []. rewrite remove_loop_nil, app_nil_r. simpl. auto.
  - destruct (dict_get (REMOVE_HANDLERS h) mgr) as [cmd_builder|] eqn:Hh.
    + destruct (remove_attempt_shape pkg mgr cmd_builder st)
        as [r [st1 [es [new [E [Hatt [_ [_ Hall]]]]]]]].
      assert (Hall' : Forall (fun x => In (fst x) (mgr :: rest)) new).
      { eapply Forall_impl; [|exact Hall]. simpl. intros x ->. now left. }
      destruct r as [b|].
      * rewrite (remove_loop_return h pkg mgr rest cmd_builder st st1 es b Hh E).
        exists b, new. simpl. now rewrite Hatt.
      * rewrite (remove_loop_next h pkg mgr rest cmd_builder st st1 es Hh E).
        destruct (IH st1) as [b [new2 [Hv [Hf Hall2]]]].
        exists b, (new ++ new2). simpl. rewrite Hv, Hf, Hatt, app_assoc.
        repeat split. apply Forall_app. split; [assumption|].
        eapply Forall_impl; [|exact Hall2]. simpl. intros x Hx. now right.
    + rewrite (remove_loop_skip h pkg mgr rest st Hh).
      destruct (IH st) as [b [new [Hv [Hf Hall]]]].
      exists b, new. repeat split; try assumption.
      eapply Forall_impl; [|exact Hall]. simpl. intros x Hx. now right.
Qed.

End loop_facts.

(** ** The orchestrators as a whole *)

Section orchestrator_facts.
Context {PS : PyStr} {W : Type} {WO : World W}.
Local Abbreviation M := (monad.M W).

Lemma print_plan_run candidates : forall i (st : St W),
  exists es, print_plan i candidates st = mkRun (Ok tt) st es /\ commands_run es = [].
Proof.
  induction candidates as [|m rest IH]; intros i st.
  - exists []. split; reflexivity.
  - destruct (IH (S i) st) as [es [E Hc]].
    exists (Cprint ("  " ++ str_of_nat i ++ ". " ++ _manager_human m) "MUTED" :: es).
    split; [|exact Hc].
    simpl print_plan. rewrite bind_cprint, E. reflexivity.
Qed.

Lemma install_candidates_run h pkg installed chosen (st : St W) :
  exists candidates es,
    install_candidates h pkg installed chosen st = mkRun (Ok candidates) st es /\
    commands_run es = [].
Proof.
  unfold install_candidates. destruct chosen as [p|]; [|do 2 eexists; split; reflexivity].
  destruct (str_truthy p); [|do 2 eexists; split; reflexivity].
  destruct (dict_has (INSTALL_HANDLERS h) (str_lower p) && get_truthy installed (str_lower p));
    do 2 eexists; split; reflexivity.
Qed.

Lemma install_run_total h pkg candidates (st : St W) :
  exists b new,
    value (install_run h pkg candidates st) = Ok (b, new) /\
    (candidates = [] -> new = []) /\
    (candidates <> [] -> exists more, new = attempts st ++ more).
Proof.
  destruct candidates as [|m rest].
  - exists false, []. repeat split. intros H. now contradiction H.
  - unfold install_run. rewrite bind_cprint.
    destruct (print_plan_run (m :: rest) 1 st) as [es [E _]].
    rewrite (bind_run_ok _ _ _ _ _ _ E). cbn [value final effects].
    destruct (install_loop_total h pkg (length (m :: rest)) (m :: rest) 1 st)
      as [b [new [Hv _]]].
    exists b, (attempts st ++ new). rewrite Hv.
    repeat split; [discriminate | now exists new].
Qed.

Lemma reset_attempts_run (st : St W) :
  reset_attempts st = mkRun (Ok tt) (mkSt (world st) []) [].
Proof. reflexivity. Qed.

(** [install_package] once some manager is available. *)
Lemma install_package_unfold h installed pkg chosen (st : St W) candidates es :
  any_installed installed = true ->
  install_candidates h pkg installed chosen (mkSt (world st) []) =
    mkRun (Ok candidates) (mkSt (world st) []) es ->
  install_package_with h installed pkg chosen st =
  mkRun (value (install_run h pkg candidates (mkSt (world st) [])))
        (final (install_run h pkg candidates (mkSt (world st) [])))
        (Cprint ("Preparing to install: " ++ pkg) "INFO"
           :: es ++ effects (install_run h pkg candidates (mkSt (world st) []))).
Proof.
  intros Hany E. unfold install_package_with. rewrite bind_cprint, Hany.
  cbn [negb]. rewrite (bind_run_ok _ _ _ _ _ _ (reset_attempts_run st)).
  rewrite (bind_run_ok _ _ _ _ _ _ E). reflexivity.
Qed.

Lemma install_package_total h installed pkg chosen (st : St W) :
  exists b a, value (install_package_with h installed pkg chosen st) = Ok (b, a).
Proof.
  destruct (any_installed installed) eqn:Hany.
  - destruct (install_candidates_run h pkg installed chosen (mkSt (world st) []))
      as [candidates [es [E _]]].
    rewrite (install_package_unfold h installed pkg chosen st candidates es Hany E).
    destruct (install_run_total h pkg candidates (mkSt (world st) [])) as [b [new [Hv _]]].
    now exists b, new.
  - unfold install_package_with. rewrite bind_cprint, Hany. now exists false, [].
Qed.

(** [remove_package] once some manager is available. *)
Lemma remove_package_unfold h installed pkg chosen (st : St W) :
  any_installed installed = true ->
  remove_package_with h installed pkg chosen st =
  let st0 := mkSt (world st) [] in
  let rest :=
    match match chosen with
          | Some m => if str_truthy m then Some m else None
          | None => None
          end with
    | Some m =>
        if dict_has (REMOVE_HANDLERS h) (str_lower m) && get_truthy installed (str_lower m)
        then remove_loop h pkg [str_lower m] st0
        else mkRun (Ok (false, [])) st0
               [Cprint ("Manager '" ++ m ++ "' not available for package removal") "ERROR"]
    | None =>
        match filter (fun m => dict_has (REMOVE_HANDLERS h) m)
                (_ordered_install_manager_candidates h pkg installed) with
        | [] => mkRun (Ok (false, [])) st0
                  [Cprint "No package managers available for package removal." "ERROR"]
        | m :: l => remove_loop h pkg (m :: l) st0
        end
    end in
  mkRun (value rest) (final rest)
        (Cprint ("Preparing to remove: " ++ pkg) "INFO" :: effects rest).
Proof.
  intros Hany. unfold remove_package_with. rewrite bind_cprint, Hany.
  cbn [negb]. rewrite (bind_run_ok _ _ _ _ _ _ (reset_attempts_run st)).
  cbn [app].
  destruct (match chosen with
            | Some m => if str_truthy m then Some m else None
            | None => None
            end) as [m|].
  - destruct (dict_has (REMOVE_HANDLERS h) (str_lower m) && get_truthy installed (str_lower m));
      reflexivity.
  - destruct (filter (fun m => dict_has (REMOVE_HANDLERS h) m)
                (_ordered_install_manager_candidates h pkg installed)); reflexivity.
Qed.

Lemma remove_package_total h installed pkg chosen (st : St W) :
  exists b a, value (remove_package_with h installed pkg chosen st) = Ok (b, a).
Proof.
  destruct (any_installed installed) eqn:Hany.
  - rewrite (remove_package_unfold h installed pkg chosen st Hany). cbv zeta.
    cbn [value].
    destruct (match chosen with
              | Some m => if str_truthy m then Some m else None
              | None => None
              end) as [m|].
    + destruct (dict_has (REMOVE_HANDLERS h) (str_lower m)
                && get_truthy installed (str_lower m)).
      * destruct (remove_loop_total h pkg [str_lower m] (mkSt (world st) []))
          as [b [new [Hv _]]].
        now exists b, new.
      * now exists false, [].
    + destruct (filter (fun m => dict_has (REMOVE_HANDLERS h) m)
                  (_ordered_install_manager_candidates h pkg installed)) as [|m rest].
      * now exists false, [].
      * destruct (remove_loop_total h pkg (m :: rest) (mkSt (world st) []))
          as [b [new [Hv _]]].
        now exists b, new.
  - unfold remove_package_with. rewrite bind_cprint, Hany. now exists false, [].
Qed.

(** C9. An exception raised while the command of a candidate is built and
    run is caught by the loop: the record [(manager, RunResult(False, -1,
    "", str(e)))] is appended to [attempts], the loop goes on with the
    next candidate, and neither [install_package] nor [remove_package]
    ever raises. *)
Theorem C9_exceptions_become_failed_attempts
    (h : Host) (installed : dict bool) (pkg : string) (chosen : option string)
    (total i : nat) (manager : string) (rest : list string)
    (cmd_builder : string -> list string) (st : St W) (e : string) (w' : W) :
  (exists b a, value (install_package_with h installed pkg chosen st) = Ok (b, a)) /\
  (exists b a, value (remove_package_with h installed pkg chosen st) = Ok (b, a)) /\
  (dict_get (INSTALL_HANDLERS h) manager = Some cmd_builder ->
   world_run_command (cmd_builder pkg) 1800 0 true (world st) = (Raise e, w') ->
   let st' := mkSt w' (attempts st ++ [(manager, mkRunResult false (-1) "" e)]) in
   let here := install_loop h pkg total i (manager :: rest) st in
   let next := install_loop h pkg total (S i) rest st' in
   value here = value next /\ final here = final next /\
   commands_run (effects here) = cmd_builder pkg :: commands_run (effects next)) /\
  (dict_get (REMOVE_HANDLERS h) manager = Some cmd_builder ->
   world_run_command (cmd_builder pkg) 600 0 true (world st) = (Raise e, w') ->
   let st' := mkSt w' (attempts st ++ [(manager, mkRunResult false (-1) "" e)]) in
   let here := remove_loop h pkg (manager :: rest) st in
   let next := remove_loop h pkg rest st' in
   value here = value next /\ final here = final next /\
   commands_run (effects here) = cmd_builder pkg :: commands_run (effects next)).
Proof.
  split; [apply install_package_total|].
  split; [apply remove_package_total|].
  split.
  - intros Hh Hrun st' here next.
    destruct (install_attempt_run_raises pkg i total manager cmd_builder st e w' Hrun)
      as [l1 [l2 E]].
    unfold here.
    rewrite (install_loop_next h pkg total i manager rest cmd_builder st st' _ Hh E).
    repeat split.
  - intros Hh Hrun st' here next.
    destruct (remove_attempt_run_raises pkg manager cmd_builder st e w' Hrun)
      as [l1 [l2 E]].
    unfold here.
    rewrite (remove_loop_next h pkg manager rest cmd_builder st st' _ Hh E).
    repeat split.
Qed.

End orchestrator_facts.

(** ** The preferred manager of [install_package] *)

Section preferred_manager.
Context {PS : PyStr} {W : Type} {WO : World W}.
Local Abbreviation M := (monad.M W).

Lemma any_installed_true installed m :
  In (m, true) installed -> any_installed installed = true.
Proof.
  intros H. unfold any_installed, dict_values. apply existsb_exists.
  exists true. split; [|reflexivity].
  change true with (snd (m, true)). now apply in_map.
Qed.

Lemma available_any installed m :
  get_truthy installed m = true -> any_installed installed = true.
Proof.
  intros H. apply any_installed_true with (m := m).
  now apply dict_get_Some_In, get_truthy_true.
Qed.

Lemma dict_has_get {V} (d : dict V) k :
  dict_has d k = true -> exists v, dict_get d k = Some v.
Proof.
  unfold dict_has. destruct (dict_get d k) as [v|]; [now exists v | discriminate].
Qed.

(** The first candidate that has a handler gets the first new record. *)
Lemma install_loop_first h pkg total i manager rest cmd_builder (st : St W) :
  dict_get (INSTALL_HANDLERS h) manager = Some cmd_builder ->
  exists b a more,
    value (install_loop h pkg total i (manager :: rest) st)
    = Ok (b, attempts st ++ (manager, a) :: more).
Proof.
  intros Hh.
  destruct (install_attempt_shape pkg i total manager cmd_builder st)
    as [r [st1 [es [new [E [Hatt [_ [[a [more ->]] _]]]]]]]].
  destruct r as [b|].
  - rewrite (install_loop_return h pkg total i manager rest cmd_builder st st1 es b Hh E).
    exists b, a, more. cbn [value]. now rewrite Hatt.
  - rewrite (install_loop_next h pkg total i manager rest cmd_builder st st1 es Hh E).
    destruct (install_loop_total h pkg total rest (S i) st1) as [b [new2 [Hv _]]].
    exists b, a, (more ++ new2). cbn [value]. rewrite Hv, Hatt, <- app_assoc.
    reflexivity.
Qed.

Lemma filter_other_In (pm : string) (l : list string) m :
  In m (pm :: filter (fun x => negb (String.eqb x pm)) l) <-> m = pm \/ In m l.
Proof.
  simpl. rewrite filter_In. split.
  - intros [->|[H _]]; tauto.
  - intros [->|H]; [now left|].
    destruct (String.eqb_spec m pm) as [->|Hne]; [now left|].
    right. split; [assumption|].
    destruct (String.eqb_spec m pm); [contradiction | reflexivity].
Qed.

Lemma filter_other_NoDup (pm : string) (l : list string) :
  NoDup l -> NoDup (pm :: filter (fun x => negb (String.eqb x pm)) l).
Proof.
  intros Hnd. constructor; [|now apply NoDup_filter].
  rewrite filter_In. intros [_ H]. now rewrite String.eqb_refl in H.
Qed.

(** C6. A preferred manager that has an install handler and is available
    goes first, followed by the ranked candidates without it, and the
    first attempt recorded is its own.  One that has no install handler
    or is not available only adds a warning line: the candidates are the
    ranked list, and [install_package] returns what it returns without a
    preferred manager. *)
Theorem C6_preferred_manager
    (h : Host) (installed : dict bool) (pkg p : string) (st : St W) :
  str_truthy p = true ->
  let pm := str_lower p in
  let ranked := _ordered_install_manager_candidates h pkg installed in
  let moved := pm :: filter (fun m => negb (String.eqb m pm)) ranked in
  let with_p := install_package_with h installed pkg (Some p) st in
  let without := install_package_with h installed pkg None st in
  (dict_has (INSTALL_HANDLERS h) pm = true -> get_truthy installed pm = true ->
   install_candidates h pkg installed (Some p) st = mkRun (Ok moved) st [] /\
   NoDup moved /\
   (forall m, In m moved <-> In m ranked) /\
   exists b r more, value with_p = Ok (b, (pm, r) :: more)) /\
  (dict_has (INSTALL_HANDLERS h) pm && get_truthy installed pm = false ->
   exists warning,
     install_candidates h pkg installed (Some p) st =
       mkRun (Ok ranked) st [Cprint warning "WARNING"] /\
     ((exists m, In (m, true) installed) ->
      value with_p = value without /\ final with_p = final without /\
      exists line rest,
        effects without = line :: rest /\
        effects with_p = line :: Cprint warning "WARNING" :: rest)).
Proof.
  intros Hp pm ranked moved with_p without. split.
  - intros Hcap Havail.
    assert (Ec : forall s : St W,
              install_candidates h pkg installed (Some p) s = mkRun (Ok moved) s []).
    { intros s. unfold install_candidates. rewrite Hp. fold pm. now rewrite Hcap, Havail. }
    split; [apply Ec|].
    split; [apply filter_other_NoDup, ranker_NoDup|].
    split.
    { intros m. unfold moved. rewrite filter_other_In. split; [|tauto].
      intros [->|H]; [|assumption].
      apply ranker_complete. now apply dict_get_Some_In, get_truthy_true. }
    destruct (dict_has_get _ _ Hcap) as [cmd_builder Hh].
    unfold with_p.
    rewrite (install_package_unfold h installed pkg (Some p) st moved []
               (available_any _ _ Havail) (Ec _)).
    cbn [value]. unfold moved, install_run. rewrite bind_cprint. cbn [value].
    match goal with
    | |- context [print_plan 1 ?l] =>
        destruct (print_plan_run l 1 (mkSt (world st) [])) as [es [E _]]
    end.
    rewrite (bind_run_ok _ _ _ _ _ _ E). cbn [value].
    match goal with
    | |- context [install_loop h pkg ?t 1 (pm :: ?l) ?s] =>
        destruct (install_loop_first h pkg t 1 pm l cmd_builder s Hh) as [b [a [more Hv]]]
    end.
    exists b, a, more. exact Hv.
  - intros Hnot.
    exists ("Warning: --manager '" ++ p ++ "' not available. Available: "
            ++ String.concat ", " (available_managers installed))%string.
    assert (Ec : forall s : St W,
              install_candidates h pkg installed (Some p) s =
              mkRun (Ok ranked) s
                [Cprint ("Warning: --manager '" ++ p ++ "' not available. Available: "
                         ++ String.concat ", " (available_managers installed)) "WARNING"]).
    { intros s. unfold install_candidates. rewrite Hp. fold pm. now rewrite Hnot. }
    split; [apply Ec|].
    intros [m Hm]. pose proof (any_installed_true _ _ Hm) as Hany.
    unfold with_p, without.
    rewrite (install_package_unfold h installed pkg (Some p) st ranked _ Hany (Ec _)).
    rewrite (install_package_unfold h installed pkg None st ranked [] Hany eq_refl).
    cbn [value final effects app]. repeat split. do 2 eexists. split; reflexivity.
Qed.

End preferred_manager.

(** ** Removal with an explicit manager *)

Section explicit_removal.
Context {PS : PyStr} {W : Type} {WO : World W}.
Local Abbreviation M := (monad.M W).

(** The loop over the single candidate of an explicit removal. *)
Lemma remove_single h pkg mgr cmd_builder (st : St W) :
  dict_get (REMOVE_HANDLERS h) mgr = Some cmd_builder ->
  let R := remove_loop h pkg [mgr] st in
  commands_run (effects R) = [cmd_builder pkg] /\
  (exists b a more,
     value R = Ok (b, attempts st ++ (mgr, a) :: more) /\
     Forall (fun x => fst x = mgr) more) /\
  ((forall res w', world_run_command (cmd_builder pkg) 600 0 true (world st) = (Ok res, w') ->
                   ok res = true ->
                   exists w'', world_remove_package pkg mgr w' = (Ok tt, w'')) ->
   exists r, value R = Ok (ok r, attempts st ++ [(mgr, r)])).
Proof.
  intros Hh R. unfold R.
  destruct (remove_attempt_shape pkg mgr cmd_builder st)
    as [r [st1 [es [new [E [Hatt [Hcmd [[a [more ->]] Hall]]]]]]]].
  assert (Hmore : Forall (fun x => fst x = mgr) more) by now inversion Hall.
  split; [|split].
  - destruct r as [b|].
    + now rewrite (remove_loop_return h pkg mgr [] cmd_builder st st1 es b Hh E).
    + rewrite (remove_loop_next h pkg mgr [] cmd_builder st st1 es Hh E), remove_loop_nil.
      cbn [effects]. now rewrite commands_run_app, Hcmd.
  - destruct r as [b|].
    + rewrite (remove_loop_return h pkg mgr [] cmd_builder st st1 es b Hh E).
      exists b, a, more. cbn [value]. now rewrite Hatt.
    + rewrite (remove_loop_next h pkg mgr [] cmd_builder st st1 es Hh E), remove_loop_nil.
      exists false, a, more. cbn [value]. now rewrite Hatt.
  - intros Hdel. clear E Hatt Hcmd Hall Hmore.
    destruct (world_run_command (cmd_builder pkg) 600 0 true (world st))
      as [[res|e] w'] eqn:Hrun.
    + destruct (ok res) eqn:Hok.
      * destruct (Hdel res w' eq_refl Hok) as [w'' Hw''].
        destruct (remove_attempt_succeeds pkg mgr cmd_builder st res w' w'' Hrun Hok Hw'')
          as [l1 [l2 E]].
        rewrite (remove_loop_return h pkg mgr [] cmd_builder st _ _ true Hh E).
        exists res. cbn [value attempts]. now rewrite Hok.
      * destruct (remove_attempt_command_fails pkg mgr cmd_builder st res w' Hrun Hok)
          as [l1 [l2 E]].
        rewrite (remove_loop_next h pkg mgr [] cmd_builder st _ _ Hh E), remove_loop_nil.
        exists res. cbn [value attempts]. now rewrite Hok.
    + destruct (remove_attempt_run_raises pkg mgr cmd_builder st e w' Hrun) as [l1 [l2 E]].
      rewrite (remove_loop_next h pkg mgr [] cmd_builder st _ _ Hh E), remove_loop_nil.
      exists (mkRunResult false (-1) "" e). reflexivity.
Qed.

(** C3, amended. With an explicit manager whose lower-cased name has a
    removal handler and is available, [remove_package] runs the removal
    command of that manager and no other, every record it returns is for
    that manager, and, when deleting the record of a successful removal
    does not raise, it returns exactly one record.  With an explicit
    manager that has no removal handler or is not available, it returns
    [(False, [])] and runs no command. *)
Theorem C3_explicit_manager_removal
    (h : Host) (installed : dict bool) (pkg m : string) (st : St W) :
  str_truthy m = true ->
  let lm := str_lower m in
  let R := remove_package_with h installed pkg (Some m) st in
  (forall cmd_builder,
     dict_get (REMOVE_HANDLERS h) lm = Some cmd_builder ->
     get_truthy installed lm = true ->
     commands_run (effects R) = [cmd_builder pkg] /\
     (exists b a more,
        value R = Ok (b, (lm, a) :: more) /\ Forall (fun x => fst x = lm) more) /\
     ((forall res w', world_run_command (cmd_builder pkg) 600 0 true (world st) = (Ok res, w') ->
                      ok res = true ->
                      exists w'', world_remove_package pkg lm w' = (Ok tt, w'')) ->
      exists r, value R = Ok (ok r, [(lm, r)]))) /\
  (dict_has (REMOVE_HANDLERS h) lm && get_truthy installed lm = false ->
   value R = Ok (false, []) /\ commands_run (effects R) = [] /\
   world (final R) = world st).
Proof.
  intros Hm lm R. split.
  - intros cmd_builder Hh Havail. unfold R.
    rewrite (remove_package_unfold h installed pkg (Some m) st (available_any _ _ Havail)).
    rewrite Hm. fold lm. unfold dict_has. rewrite Hh, Havail. cbn [andb].
    cbv zeta. cbn [value effects commands_run].
    exact (remove_single h pkg lm cmd_builder (mkSt (world st) []) Hh).
  - intros Hnot. unfold R.
    destruct (any_installed installed) eqn:Hany.
    + rewrite (remove_package_unfold h installed pkg (Some m) st Hany).
      rewrite Hm. fold lm. rewrite Hnot. repeat split.
    + unfold remove_package_with. rewrite bind_cprint, Hany. repeat split.
Qed.

End explicit_removal.

(** ** The collaborators over a system *)

Section system_facts.
Context {PS : PyStr} {S : Type} {SY : System S}.

(** [run_command] returns: what goes wrong with the process comes back
    as a result. *)
Lemma run_command_returns cmd timeout retries show_progress (s : S) :
  exists res s', execution.run_command cmd timeout retries show_progress s = (Ok res, s').
Proof.
  unfold execution.run_command.
  destruct (execution.run_attempts cmd timeout retries 0 (Z.to_nat (retries + 1)) s)
    as [r s'].
  now exists r, s'.
Qed.

(** Without retries, as the orchestrators call it. *)
Lemma run_command_once cmd timeout show_progress (s : S) :
  execution.run_command cmd timeout 0 show_progress s =
  let (outcome, s') := sys_spawn cmd timeout s in
  (Ok match outcome with
      | Exits returncode stdout stderr =>
          mkRunResult (returncode =? 0)%Z returncode stdout stderr
      | TimesOut stdout _ =>
          mkRunResult false (-1) stdout
            ("Command timed out after " ++ str_of_Z timeout ++ " seconds")
      | PopenRaises e | CommunicateRaises e =>
          mkRunResult false (-1) "" ("Exception: " ++ e)
      end, s').
Proof.
  unfold execution.run_command. change (Z.to_nat (0 + 1)) with 1%nat.
  cbn [execution.run_attempts].
  destruct (sys_spawn cmd timeout s) as [[e|c o e|o e|e] s']; reflexivity.
Qed.

(** [add_package] lets the exception of a refused statement through. *)
Lemma add_package_raises n v m c (s s1 s2 : S) e :
  sys_sqlite_connect s = (Ok tt, s1) ->
  sys_sqlite_execute
    "INSERT OR REPLACE INTO installed_packages (name, version, manager, install_command) VALUES (?, ?, ?, ?)"
    [n; str_or v "unknown"; m; c] s1 = (Raise e, s2) ->
  database.add_package n v m c s = (Raise e, s2).
Proof.
  intros Hc He. unfold database.add_package, database.in_connection,
    database.execute_and_commit. now rewrite Hc, He.
Qed.

(** A program that cannot be started gives a failed attempt, recorded
    like any failed command, and the loop goes on. *)
Lemma install_loop_popen_raises h pkg total i manager rest cmd_builder (st : St S) e s' :
  dict_get (INSTALL_HANDLERS h) manager = Some cmd_builder ->
  sys_spawn (cmd_builder pkg) 1800 (world st) = (PopenRaises e, s') ->
  let st' := mkSt s' (attempts st ++ [(manager, mkRunResult false (-1) "" ("Exception: " ++ e))]) in
  value (install_loop h pkg total i (manager :: rest) st)
    = value (install_loop h pkg total (Datatypes.S i) rest st') /\
  final (install_loop h pkg total i (manager :: rest) st)
    = final (install_loop h pkg total (Datatypes.S i) rest st').
Proof.
  intros Hh Hspawn st'.
  assert (Hrun : world_run_command (cmd_builder pkg) 1800 0 true (world st)
                 = (Ok (mkRunResult false (-1) "" ("Exception: " ++ e)), s')).
  { cbn [world_run_command System_World]. rewrite run_command_once. now rewrite Hspawn. }
  destruct (install_attempt_command_fails pkg i total manager cmd_builder st _ s' Hrun eq_refl)
    as [l1 [l2 E]].
  rewrite (install_loop_next h pkg total i manager rest cmd_builder st st' _ Hh E).
  split; reflexivity.
Qed.

End system_facts.

(** ** The loops and the record store *)

Section record_store.
Context {PS : PyStr} {W : Type} {WO : World W}.
Local Abbreviation M := (monad.M W).

(** With a record store that does not raise, the install loop stops at
    the first success: the records are those of a prefix of the
    candidates that have a handler, in order, one each; all but the last
    are failures; the commands run are those of that prefix. *)
Lemma install_loop_stops_at_first_success h pkg total :
  record_store_reliable ->
  forall candidates i (st : St W),
  exists b failures hit untried,
    value (install_loop h pkg total i candidates st)
      = Ok (b, attempts st ++ failures ++ hit) /\
    filter (fun m => dict_has (INSTALL_HANDLERS h) m) candidates
      = map fst (failures ++ hit) ++ untried /\
    commands_run (effects (install_loop h pkg total i candidates st))
      = map (install_command h pkg) (map fst (failures ++ hit)) /\
    Forall (fun x => ok (snd x) = false) failures /\
    ((b = true /\ exists mgr res, hit = [(mgr, res)] /\ ok res = true) \/
     (b = false /\ hit = [] /\ untried = [])).
Proof.
  intros [Hadd _]. induction candidates as [|manager rest IH]; intros i st.
  - exists false, [], [], []. rewrite install_loop_nil. cbn. rewrite app_nil_r.
    split; [reflexivity|]. split; [reflexivity|]. split; [reflexivity|].
    split; [constructor|]. right. auto.
  - cbn [filter]. unfold dict_has at 1.
    destruct (dict_get (INSTALL_HANDLERS h) manager) as [cmd_builder|] eqn:Hh.
    2:{ rewrite (install_loop_skip h pkg total i manager rest st Hh). apply IH. }
    assert (Hcmd : install_command h pkg manager = cmd_builder pkg)
      by (unfold install_command; now rewrite Hh).
    destruct (world_run_command (cmd_builder pkg) 1800 0 true (world st))
      as [[res|e] w'] eqn:Hrun.
    + destruct (ok res) eqn:Hok.
      * destruct (Hadd pkg (_extract_package_version (out res) manager) manager
                    (String.concat " " (cmd_builder pkg)) w') as [w'' Hw''].
        destruct (install_attempt_succeeds pkg i total manager cmd_builder st res w' w''
                    Hrun Hok Hw'') as [l1 [l2 E]].
        rewrite (install_loop_return h pkg total i manager rest cmd_builder st _ _ true Hh E).
        exists true, [], [(manager, res)],
               (filter (fun m => dict_has (INSTALL_HANDLERS h) m) rest).
        cbn. rewrite Hcmd.
        split; [reflexivity|]. split; [reflexivity|]. split; [reflexivity|].
        split; [constructor|]. left. split; [reflexivity|].
        now exists manager, res.
      * destruct (install_attempt_command_fails pkg i total manager cmd_builder st res w'
                    Hrun Hok) as [l1 [l2 E]].
        rewrite (install_loop_next h pkg total i manager rest cmd_builder st _ _ Hh E).
        destruct (IH (S i) (mkSt w' (attempts st ++ [(manager, res)])))
          as [b [failures [hit [untried [Hv [Hf [Hc [Hall Hend]]]]]]]].
        exists b, ((manager, res) :: failures), hit, untried.
        cbn [value effects attempts] in *. rewrite Hv, Hf, commands_run_app, Hc.
        cbn. rewrite Hcmd, <- app_assoc.
        split; [reflexivity|]. split; [reflexivity|]. split; [reflexivity|].
        split; [now constructor | assumption].
    + destruct (install_attempt_run_raises pkg i total manager cmd_builder st e w' Hrun)
        as [l1 [l2 E]].
      rewrite (install_loop_next h pkg total i manager rest cmd_builder st _ _ Hh E).
      destruct (IH (S i) (mkSt w' (attempts st ++ [synthetic manager e])))
        as [b [failures [hit [untried [Hv [Hf [Hc [Hall Hend]]]]]]]].
      exists b, (synthetic manager e :: failures), hit, untried.
      cbn [value effects attempts] in *. rewrite Hv, Hf, commands_run_app, Hc.
      cbn. rewrite Hcmd, <- app_assoc.
      split; [reflexivity|]. split; [reflexivity|]. split; [reflexivity|].
      split; [now constructor | assumption].
Qed.

(** When the command succeeds and the record store raises, the loop
    takes the exception for a failed attempt: a second record is appended
    for the same manager and the next candidate is tried. *)
Lemma install_loop_record_store_error h pkg total i manager rest cmd_builder
    (st : St W) res w' e w'' :
  dict_get (INSTALL_HANDLERS h) manager = Some cmd_builder ->
  world_run_command (cmd_builder pkg) 1800 0 true (world st) = (Ok res, w') ->
  ok res = true ->
  world_add_package pkg (_extract_package_version (out res) manager) manager
    (String.concat " " (cmd_builder pkg)) w' = (Raise e, w'') ->
  let st' := mkSt w'' ((attempts st ++ [(manager, res)]) ++ [synthetic manager e]) in
  value (install_loop h pkg total i (manager :: rest) st)
    = value (install_loop h pkg total (S i) rest st') /\
  final (install_loop h pkg total i (manager :: rest) st)
    = final (install_loop h pkg total (S i) rest st').
Proof.
  intros Hh Hrun Hok Hadd st'.
  destruct (install_attempt_record_raises pkg i total manager cmd_builder st res w' e w''
              Hrun Hok Hadd) as [l1 [l2 E]].
  rewrite (install_loop_next h pkg total i manager rest cmd_builder st st' _ Hh E).
  split; reflexivity.
Qed.

Lemma remove_loop_record_store_error h pkg mgr rest cmd_builder (st : St W) res w' e w'' :
  dict_get (REMOVE_HANDLERS h) mgr = Some cmd_builder ->
  world_run_command (cmd_builder pkg) 600 0 true (world st) = (Ok res, w') ->
  ok res = true ->
  world_remove_package pkg mgr w' = (Raise e, w'') ->
  let st' := mkSt w'' ((attempts st ++ [(mgr, res)]) ++ [synthetic mgr e]) in
  value (remove_loop h pkg (mgr :: rest) st) = value (remove_loop h pkg rest st') /\
  final (remove_loop h pkg (mgr :: rest) st) = final (remove_loop h pkg rest st').
Proof.
  intros Hh Hrun Hok Hdel st'.
  destruct (remove_attempt_record_raises pkg mgr cmd_builder st res w' e w'' Hrun Hok Hdel)
    as [l1 [l2 E]].
  rewrite (remove_loop_next h pkg mgr rest cmd_builder st st' _ Hh E).
  split; reflexivity.
Qed.

End record_store.

(** ** Sorting by relevance *)

Section sort_facts.

Lemma insert_desc_perm x l : Permutation (insert_desc x l) (x :: l).
Proof.
  induction l as [|y l IH]; simpl; [reflexivity|].
  destruct (Qle_bool (relevance_score y) (relevance_score x)); [reflexivity|].
  rewrite IH. apply perm_swap.
Qed.

Lemma sort_desc_perm l : Permutation (sort_desc l) l.
Proof.
  induction l as [|x l IH]; simpl; [reflexivity|].
  rewrite insert_desc_perm. now constructor.
Qed.

Lemma insert_desc_sorted x l :
  StronglySorted score_ge l -> StronglySorted score_ge (insert_desc x l).
Proof.
  induction l as [|y l IH]; simpl; intros Hs.
  - repeat constructor.
  - inversion Hs as [|? ? Hs' Hall]; subst.
    destruct (Qle_bool (relevance_score y) (relevance_score x)) eqn:E.
    + apply Qle_bool_iff in E. constructor; [assumption|].
      constructor; [exact E|].
      eapply Forall_impl; [|exact Hall]. unfold score_ge. intros z Hz.
      now apply Qle_trans with (relevance_score y).
    + assert (Hlt : (relevance_score x < relevance_score y)%Q).
      { apply Qnot_le_lt. intros H. apply Qle_bool_iff in H. congruence. }
      constructor; [now apply IH|].
      apply (Permutation_Forall (Permutation_sym (insert_desc_perm x l))).
      constructor; [|exact Hall]. unfold score_ge. now apply Qlt_le_weak.
Qed.

Lemma sort_desc_sorted l : StronglySorted score_ge (sort_desc l).
Proof.
  induction l as [|x l IH]; simpl; [constructor | now apply insert_desc_sorted].
Qed.

Lemma with_score_none q l :
  Forall (fun r => ~ (relevance_score r == q)%Q) l -> with_score q l = [].
Proof.
  induction 1 as [|r l Hr _ IH]; simpl; [reflexivity|].
  destruct (Qeq_bool (relevance_score r) q) eqn:E; [|assumption].
  apply Qeq_bool_iff in E. contradiction.
Qed.

(** Inserting [x] in a sorted list puts it in front of the results with
    its score. *)
Lemma insert_desc_stable q x l :
  StronglySorted score_ge l ->
  with_score q (insert_desc x l) = with_score q (x :: l).
Proof.
  induction l as [|y l IH]; intros Hs; [reflexivity|].
  inversion Hs as [|? ? Hs' Hall]; subst. simpl insert_desc.
  destruct (Qle_bool (relevance_score y) (relevance_score x)) eqn:E; [reflexivity|].
  assert (Hlt : (relevance_score x < relevance_score y)%Q).
  { apply Qnot_le_lt. intros H. apply Qle_bool_iff in H. congruence. }
  pose proof (IH Hs') as IH'. unfold with_score in *. simpl in *.
  destruct (Qeq_bool (relevance_score x) q) eqn:Ex;
    destruct (Qeq_bool (relevance_score y) q) eqn:Ey; rewrite IH'; try reflexivity.
  apply Qeq_bool_iff in Ex, Ey. exfalso.
  rewrite Ex, Ey in Hlt. now apply Qlt_irrefl in Hlt.
Qed.

Lemma sort_desc_stable q l : with_score q (sort_desc l) = with_score q l.
Proof.
  induction l as [|x l IH]; [reflexivity|].
  simpl sort_desc. rewrite insert_desc_stable by apply sort_desc_sorted.
  simpl. now rewrite IH.
Qed.

Lemma In_firstn {A} n (l : list A) y : In y (firstn n l) -> In y l.
Proof.
  revert n. induction l as [|x l IH]; intros [|n]; simpl; try tauto.
  intros [H|H]; [now left | right; now apply (IH n)].
Qed.

Lemma firstn_sorted {A} (R : A -> A -> Prop) n (l : list A) :
  StronglySorted R l -> StronglySorted R (firstn n l).
Proof.
  revert n. induction l as [|x l IH]; intros n Hs; destruct n; simpl; try constructor.
  - inversion Hs; subst. now apply IH.
  - inversion Hs as [|? ? _ Hall]; subst.
    apply Forall_forall. intros y Hy. rewrite Forall_forall in Hall.
    apply Hall. eapply In_firstn. exact Hy.
Qed.

End sort_facts.

(** ** The search aggregator *)

Section search_facts.
Context {PS : PyStr} {W : Type} {WO : World W}.
Local Abbreviation M := (monad.M W).

(** One turn of the loop over the completed futures: the results of a
    task that returns are appended, a task that raises adds nothing, and
    the loop goes on either way. *)
Lemma gather_cons query mgr rest acc (st : St W) :
  gather query (mgr :: rest) acc st =
  let task := search_task mgr query st in
  match value task with
  | Ok results =>
      after (effects task ++
             [Cprint (str_upper mgr ++ ": Found " ++ str_of_nat (length results)
                      ++ " results") "SUCCESS"])
            (gather query rest (acc ++ results) (final task))
  | Raise e =>
      after (effects task ++ [Cprint (str_upper mgr ++ ": Search failed - " ++ e) "WARNING"])
            (gather query rest acc (final task))
  end.
Proof.
  cbv zeta.
  change (gather query (mgr :: rest) acc st) with
    (bind (try_except
             (results <- search_task mgr query ;;
              cprint (str_upper mgr ++ ": Found " ++ str_of_nat (length results) ++ " results")
                     "SUCCESS" ;;
              ret (acc ++ results))
             (fun e =>
                cprint (str_upper mgr ++ ": Search failed - " ++ e) "WARNING" ;;
                ret acc))
          (fun all_results => gather query rest all_results) st).
  unfold bind, try_except, cprint, emit, ret, after.
  destruct (search_task mgr query st) as [[results|e] st1 es];
    cbn [value final effects]; rewrite ?app_nil_r; try reflexivity.
Qed.

Lemma gather_total query done : forall acc (st : St W),
  exists l, value (gather query done acc st) = Ok l.
Proof.
  induction done as [|mgr rest IH]; intros acc st.
  - now exists acc.
  - rewrite gather_cons. cbv zeta.
    destruct (value (search_task mgr query st)) as [results|e]; unfold after; cbn [value];
      apply IH.
Qed.

Lemma completed_in_time submitted (w : W) m :
  In m (completed_futures submitted w) <->
  In m submitted /\ In m (world_completed submitted w).
Proof.
  unfold completed_futures. rewrite nodup_In, filter_In, mem_In. tauto.
Qed.

Lemma unfinished_nil submitted done :
  unfinished submitted done = [] <-> forall m, In m submitted -> In m done.
Proof.
  unfold unfinished. split.
  - intros H m Hm. destruct (mem m done) eqn:E; [now apply mem_In|].
    assert (Hin : In m (filter (fun m => negb (mem m done)) submitted))
      by (apply filter_In; split; [assumption | now rewrite E]).
    rewrite H in Hin. contradiction.
  - intros H. induction submitted as [|x l IH]; [reflexivity|].
    simpl. rewrite (proj2 (mem_In x done)) by (apply H; now left).
    apply IH. intros m Hm. apply H. now right.
Qed.

(** [search] when targets exist. *)
Lemma search_unfold installed query manager limit (st : St W) all_results :
  target_managers installed manager <> [] ->
  let submitted := submitted_managers installed manager in
  let done := completed_futures submitted (world st) in
  value (gather query done [] st) = Ok all_results ->
  value (search_with installed query manager limit st) =
  match unfinished submitted done with
  | [] => Ok (slice_to limit (sort_desc all_results))
  | pending =>
      Raise (str_of_nat (length pending) ++ " (of " ++ str_of_nat (length submitted)
             ++ ") futures unfinished")
  end.
Proof.
  intros Hne submitted done Hg. unfold search_with. rewrite bind_cprint. cbn [value].
  destruct (target_managers installed manager) as [|t ts] eqn:Et; [now contradiction Hne|].
  fold submitted. unfold bind at 1. cbn [observe value final effects]. fold done.
  unfold bind at 1. rewrite Hg. cbn [value].
  destruct (unfinished submitted done); reflexivity.
Qed.

(** A future still pending at the deadline makes [search] raise. *)
Lemma search_times_out installed query manager limit (st : St W) m :
  In m (submitted_managers installed manager) ->
  ~ In m (world_completed (submitted_managers installed manager) (world st)) ->
  exists e, value (search_with installed query manager limit st) = Raise e.
Proof.
  intros Hsub Hlate.
  assert (Hne : target_managers installed manager <> []).
  { intros E. unfold submitted_managers in Hsub. now rewrite E in Hsub. }
  destruct (gather_total query
              (completed_futures (submitted_managers installed manager) (world st)) [] st)
    as [all_results Hg].
  rewrite (search_unfold installed query manager limit st all_results Hne Hg).
  destruct (unfinished (submitted_managers installed manager)
              (completed_futures (submitted_managers installed manager) (world st)))
    as [|p ps] eqn:E; [|eexists; reflexivity].
  exfalso. apply Hlate. rewrite unfinished_nil in E.
  now apply (completed_in_time _ (world st) m), E.
Qed.

(** C7, amended. For a limit that is not negative, and when every future
    submitted completes before the deadline, [search] returns at most
    [limit] results, sorted by decreasing [relevance_score]; they are the
    first results of the stable sort of the collected list, in which
    results of equal score keep the order in which they were collected. *)
Theorem C7_search_limit_sorted
    (installed : dict bool) (query : string) (manager : option string) (limit : Z)
    (st : St W) :
  (0 <= limit)%Z ->
  (forall m, In m (submitted_managers installed manager) ->
             In m (world_completed (submitted_managers installed manager) (world st))) ->
  exists all_results returned,
    value (search_with installed query manager limit st) = Ok returned /\
    (Z.of_nat (length returned) <= limit)%Z /\
    StronglySorted score_ge returned /\
    returned = firstn (Z.to_nat limit) (sort_desc all_results) /\
    Permutation (sort_desc all_results) all_results /\
    (forall q, with_score q (sort_desc all_results) = with_score q all_results) /\
    match target_managers installed manager with
    | [] => all_results = []
    | _ =>
        value (gather query
                 (completed_futures (submitted_managers installed manager) (world st)) [] st)
        = Ok all_results
    end.
Proof.
  intros Hlimit Hintime.
  assert (Hprops : forall all_results,
    (Z.of_nat (length (firstn (Z.to_nat limit) (sort_desc all_results))) <= limit)%Z /\
    StronglySorted score_ge (firstn (Z.to_nat limit) (sort_desc all_results))).
  { intros all_results. split.
    - pose proof (firstn_le_length (Z.to_nat limit) (sort_desc all_results)). lia.
    - apply firstn_sorted, sort_desc_sorted. }
  destruct (target_managers installed manager) as [|t ts] eqn:Et.
  - exists [], (firstn (Z.to_nat limit) (sort_desc [])).
    split.
    { unfold search_with. rewrite bind_cprint, Et. cbn. now destruct (Z.to_nat limit). }
    destruct (Hprops []) as [H1 H2].
    repeat split; try assumption. apply sort_desc_perm.
  - destruct (gather_total query
                (completed_futures (submitted_managers installed manager) (world st)) [] st)
      as [all_results Hg].
    exists all_results, (firstn (Z.to_nat limit) (sort_desc all_results)).
    split.
    { rewrite (search_unfold installed query manager limit st all_results); try assumption.
      - rewrite (proj2 (unfinished_nil _ _)).
        + unfold slice_to. now rewrite (proj2 (Z.leb_le 0 limit) Hlimit).
        + intros m Hm. apply completed_in_time. split; [assumption | now apply Hintime].
      - rewrite Et. discriminate. }
    destruct (Hprops all_results) as [H1 H2].
    repeat split; try assumption; [apply sort_desc_perm | intros q; apply sort_desc_stable].
Qed.

Lemma parse_pypi_info_fields data found :
  _parse_pypi_info data = Ok found ->
  relevance_score found = 50%Q /\ manager found = "pip".
Proof.
  unfold _parse_pypi_info, and_then.
  repeat match goal with
         | |- context [match ?x with Ok _ => _ | Raise _ => _ end] => destruct x
         end; try discriminate; intros [= <-]; split; reflexivity.
Qed.

(** C10. [_search_pypi] sends one request, for the JSON document of the
    project named by the query, and returns at most one result: a single
    result with score 50 when the status is 200 and the document is read
    without an exception, and the empty list when the status is not 200
    or an exception is raised. *)
Theorem C10_pypi_exact_lookup (query : string) (st : St W) :
  let url := ("https://pypi.org/pypi/" ++ query ++ "/json")%string in
  let R := _search_pypi query st in
  let response := fst (world_http_get url 10 (world st)) in
  exists l,
    value R = Ok l /\ (length l <= 1)%nat /\ effects R = [HttpGet url 10] /\
    (forall r, In r l ->
       relevance_score r = 50%Q /\ manager r = "pip" /\
       exists resp, response = Ok resp /\ status_code resp = 200%Z) /\
    (forall e, response = Raise e -> l = []) /\
    (forall resp, response = Ok resp -> status_code resp <> 200%Z -> l = []) /\
    (forall resp, response = Ok resp -> status_code resp = 200%Z ->
       match and_then (json_body resp) _parse_pypi_info with
       | Ok found => l = [found]
       | Raise _ => l = []
       end).
Proof.
  cbv zeta. unfold _search_pypi, try_except, http_get, bind, emit, call, lift, ret.
  cbn [value final effects].
  destruct (world_http_get ("https://pypi.org/pypi/" ++ query ++ "/json") 10 (world st))
    as [[resp|e] w'] eqn:Hget; cbn [fst value final effects app].
  2:{ exists []. cbn. repeat split; try (intros; congruence); try contradiction; auto. }
  destruct (status_code resp =? 200)%Z eqn:Hs; cbn [value final effects app].
  - apply Z.eqb_eq in Hs.
    destruct (json_body resp) as [data|e] eqn:Hbody; cbn [value final effects app and_then].
    + destruct (_parse_pypi_info data) as [found|e] eqn:Hparse; cbn [value final effects app].
      * exists [found].
        split; [reflexivity|]. split; [simpl; lia|]. split; [reflexivity|].
        split.
        { intros r [<-|[]]. destruct (parse_pypi_info_fields data found Hparse) as [H1 H2].
          repeat split; try assumption. now exists resp. }
        split; [intros; congruence|]. split; [intros resp' [= <-] Hne; contradiction|].
        intros resp' [= <-] _. rewrite Hbody. cbn. now rewrite Hparse.
      * exists [].
        split; [reflexivity|]. split; [simpl; lia|]. split; [reflexivity|].
        split; [intros r []|]. split; [reflexivity|]. split; [reflexivity|].
        intros resp' [= <-] _. rewrite Hbody. cbn. now rewrite Hparse.
    + exists [].
      split; [reflexivity|]. split; [simpl; lia|]. split; [reflexivity|].
      split; [intros r []|]. split; [reflexivity|]. split; [reflexivity|].
      intros resp' [= <-] _. now rewrite Hbody.
  - apply Z.eqb_neq in Hs.
    exists [].
    split; [reflexivity|]. split; [simpl; lia|]. split; [reflexivity|].
    split; [intros r []|]. split; [reflexivity|]. split; [reflexivity|].
    intros resp' [= <-] H200. contradiction.
Qed.

End search_facts.

(** ** The properties on concrete runs *)

Section scenarios.
#[local] Existing Instance ascii_PyStr.

Ltac distinct_strings := unfold dict_wf; simpl; repeat constructor; simpl; intuition discriminate.

(** The ranking scenario satisfies the hypothesis of C2. *)
Lemma C2_witness :
  dict_wf scenario_map /\
  NoDup (_ordered_install_manager_candidates debian "django==4.2" scenario_map) /\
  forall m, In m (_ordered_install_manager_candidates debian "django==4.2" scenario_map) ->
            dict_get scenario_map m = Some true.
Proof.
  assert (Hwf : dict_wf scenario_map) by distinct_strings.
  split; [exact Hwf|].
  exact (C2_ranker_no_duplicates_only_available debian "django==4.2" scenario_map Hwf).
Defined.

(** The scenario of C8, on a Debian host. *)
Lemma C8_witness :
  _os_type debian = "linux" /\ which debian "apt" = true /\
  In "==" python_indicators /\ str_in "==" "django==4.2" = true /\
  _looks_like_python_pkg "django==4.2" = true /\
  exists rest,
    _ordered_install_manager_candidates debian "django==4.2" scenario_map
      = "pip" :: "apt" :: rest /\
    NoDup rest /\
    forall m, In m rest <->
              (dict_get scenario_map m = Some true /\ m <> "pip" /\ m <> "apt").
Proof.
  assert (Hwf : dict_wf scenario_map) by distinct_strings.
  split; [reflexivity|]. split; [reflexivity|].
  exact (C8_django_version_specifier debian scenario_map Hwf
           eq_refl eq_refl eq_refl eq_refl eq_refl).
Defined.

(** With the literal map of the scenario the list is exactly pip, apt. *)
Lemma django_scenario_literal :
  _ordered_install_manager_candidates debian "django==4.2" scenario_map = ["pip"; "apt"].
Proof. reflexivity. Qed.

(** C5 on a map with no true entry. *)
Lemma C5_witness :
  (forall m, ~ In (m, true) nothing_installed) /\
  _ordered_install_manager_candidates debian "foo" nothing_installed = [] /\
  value (install_package_with debian nothing_installed "foo" None (mkSt quiet []))
    = Ok (false, []) /\
  value (remove_package_with debian nothing_installed "foo" None (mkSt quiet []))
    = Ok (false, []).
Proof.
  assert (Hnone : forall m, ~ In (m, true) nothing_installed)
    by (intros m [H|[H|[]]]; discriminate).
  split; [exact Hnone|].
  destruct (C5_no_manager_available debian nothing_installed "foo" None (mkSt quiet []) Hnone)
    as [Hrank [Hinstall [Hremove _]]].
  split; [exact Hrank|]. rewrite Hinstall, Hremove. split; reflexivity.
Defined.

(** C6 with [--manager NPM] where npm is available. *)
Lemma C6_witness :
  str_truthy "NPM" = true /\
  get_truthy (_detect_installed_managers node_box) "npm" = true /\
  exists b r more,
    value (install_package node_box "left-pad" (Some "NPM") (mkSt broken []))
    = Ok (b, ("npm", r) :: more).
Proof.
  split; [reflexivity|]. split; [reflexivity|].
  destruct (C6_preferred_manager node_box (_detect_installed_managers node_box)
              "left-pad" "NPM" (mkSt broken []) eq_refl) as [Hfirst _].
  destruct (Hfirst eq_refl eq_refl) as [_ [_ [_ H]]]. exact H.
Defined.

(** With [--manager brew] where brew is not available, the run is the
    one without a preferred manager, plus the warning. *)
Lemma preferred_brew_only_warns :
  let with_p := install_package node_box "left-pad" (Some "brew") (mkSt quiet []) in
  let without := install_package node_box "left-pad" None (mkSt quiet []) in
  value with_p = value without /\
  printed "WARNING" (effects with_p)
    = ["Warning: --manager 'brew' not available. Available: pip, npm"] /\
  printed "WARNING" (effects without) = [] /\
  commands_run (effects with_p) = commands_run (effects without).
Proof. vm_compute. repeat split. Qed.

(** C9 where running the command of npm raises. *)
Lemma C9_witness :
  dict_get (INSTALL_HANDLERS node_box) "npm" = Some _npm_install /\
  world_run_command (_npm_install "left-pad") 1800 0 true broken
    = (Raise "[Errno 8] Exec format error", broken) /\
  value (install_loop node_box "left-pad" 2 1 ["npm"; "pip"] (mkSt broken []))
  = value (install_loop node_box "left-pad" 2 2 ["pip"]
             (mkSt broken [("npm", mkRunResult false (-1) "" "[Errno 8] Exec format error")])).
Proof.
  split; [reflexivity|]. split; [reflexivity|].
  destruct (C9_exceptions_become_failed_attempts node_box (_detect_installed_managers node_box)
              "left-pad" None 2 1 "npm" ["pip"] _npm_install (mkSt broken [])
              "[Errno 8] Exec format error" broken) as [_ [_ [Hinstall _]]].
  destruct (Hinstall eq_refl eq_refl) as [Hvalue _]. exact Hvalue.
Defined.

(** Where every command raises, every candidate gets its synthetic
    record and the call returns. *)
Lemma broken_commands_all_recorded :
  value (install_package node_box "left-pad" (Some "NPM") (mkSt broken []))
  = Ok (false,
        [("npm", mkRunResult false (-1) "" "[Errno 8] Exec format error");
         ("pip", mkRunResult false (-1) "" "[Errno 8] Exec format error")]).
Proof. reflexivity. Qed.

(** C1 fails where the command succeeds and the record store raises: a
    second record is appended for pip, the result is not returned, and
    the command of apt is run. *)
Theorem C1_success_then_record_store_error :
  let R := install_package debian "requests" None (mkSt locked_db []) in
  _ordered_install_manager_candidates debian "requests" (_detect_installed_managers debian)
    = ["pip"; "apt"] /\
  value R = Ok (false,
                [("pip", mkRunResult true 0 "" "");
                 ("pip", mkRunResult false (-1) "" "database is locked");
                 ("apt", mkRunResult false 100 "" "")]) /\
  commands_run (effects R)
    = [["/usr/bin/python3"; "-m"; "pip"; "install"; "--user"; "requests"];
       ["sudo"; "apt"; "install"; "-y"; "requests"]].
Proof. vm_compute. repeat split. Qed.

(** The same run with a record store that works stops at pip. *)
Lemma install_stops_when_store_works :
  let R := install_package debian "requests" None (mkSt working_db []) in
  value R = Ok (true, [("pip", mkRunResult true 0 "" "")]) /\
  commands_run (effects R)
    = [["/usr/bin/python3"; "-m"; "pip"; "install"; "--user"; "requests"]].
Proof. vm_compute. repeat split. Qed.

Lemma steady_store_reliable : @record_store_reliable Steady Steady_World.
Proof. split; intros; eexists; reflexivity. Qed.

(** On a world whose record store never raises, with pip failing and
    apt succeeding, the records are a prefix of the candidates that ends
    with the first success. *)
Lemma install_stops_at_apt :
  let w := {| steady_run := fun cmd => exits (if mem "pip" cmd then 1 else 0) |} in
  let R := install_loop (linux_with ["apt"; "npm"]) "curl" 3 1 ["pip"; "apt"; "npm"]
             (mkSt w []) in
  exists b failures hit untried,
    value R = Ok (b, failures ++ hit) /\
    ["pip"; "apt"; "npm"] = map fst (failures ++ hit) ++ untried /\
    Forall (fun x => ok (snd x) = false) failures /\
    ((b = true /\ exists mgr res, hit = [(mgr, res)] /\ ok res = true) \/
     (b = false /\ hit = [] /\ untried = [])).
Proof.
  intros w R.
  destruct (install_loop_stops_at_first_success (linux_with ["apt"; "npm"]) "curl" 3
              steady_store_reliable ["pip"; "apt"; "npm"] 1 (mkSt w []))
    as [b [failures [hit [untried [Hv [Hc [_ [Hf Hend]]]]]]]].
  exists b, failures, hit, untried. repeat split; assumption.
Qed.

(** C3 as stated fails for a manager that is available and has no
    removal handler: zypper on openSUSE. *)
Lemma C3_counterexample :
  let R := remove_package suse "foo" (Some "zypper") (mkSt quiet []) in
  get_truthy (_detect_installed_managers suse) "zypper" = true /\
  value R = Ok (false, []) /\
  ~ (exists b r, value R = Ok (b, [("zypper", r)])).
Proof.
  vm_compute. split; [reflexivity|]. split; [reflexivity|].
  intros [b [r H]]. discriminate H.
Qed.

(** C3, amended, with [--manager APT] on Debian. *)
Lemma C3_witness :
  str_truthy "APT" = true /\
  dict_get (REMOVE_HANDLERS debian) "apt" = Some _apt_remove /\
  get_truthy (_detect_installed_managers debian) "apt" = true /\
  commands_run (effects (remove_package debian "foo" (Some "APT") (mkSt quiet [])))
    = [["sudo"; "apt"; "remove"; "-y"; "foo"]] /\
  exists r, value (remove_package debian "foo" (Some "APT") (mkSt quiet []))
            = Ok (ok r, [("apt", r)]).
Proof.
  split; [reflexivity|]. split; [reflexivity|]. split; [reflexivity|].
  destruct (C3_explicit_manager_removal debian (_detect_installed_managers debian)
              "foo" "APT" (mkSt quiet []) eq_refl) as [Havailable _].
  destruct (Havailable _apt_remove eq_refl eq_refl) as [Hcmd [_ Hone]].
  split; [exact Hcmd|].
  apply Hone. intros res w' Hrun _. cbn in Hrun. injection Hrun as _ <-.
  exists quiet. reflexivity.
Defined.

(** Removal with brew, which is not available on Debian. *)
Lemma remove_brew_unavailable :
  let R := remove_package debian "foo" (Some "brew") (mkSt quiet []) in
  get_truthy (_detect_installed_managers debian) "brew" = false /\
  value R = Ok (false, []) /\ commands_run (effects R) = [].
Proof. vm_compute. repeat split. Qed.

(** C4 fails where the future of npm is pending at the deadline: the
    result of pip has been collected, and [search] raises. *)
Theorem C4_pending_future_raises :
  let R := search node_box "flask" None 20 (mkSt slow_npm []) in
  submitted_managers (_detect_installed_managers node_box) None = ["pip"; "npm"] /\
  value R = Raise "1 (of 2) futures unfinished" /\
  effects R = [Cprint "Searching for 'flask' across available package managers..." "INFO";
               HttpGet "https://pypi.org/pypi/flask/json" 10;
               Cprint "PIP: Found 1 results" "SUCCESS"].
Proof. vm_compute. repeat split. Qed.

(** A task that raises adds nothing, and the results of the others are
    returned. *)
Lemma failed_task_contributes_nothing :
  let failing_npm := {|
    on_run := on_run quiet; on_add := on_add quiet; on_remove := on_remove quiet;
    on_get := on_get quiet; on_search := fun _ _ => Raise "registry unreachable";
    in_time := in_time quiet |} in
  let R := search node_box "flask" None 20 (mkSt failing_npm []) in
  (exists found, value R = Ok [found] /\ manager found = "pip") /\
  printed "WARNING" (effects R) = ["NPM: Search failed - registry unreachable"].
Proof. vm_compute. split; [eexists; split; reflexivity | reflexivity]. Qed.

(** C7 as stated fails for a negative limit: with the limit -1 and three
    results collected, two are returned. *)
Lemma C7_counterexample :
  exists returned,
    value (search node_box "flask" None (-1) (mkSt quiet [])) = Ok returned /\
    length returned = 2%nat /\
    ~ (Z.of_nat (length returned) <= -1)%Z.
Proof.
  eexists. split; [vm_compute; reflexivity|]. split; [reflexivity|].
  simpl. lia.
Qed.

(** C7, amended, with the limit 2. *)
Lemma C7_witness :
  (0 <= 2)%Z /\
  exists returned,
    value (search node_box "flask" None 2 (mkSt quiet [])) = Ok returned /\
    (Z.of_nat (length returned) <= 2)%Z /\
    StronglySorted score_ge returned.
Proof.
  assert (Hlimit : (0 <= 2)%Z) by lia.
  split; [exact Hlimit|].
  assert (Hintime : forall m,
            In m (submitted_managers (_detect_installed_managers node_box) None) ->
            In m (world_completed
                    (submitted_managers (_detect_installed_managers node_box) None)
                    (world (mkSt quiet []))))
    by (intros m H; exact H).
  destruct (C7_search_limit_sorted (_detect_installed_managers node_box) "flask" None 2
              (mkSt quiet []) Hlimit Hintime)
    as [all_results [returned [Hvalue [Hlen [Hsorted _]]]]].
  exists returned. split; [exact Hvalue|]. split; [exact Hlen | exact Hsorted].
Defined.

(** The three results of the scenario: ties keep the order of arrival. *)
Lemma search_ties_keep_arrival_order :
  exists flask flask_pypi flask_cli,
    value (search node_box "flask" None 20 (mkSt quiet []))
      = Ok [flask; flask_pypi; flask_cli] /\
    (manager flask, relevance_score flask) = ("npm", 175 # 2) /\
    (manager flask_pypi, relevance_score flask_pypi) = ("pip", 50%Q) /\
    (manager flask_cli, relevance_score flask_cli) = ("npm", 50%Q).
Proof. do 3 eexists. vm_compute. repeat split. Qed.

End scenarios.

(** ** The detector and the status listing *)

Section detector_facts.
Context {PS : PyStr}.

Lemma detect_unfold h :
  _detect_installed_managers h =
  [ ("pip", existsb (fun cmd => which h (argv0 cmd))
              (filter (fun cmd => match cmd with [] => false | _ => true end)
                      (_get_python_commands h)));
    ("npm", which h "npm"); ("apt", which h "apt"); ("dnf", which h "dnf");
    ("yum", which h "yum"); ("pacman", which h "pacman"); ("zypper", which h "zypper");
    ("apk", which h "apk"); ("brew", which h "brew"); ("choco", which h "choco");
    ("winget", which h "winget"); ("snap", which h "snap"); ("flatpak", which h "flatpak") ].
Proof. reflexivity. Qed.

Lemma python_commands_unfold h :
  _get_python_commands h =
  (if str_truthy (sys_executable h) then [[sys_executable h]] else [])
  ++ (if which h "python3" then [["python3"]] else [])
  ++ (if which h "python" then [["python"]] else [])
  ++ (if which h "py" then [["py"]] else []).
Proof.
  unfold _get_python_commands. simpl.
  destruct (str_truthy (sys_executable h)), (which h "python3"), (which h "python"),
    (which h "py"); reflexivity.
Qed.

Lemma pip_detected h :
  existsb (fun cmd => which h (argv0 cmd))
    (filter (fun cmd => match cmd with [] => false | _ => true end) (_get_python_commands h))
  = python_on_path h.
Proof.
  rewrite python_commands_unfold. unfold python_on_path.
  destruct (str_truthy (sys_executable h)) eqn:E0, (which h "python3") eqn:E1,
    (which h "python") eqn:E2, (which h "py") eqn:E3; simpl;
    rewrite ?E0, ?E1, ?E2, ?E3; simpl;
    destruct (which h (sys_executable h)); reflexivity.
Qed.

Lemma detect_wf h : dict_wf (_detect_installed_managers h).
Proof.
  rewrite detect_unfold. unfold dict_wf. simpl.
  repeat (constructor; [simpl; intuition congruence|]). constructor.
Qed.


Lemma dict_get_cons {V} (d : dict V) k k' v :
  dict_get ((k', v) :: d) k = if String.eqb k k' then Some v else dict_get d k.
Proof. reflexivity. Qed.

Lemma detect_get h m :
  dict_get (_detect_installed_managers h) m =
  if String.eqb m "pip" then Some (python_on_path h)
  else if mem m (dict_keys MANAGER_INSTALL_HANDLERS) then Some (which h m) else None.
Proof.
  rewrite detect_unfold, pip_detected.
  rewrite !dict_get_cons.
  cbn [mem existsb dict_keys map fst MANAGER_INSTALL_HANDLERS dict_get].
  repeat match goal with
  | |- context [String.eqb m ?k] =>
      destruct (String.eqb_spec m k) as [->|_]; [reflexivity | ]
  end.
  reflexivity.
Qed.

(** X1.  The availability map has the thirteen supported managers as its
    keys, in the order of the table and each once.  pip counts as
    available exactly when a Python interpreter is found on the PATH
    (the pip module itself is never probed); every other manager counts
    as available exactly when a program of its own name is on the PATH. *)
Theorem detector_map_shape (h : Host) :
  dict_keys (_detect_installed_managers h) = dict_keys MANAGER_INSTALL_HANDLERS /\
  dict_wf (_detect_installed_managers h) /\
  dict_get (_detect_installed_managers h) "pip" = Some (python_on_path h) /\
  (forall name, In name (dict_keys MANAGER_INSTALL_HANDLERS) -> name <> "pip" ->
                dict_get (_detect_installed_managers h) name = Some (which h name)) /\
  (forall name, ~ In name (dict_keys MANAGER_INSTALL_HANDLERS) ->
                dict_get (_detect_installed_managers h) name = None).
Proof.
  split; [reflexivity|]. split; [apply detect_wf|].
  split; [now rewrite detect_get|]. split.
  - intros name Hin Hne. rewrite detect_get.
    destruct (String.eqb_spec name "pip") as [->|_]; [congruence|].
    apply mem_In in Hin. now rewrite Hin.
  - intros name Hnin. rewrite detect_get.
    destruct (String.eqb_spec name "pip") as [->|_].
    + exfalso. apply Hnin. simpl. now left.
    + apply mem_false in Hnin. now rewrite Hnin.
Qed.

Lemma fold_set_ext {V} (f : dict V -> string -> dict V) (g : string -> V) keys :
  (forall s k, f s k = dict_set s k (g k)) ->
  forall acc, fold_left f keys acc = fold_left (fun s k => dict_set s k (g k)) keys acc.
Proof.
  intros H. induction keys as [|k keys IH]; intros acc; simpl; [reflexivity|].
  now rewrite H, IH.
Qed.

Lemma dict_get_map_keys {V} (g : string -> V) keys m :
  dict_get (map (fun k => (k, g k)) keys) m = if mem m keys then Some (g m) else None.
Proof.
  induction keys as [|k keys IH]; [reflexivity|].
  cbn [map dict_get mem existsb]. fold (mem m keys).
  destruct (String.eqb_spec m k) as [->|_]; [reflexivity|]. exact IH.
Qed.

Lemma has_and_truthy (d : dict bool) k :
  dict_has d k && get_truthy d k = get_truthy d k.
Proof.
  unfold dict_has, get_truthy. destruct (dict_get d k) as [[|]|]; reflexivity.
Qed.

Lemma status_unfold h :
  list_managers_status h =
  map (fun k => (k, if get_truthy (_detect_installed_managers h) k
                    then "Installed" else "Not Installed"))
      (dict_keys MANAGER_INSTALL_HANDLERS).
Proof.
  unfold list_managers_status.
  rewrite (fold_set_ext _
    (fun k => if get_truthy (_detect_installed_managers h) k
              then "Installed" else "Not Installed")).
  - generalize (fun k => if get_truthy (_detect_installed_managers h) k
                         then "Installed" else "Not Installed").
    intros g. reflexivity.
  - intros s k. rewrite has_and_truthy.
    now destruct (get_truthy (_detect_installed_managers h) k).
Qed.

Lemma status_get h m :
  dict_get (list_managers_status h) m =
  if mem m (dict_keys MANAGER_INSTALL_HANDLERS)
  then Some (if get_truthy (_detect_installed_managers h) m
             then "Installed" else "Not Installed")
  else None.
Proof. rewrite status_unfold. apply dict_get_map_keys. Qed.

Lemma candidate_iff_detected h pkg m :
  In m (_ordered_install_manager_candidates h pkg (_detect_installed_managers h)) <->
  get_truthy (_detect_installed_managers h) m = true.
Proof.
  split.
  - intros H. apply get_truthy_true.
    now apply (ranker_available h pkg _ m (detect_wf h)).
  - intros H. apply ranker_complete. apply dict_get_Some_In.
    now apply get_truthy_true.
Qed.

Lemma detected_is_supported h m :
  get_truthy (_detect_installed_managers h) m = true ->
  In m (dict_keys MANAGER_INSTALL_HANDLERS).
Proof.
  intros H. apply get_truthy_true in H. apply dict_get_Some_In in H.
  change (dict_keys MANAGER_INSTALL_HANDLERS) with (dict_keys (_detect_installed_managers h)).
  unfold dict_keys. apply in_map_iff. now exists (m, true).
Qed.

(** X2.  [list_managers_status] names the thirteen supported managers,
    and it reports a manager as Installed exactly when that manager is
    among the candidates [install_package] ranks, for any package; every
    other supported manager is reported as Not Installed. *)
Theorem listed_installed_iff_candidate (h : Host) (pkg m : string) :
  let candidates :=
    _ordered_install_manager_candidates h pkg (_detect_installed_managers h) in
  dict_keys (list_managers_status h) = dict_keys MANAGER_INSTALL_HANDLERS /\
  (dict_get (list_managers_status h) m = Some "Installed" <-> In m candidates) /\
  (dict_get (list_managers_status h) m = Some "Not Installed" <->
   In m (dict_keys MANAGER_INSTALL_HANDLERS) /\ ~ In m candidates).
Proof.
  intros candidates. split; [now rewrite status_unfold|].
  unfold candidates. rewrite (candidate_iff_detected h pkg m), status_get.
  destruct (mem m (dict_keys MANAGER_INSTALL_HANDLERS)) eqn:Hk.
  - apply mem_In in Hk.
    destruct (get_truthy (_detect_installed_managers h) m) eqn:Hd.
    + split; [tauto|]. split; [discriminate|]. intros [_ H]. now elim H.
    + split; [split; discriminate|]. split; [|reflexivity]. intros _. split; [assumption|discriminate].
  - apply mem_false in Hk. split.
    + split; [discriminate|]. intros H. exfalso. apply Hk. now apply (detected_is_supported h).
    + split; [discriminate|]. intros [H _]. now elim Hk.
Qed.

End detector_facts.

(** ** The priority list and the command tables *)

Section table_facts.
Context {PS : PyStr}.

Lemma first_linux_manager_shape h l :
  (first_linux_manager h l = ["snap"; "flatpak"] /\
   forall m cmds, In (m, cmds) l -> existsb (which h) cmds = false) \/
  (exists m cmds before later,
     first_linux_manager h l = [m; "snap"; "flatpak"] /\
     l = before ++ (m, cmds) :: later /\
     existsb (which h) cmds = true /\
     forall m' cmds', In (m', cmds') before -> existsb (which h) cmds' = false).
Proof.
  induction l as [|[m cmds] l IH]; [left; split; [reflexivity | intros ? ? []]|].
  cbn [first_linux_manager]. destruct (existsb (which h) cmds) eqn:E.
  - right. exists m, cmds, [], l. repeat split; try assumption. intros ? ? [].
  - destruct IH as [[Hr Hall] | [m0 [cmds0 [before [later [Hr [Hl [Hon Hoff]]]]]]]].
    + left. split; [exact Hr|]. intros m' cmds' [H|H]; [now inversion H; subst | eauto].
    + right. exists m0, cmds0, ((m, cmds) :: before), later.
      split; [exact Hr|]. split; [now rewrite Hl|]. split; [exact Hon|].
      intros m' cmds' [H|H]; [now inversion H; subst | eauto].
Qed.

(** X3.  The priority list of the system managers never repeats a
    manager and names supported managers only.  On Linux it is the two
    universal managers snap and flatpak, preceded by at most one native
    manager: the first of apt, dnf, yum, pacman, zypper, apk one of whose
    commands is on the PATH (for apt, [apt] or [apt-get]); a native
    manager found later in that order is not in the list. *)
Theorem system_priority_shape (h : Host) :
  NoDup (_system_manager_priority h) /\
  (forall m, In m (_system_manager_priority h) -> In m (dict_keys MANAGER_INSTALL_HANDLERS)) /\
  (_os_type h = "linux" ->
   (_system_manager_priority h = ["snap"; "flatpak"] /\
    forall m cmds, In (m, cmds) linux_managers -> existsb (which h) cmds = false) \/
   (exists m cmds before later,
      _system_manager_priority h = [m; "snap"; "flatpak"] /\
      linux_managers = before ++ (m, cmds) :: later /\
      existsb (which h) cmds = true /\
      forall m' cmds', In (m', cmds') before -> existsb (which h) cmds' = false)).
Proof.
  assert (Hlinux : NoDup (first_linux_manager h linux_managers) /\
                   forall m, In m (first_linux_manager h linux_managers) ->
                             In m (dict_keys MANAGER_INSTALL_HANDLERS)).
  { destruct (first_linux_manager_shape h linux_managers)
      as [[Hr _] | [m [cmds [before [later [Hr [Hl _]]]]]]]; rewrite Hr.
    - split; [repeat constructor; simpl; intuition discriminate|].
      simpl. intuition (subst; auto 20).
    - assert (Hm : In m (map fst linux_managers))
        by (rewrite Hl, map_app, in_app_iff; right; now left).
      simpl in Hm.
      split.
      + decompose [or] Hm; try contradiction; subst m;
          repeat constructor; simpl; intuition discriminate.
      + intros m' [H|[H|[H|[]]]]; subst m'; simpl; [|auto 20|auto 20].
        decompose [or] Hm; try contradiction; subst m; auto 20. }
  unfold _system_manager_priority.
  destruct (String.eqb_spec (_os_type h) "macos") as [E1|E1].
  - split; [repeat constructor; simpl; intuition discriminate|].
    split; [simpl; intuition (subst; auto 20)|]. rewrite E1. discriminate.
  - destruct (String.eqb_spec (_os_type h) "windows") as [E2|E2].
    + split; [repeat constructor; simpl; intuition discriminate|].
      split; [simpl; intuition (subst; auto 20)|]. rewrite E2. discriminate.
    + destruct (String.eqb_spec (_os_type h) "linux") as [E3|E3].
      * split; [apply Hlinux|]. split; [apply Hlinux|]. intros _.
        apply first_linux_manager_shape.
      * split; [repeat constructor; simpl; intuition discriminate|].
        split; [simpl; intuition (subst; auto 20)|]. intros H. now elim E3.
Qed.

Lemma first_python_shape h cmds :
  Forall (fun cmd => exists c, cmd = [c]) cmds ->
  exists c, forall args, first_python h cmds args = c :: args.
Proof.
  induction 1 as [|cmd cmds [c ->] _ IH]; [now exists (sys_executable h)|].
  cbn [first_python argv0 hd]. destruct (which h c); [now exists c | exact IH].
Qed.

Lemma python_commands_single h :
  Forall (fun cmd => exists c, cmd = [c]) (_get_python_commands h).
Proof.
  rewrite python_commands_unfold.
  destruct (str_truthy (sys_executable h)), (which h "python3"), (which h "python"),
    (which h "py"); cbn [app]; repeat (constructor; [eexists; reflexivity|]); constructor.
Qed.

Ltac table_cases H m :=
  rewrite ?dict_get_cons in H; cbn [dict_get] in H;
  repeat match type of H with
  | context [String.eqb m ?k] =>
      destruct (String.eqb_spec m k) as [->|_]; [injection H as <- | ]
  end; [..|discriminate H].

(** X4.  Every install and removal command builder hands the package
    string over as one argument, the last of the argument vector,
    unchanged, after a program name and options that do not depend on
    the package. *)
Theorem handlers_pass_package_as_last_argument
    (h : Host) (m : string) (cmd_builder : string -> list string) :
  dict_get (INSTALL_HANDLERS h) m = Some cmd_builder \/
  dict_get (REMOVE_HANDLERS h) m = Some cmd_builder ->
  exists program options, forall pkg, cmd_builder pkg = program :: options ++ [pkg].
Proof.
  destruct (first_python_shape h _ (python_commands_single h)) as [c Hc].
  intros [H|H]; unfold INSTALL_HANDLERS, REMOVE_HANDLERS in H; table_cases H m;
    try (match goal with
         | |- exists program options, forall pkg, ?f pkg = _ =>
             exists (hd EmptyString (f EmptyString)), (removelast (tl (f EmptyString)));
             intros pkg; reflexivity
         end).
  - exists c, ["-m"; "pip"; "install"; "--user"]. intros pkg.
    unfold _pip_install. now rewrite Hc.
  - exists c, ["-m"; "pip"; "uninstall"; "-y"]. intros pkg.
    unfold _pip_remove. now rewrite Hc.
Qed.

End table_facts.

(** ** The candidates on the detected map *)

Section candidate_facts.
Context {PS : PyStr} {W : Type} {WO : World W}.
Local Abbreviation M := (monad.M W).

Lemma first_python_found h cmds :
  Forall (fun cmd => exists c, cmd = [c]) cmds ->
  existsb (fun cmd => which h (argv0 cmd))
    (filter (fun cmd => match cmd with [] => false | _ => true end) cmds) = true ->
  exists c, which h c = true /\ forall args, first_python h cmds args = c :: args.
Proof.
  induction 1 as [|cmd cmds [c ->] _ IH]; [discriminate|].
  cbn [filter existsb first_python argv0 hd].
  destruct (which h c) eqn:E; [intros _; now exists c | exact IH].
Qed.

Lemma pip_command_found h :
  python_on_path h = true ->
  exists c, which h c = true /\
            forall args, first_python h (_get_python_commands h) args = c :: args.
Proof.
  intros H. apply first_python_found; [apply python_commands_single|].
  now rewrite pip_detected.
Qed.

(** X5.  Every candidate ranked on the detected map has an install
    handler, so the install loop skips none, and the command built for
    it names a program the detector found on the PATH: as its first
    word, or as its second word after [sudo] ([sudo] itself is never
    looked for). *)
Theorem candidate_command_names_detected_program (h : Host) (pkg m : string) :
  In m (_ordered_install_manager_candidates h pkg (_detect_installed_managers h)) ->
  exists cmd_builder program rest,
    dict_get (INSTALL_HANDLERS h) m = Some cmd_builder /\
    which h program = true /\
    (cmd_builder pkg = program :: rest \/ cmd_builder pkg = "sudo" :: program :: rest).
Proof.
  intros Hin. apply candidate_iff_detected, get_truthy_true in Hin.
  rewrite detect_get in Hin.
  destruct (String.eqb_spec m "pip") as [E|Hne].
  - subst m. injection Hin as Hpy. destruct (pip_command_found h Hpy) as [c [Hc Hcmd]].
    exists (_pip_install h), c, ["-m"; "pip"; "install"; "--user"; pkg].
    split; [reflexivity|]. split; [exact Hc|]. left. unfold _pip_install. apply Hcmd.
  - destruct (mem m (dict_keys MANAGER_INSTALL_HANDLERS)) eqn:Hk; [|discriminate].
    injection Hin as Hw. apply mem_In in Hk. simpl in Hk.
    decompose [or] Hk; try contradiction; subst m; try congruence;
      eexists _, _, _; (split; [reflexivity|]); (split; [exact Hw|]);
      first [left; reflexivity | right; reflexivity].
Qed.

Lemma candidate_has_handler h pkg m :
  In m (_ordered_install_manager_candidates h pkg (_detect_installed_managers h)) ->
  dict_has (INSTALL_HANDLERS h) m = true.
Proof.
  intros Hin. apply candidate_iff_detected, detected_is_supported in Hin.
  simpl in Hin. decompose [or] Hin; try contradiction; subst m; reflexivity.
Qed.

Lemma filter_all {A} (f : A -> bool) l :
  (forall x, In x l -> f x = true) -> filter f l = l.
Proof.
  induction l as [|x l IH]; intros H; [reflexivity|].
  cbn [filter]. rewrite (H x (or_introl eq_refl)), IH; [reflexivity|].
  intros y Hy. apply H. now right.
Qed.

Lemma any_installed_none installed :
  any_installed installed = false -> forall m, ~ In (m, true) installed.
Proof.
  intros H m Hin. apply any_installed_true in Hin. congruence.
Qed.

(** X6.  With a record store that does not raise, [install_package]
    without a preferred manager tries the ranked candidates in their
    order, one command and one record each, and stops at the first
    command that succeeds: it returns True with that record last and
    failures before it, or False after every candidate has failed. *)
Theorem install_package_follows_ranking (h : Host) (pkg : string) (st : St W) :
  record_store_reliable ->
  let ranked := _ordered_install_manager_candidates h pkg (_detect_installed_managers h) in
  let R := install_package h pkg None st in
  exists b records untried,
    value R = Ok (b, records) /\
    ranked = map fst records ++ untried /\
    commands_run (effects R) = map (install_command h pkg) (map fst records) /\
    if b then
      exists failures m r,
        records = failures ++ [(m, r)] /\ ok r = true /\
        Forall (fun x => ok (snd x) = false) failures
    else untried = [] /\ Forall (fun x => ok (snd x) = false) records.
Proof.
  intros Hrel ranked R. unfold R, install_package.
  destruct (any_installed (_detect_installed_managers h)) eqn:Hany.
  - rewrite (install_package_unfold h _ pkg None st ranked [] Hany eq_refl).
    cbn [value effects app commands_run].
    destruct ranked as [|m rest] eqn:Hranked.
    + exists false, [], []. repeat split. constructor.
    + unfold install_run. rewrite bind_cprint.
      destruct (print_plan_run (m :: rest) 1 (mkSt (world st) [])) as [es [E Hes]].
      rewrite (bind_run_ok _ _ _ _ _ _ E). cbn [value final effects].
      rewrite commands_run_app. cbn [commands_run app].
      rewrite commands_run_app, Hes. cbn [app].
      destruct (install_loop_stops_at_first_success h pkg (length (m :: rest)) Hrel
                  (m :: rest) 1 (mkSt (world st) []))
        as [b [failures [hit [untried [Hv [Hf [Hc [Hall Hend]]]]]]]].
      rewrite filter_all in Hf.
      2:{ intros x Hx. apply (candidate_has_handler h pkg). fold ranked.
          now rewrite Hranked. }
      exists b, (failures ++ hit), untried. cbn [attempts app] in Hv.
      split; [exact Hv|]. split; [exact Hf|]. split; [exact Hc|].
      destruct Hend as [[-> [mgr [res [-> Hok]]]] | [-> [-> ->]]].
      * now exists failures, mgr, res.
      * rewrite app_nil_r. now split.
  - assert (Hr : ranked = [])
      by (unfold ranked; apply ranker_empty; now apply any_installed_none).
    clearbody ranked. subst ranked.
    unfold install_package_with. rewrite bind_cprint, Hany. cbn.
    exists false, [], []. repeat split. constructor.
Qed.

End candidate_facts.

(** ** [run_command]: results, retries and processes started *)

Section execution_facts.
Context {S : Type} {SY : System S}.



Lemma run_attempts_shift cmd timeout retries left : forall attempt (s : S),
  execution.run_attempts cmd timeout retries (attempt + 1) left s =
  execution.run_attempts cmd timeout (retries - 1) attempt left s.
Proof.
  induction left as [|left IH]; intros attempt s; [reflexivity|].
  cbn [execution.run_attempts].
  destruct (sys_spawn cmd timeout s) as [[e|rc o e|o e|e] s']; try reflexivity;
    (replace (attempt =? retries - 1)%Z with (attempt + 1 =? retries)%Z
       by (destruct (Z.eqb_spec (attempt + 1) retries), (Z.eqb_spec attempt (retries - 1));
           try reflexivity; lia);
     destruct (attempt + 1 =? retries)%Z; [reflexivity | apply IH]).
Qed.

(** X8.  What the first process decides, for [retries >= 0].  A process
    that exits gives the result at once, whatever its exit code, and a
    process killed at the timeout gives the timeout result at once:
    neither is retried.  Only an exception (from starting the process or
    from waiting for it) is retried, and each one uses up one retry:
    the call then behaves as the call with one retry less; with none
    left, the text of the exception is returned in [err]. *)
Theorem run_command_retries_exceptions_only
    (cmd : list string) (timeout retries : Z) (show_progress : bool) (s : S) :
  (0 <= retries)%Z ->
  let run := execution.run_command cmd timeout in
  match sys_spawn cmd timeout s with
  | (Exits returncode stdout stderr, s') =>
      run retries show_progress s
      = (Ok (mkRunResult (returncode =? 0)%Z returncode stdout stderr), s')
  | (TimesOut stdout _, s') =>
      run retries show_progress s
      = (Ok (mkRunResult false (-1) stdout
               ("Command timed out after " ++ str_of_Z timeout ++ " seconds")), s')
  | (PopenRaises e, s') | (CommunicateRaises e, s') =>
      if (retries =? 0)%Z
      then run retries show_progress s
           = (Ok (mkRunResult false (-1) "" ("Exception: " ++ e)), s')
      else run retries show_progress s = run (retries - 1)%Z show_progress s'
  end.
Proof.
  intros Hr run. unfold run, execution.run_command.
  replace (Z.to_nat (retries + 1)) with (Datatypes.S (Z.to_nat retries)) by lia.
  cbn [execution.run_attempts].
  destruct (sys_spawn cmd timeout s) as [[e|rc o e|o e|e] s']; try reflexivity;
    (rewrite (Z.eqb_sym 0 retries);
     destruct (Z.eqb_spec retries 0) as [E|E]; [reflexivity|];
     change 1%Z with (0 + 1)%Z at 1; rewrite run_attempts_shift;
     replace (Z.to_nat (retries - 1 + 1)) with (Z.to_nat retries) by lia;
     reflexivity).
Qed.

Lemma run_attempts_counted cmd timeout retries left : forall attempt (s : S) (n : nat),
  exists n',
    @execution.run_attempts _ (Counted_System SY) cmd timeout retries attempt left (s, n)
    = (fst (execution.run_attempts cmd timeout retries attempt left s),
       (snd (execution.run_attempts cmd timeout retries attempt left s), n')) /\
    (n <= n' <= n + left)%nat /\
    (left <> O -> n < n')%nat.
Proof.
  induction left as [|left IH]; intros attempt s n.
  - exists n. split; [reflexivity|]. split; [lia|]. intros H. now elim H.
  - cbn [execution.run_attempts]. cbn [sys_spawn Counted_System fst snd].
    destruct (sys_spawn cmd timeout s) as [[e|rc o e|o e|e] s'];
      try (exists (Datatypes.S n); split; [reflexivity|]; split; [lia|]; intros _; lia);
      (destruct (attempt =? retries)%Z;
       [exists (Datatypes.S n); split; [reflexivity|]; split; [lia|]; intros _; lia|];
       destruct (IH (attempt + 1)%Z s' (Datatypes.S n)) as [n' [E [Hb _]]];
       exists n'; split; [exact E|]; split; [lia|]; intros _; lia).
Qed.

(** X9.  The number of processes one call of [run_command] starts is at
    least one and at most [retries + 1] when [retries >= 0]; with a
    negative [retries] no process is started and the result is the
    failure All retry attempts failed.  Counting the processes does not
    change what the call returns. *)
Theorem run_command_spawn_bounds
    (cmd : list string) (timeout retries : Z) (show_progress : bool) (s : S) (n : nat) :
  let counted :=
    @execution.run_command _ (Counted_System SY) cmd timeout retries show_progress (s, n) in
  let plain := execution.run_command cmd timeout retries show_progress s in
  let started := (snd (snd counted) - n)%nat in
  fst counted = fst plain /\ fst (snd counted) = snd plain /\
  (n <= snd (snd counted))%nat /\
  (Z.of_nat started <= Z.max 0 (retries + 1))%Z /\
  ((0 <= retries)%Z -> (1 <= started)%nat) /\
  ((retries < 0)%Z ->
   started = O /\ snd plain = s /\
   fst plain = Ok (mkRunResult false (-1) "" "All retry attempts failed")).
Proof.
  intros counted plain started. unfold started, counted, plain, execution.run_command.
  destruct (run_attempts_counted cmd timeout retries (Z.to_nat (retries + 1)) 0 s n)
    as [n' [E [Hb Hpos]]].
  rewrite E.
  destruct (execution.run_attempts cmd timeout retries 0 (Z.to_nat (retries + 1)) s)
    as [r s'] eqn:Er.
  cbn [fst snd]. split; [reflexivity|]. split; [reflexivity|]. split; [lia|].
  split; [lia|]. split.
  - intros Hr. assert (Z.to_nat (retries + 1) <> O) by lia. specialize (Hpos H). lia.
  - intros Hr. replace (Z.to_nat (retries + 1)) with O in * by lia.
    cbn [execution.run_attempts] in Er. injection Er as <- <-.
    split; [lia|]. split; reflexivity.
Qed.

End execution_facts.

(** ** [install_manager] *)

Section manager_setup_facts.
Context {PS : PyStr} {W : Type} {WO : World W}.
Local Abbreviation M := (monad.M W).


Lemma run_command_run cmd timeout retries show_progress (st : St W) :
  monad.run_command cmd timeout retries show_progress st =
  mkRun (fst (world_run_command cmd timeout retries show_progress (world st)))
        (mkSt (snd (world_run_command cmd timeout retries show_progress (world st)))
              (attempts st))
        [RunCommand cmd timeout retries show_progress].
Proof.
  unfold monad.run_command, bind, emit, call. cbn [value final effects world attempts].
  now destruct (world_run_command cmd timeout retries show_progress (world st)).
Qed.

Lemma bind_run_raise {A B} (c : M A) (k : A -> M B) st e st1 es :
  c st = mkRun (Raise e) st1 es -> bind c k st = mkRun (Raise e) st1 es.
Proof. intros H. unfold bind. now rewrite H. Qed.



End manager_setup_facts.

(** ** The option parser of the interactive shell *)

Section shell_facts.
Context {PS : PyStr} {W : Type} {WO : World W}.
Local Abbreviation M := (monad.M W).

Lemma startswith_dashes tok :
  startswith tok "--" = true -> tok = ("--" ++ str_from 2 tok)%string.
Proof.
  unfold startswith. destruct tok as [|a [|b tok]]; cbn [prefix str_from append];
    try discriminate.
  - destruct (Ascii.ascii_dec "-" a); discriminate.
  - destruct (Ascii.ascii_dec "-" a) as [<-|]; [|discriminate].
    destruct (Ascii.ascii_dec "-" b) as [<-|]; [|discriminate]. reflexivity.
Qed.

Lemma dict_get_set {V} (d : dict V) k v k' :
  dict_get (dict_set d k v) k' = if String.eqb k' k then Some v else dict_get d k'.
Proof.
  induction d as [|[k0 v0] d IH]; cbn [dict_set dict_get]; [reflexivity|].
  destruct (String.eqb_spec k k0) as [->|Hk]; cbn [dict_get].
  - now destruct (String.eqb k' k0).
  - rewrite IH. destruct (String.eqb_spec k' k0) as [->|_]; [|reflexivity].
    destruct (String.eqb_spec k0 k) as [E|_]; [now elim Hk | reflexivity].
Qed.

Lemma dict_set_keys {V} (d : dict V) k v :
  dict_keys (dict_set d k v) = dict_keys d \/ 
  (~ In k (dict_keys d) /\ dict_keys (dict_set d k v) = dict_keys d ++ [k]).
Proof.
  induction d as [|[k0 v0] d IH]; cbn [dict_set]; [right; split; [intros []|reflexivity]|].
  destruct (String.eqb_spec k k0) as [->|Hk]; [now left|].
  unfold dict_keys in *. cbn [map fst].
  destruct IH as [->|[Hn ->]]; [now left|]. right. split; [|reflexivity].
  intros [E|E]; [now elim Hk | now elim Hn].
Qed.

Lemma dict_set_wf {V} (d : dict V) k v : dict_wf d -> dict_wf (dict_set d k v).
Proof.
  unfold dict_wf. intros H. destruct (dict_set_keys d k v) as [->|[Hn ->]]; [exact H|].
  apply NoDup_app; [exact H | repeat constructor; intros [] | ].
  intros x Hx [<-|[]]. now elim Hn.
Qed.

Lemma dict_set_length {V} (d : dict V) k v :
  (length (dict_set d k v) <= Datatypes.S (length d))%nat.
Proof.
  induction d as [|[k0 v0] d IH]; cbn [dict_set length]; [lia|].
  destruct (String.eqb k k0); cbn [length]; lia.
Qed.

Lemma parse_kv_from_pair tok value rest out :
  _parse_kv_from (tok :: value :: rest) out =
  if startswith tok "--"
  then _parse_kv_from rest (dict_set out (str_from 2 tok) value)
  else _parse_kv_from (value :: rest) out.
Proof. reflexivity. Qed.

Lemma parse_kv_from_facts n : forall args out,
  (length args <= n)%nat ->
  (dict_wf out -> dict_wf (_parse_kv_from args out)) /\
  (2 * length (_parse_kv_from args out) <= 2 * length out + length args)%nat /\
  forall k v, dict_get (_parse_kv_from args out) k = Some v ->
    dict_get out k = Some v \/
    exists before later, args = before ++ ("--" ++ k)%string :: v :: later.
Proof.
  induction n as [|n IH]; intros args out Hlen.
  - destruct args; [|cbn in Hlen; lia]. cbn. repeat split; auto. lia.
  - destruct args as [|tok [|value rest]].
    + repeat split; auto. cbn. lia.
    + repeat split; auto. cbn. lia.
    + rewrite parse_kv_from_pair.
      cbn [length] in Hlen. destruct (startswith tok "--") eqn:Htok.
      * destruct (IH rest (dict_set out (str_from 2 tok) value)) as [Hwf [Hsize Hget]];
          [lia|].
        split; [intros H; apply Hwf; now apply dict_set_wf|]. split.
        -- pose proof (dict_set_length out (str_from 2 tok) value). cbn [length]. lia.
        -- intros k v H. destruct (Hget k v H) as [H1 | [before [later ->]]].
           ++ rewrite dict_get_set in H1.
              destruct (String.eqb_spec k (str_from 2 tok)) as [->|_]; [|now left].
              injection H1 as ->. right. exists [], rest.
              cbn [app]. now rewrite <- (startswith_dashes tok Htok).
           ++ right. exists (tok :: value :: before), later. reflexivity.
      * destruct (IH (value :: rest) out) as [Hwf [Hsize Hget]]; [cbn [length]; lia|].
        split; [exact Hwf|].
        split; [change (length (tok :: value :: rest)) with (Datatypes.S (length (value :: rest)));
                lia|].
        intros k v H. destruct (Hget k v H) as [H1 | [before [later E]]]; [now left|].
        right. exists (tok :: before), later. cbn [app]. now rewrite E.
Qed.

(** X11.  [_parse_kv] returns a dict (each key once) with at most one
    option for every two tokens, and every option [k: v] it returns was
    written as the token [--k] directly followed by the token [v]. *)
Theorem parse_kv_options_are_adjacent_pairs (args : list string) :
  dict_wf (_parse_kv args) /\
  (2 * length (_parse_kv args) <= length args)%nat /\
  forall k v, dict_get (_parse_kv args) k = Some v ->
              exists before later, args = before ++ ("--" ++ k)%string :: v :: later.
Proof.
  unfold _parse_kv.
  destruct (parse_kv_from_facts (length args) args [] (le_n _)) as [Hwf [Hsize Hget]].
  split; [apply Hwf; constructor|]. split; [cbn [length] in Hsize; lia|].
  intros k v H. destruct (Hget k v H) as [H1|H1]; [discriminate H1 | exact H1].
Qed.

Lemma dict_get_value {V} (d : dict V) k v : dict_get d k = Some v -> In v (dict_values d).
Proof.
  intros H. apply dict_get_Some_In in H. unfold dict_values.
  apply in_map_iff. now exists (k, v).
Qed.

Lemma mem_self x l : mem x (x :: l) = true.
Proof. unfold mem. cbn [existsb]. now rewrite String.eqb_refl. Qed.

(** X12.  In the interactive shell the package of [install] and [remove]
    is the first token that is neither an option nor equal to the value
    of an option.  So a package whose name is also the value of an option
    is never found: [install p --k p] (for instance [install pip
    --manager pip]) answers Missing package name and runs nothing, for
    every [p] and [k]. *)
Theorem shell_package_equal_to_option_value (h : Host) (p k : string) (st : St W) :
  (forall args key v,
     dict_get (_parse_kv args) key = Some v ->
     first_positional args (_parse_kv args) <> Some v) /\
  shell_install h [p; "--" ++ k; p]%string st
    = mkRun (Ok tt) st [Cprint "Missing package name." "ERROR"] /\
  shell_remove h [p; "--" ++ k; p]%string st
    = mkRun (Ok tt) st [Cprint "Missing package name." "ERROR"].
Proof.
  split.
  - intros args key v Hget Hfind. unfold first_positional in Hfind.
    apply find_some in Hfind. destruct Hfind as [_ Hf].
    apply dict_get_value, mem_In in Hget. rewrite Hget in Hf.
    now rewrite andb_false_r in Hf.
  - assert (Hnone : first_positional [p; "--" ++ k; p]%string
                      (_parse_kv [p; "--" ++ k; p]%string) = None).
    { assert (Hk : startswith ("--" ++ k) "--" = true).
      { unfold startswith. cbn [append prefix].
        destruct (Ascii.ascii_dec "-" "-") as [_|n]; [now destruct k | now elim n]. }
      unfold _parse_kv, first_positional. rewrite parse_kv_from_pair.
      destruct (startswith p "--") eqn:Hp.
      - cbn [_parse_kv_from find]. rewrite Hp, Hk. reflexivity.
      - rewrite parse_kv_from_pair, Hk. cbn [_parse_kv_from find].
        rewrite Hp, Hk. unfold dict_values. cbn [map snd dict_set].
        now rewrite !mem_self. }
    unfold shell_install, shell_remove. rewrite Hnone. split; reflexivity.
Qed.

End shell_facts.

(** ** Installing from a requirements file *)

Section bulk_facts.
Context {PS : PyStr} {W : Type} {WO : World W} {SU : Surroundings W}.
Local Abbreviation M := (monad.M W).

Lemma run_eta {A} (r : Run W A) : r = mkRun (value r) (final r) (effects r).
Proof. now destruct r. Qed.

Lemma try_except_ok {A} (body : M A) handler st a st1 es :
  body st = mkRun (Ok a) st1 es -> try_except body handler st = mkRun (Ok a) st1 es.
Proof. intros H. unfold try_except. now rewrite H. Qed.

Lemma try_except_raise {A} (body : M A) handler st e st1 es :
  body st = mkRun (Raise e) st1 es ->
  try_except body handler st =
  mkRun (value (handler e st1)) (final (handler e st1)) (es ++ effects (handler e st1)).
Proof. intros H. unfold try_except. now rewrite H. Qed.

Lemma call_run {A} (f : W -> result A * W) (st : St W) :
  call f st = mkRun (fst (f (world st))) (mkSt (snd (f (world st))) (attempts st)) [].
Proof. unfold call. now destruct (f (world st)). Qed.

Lemma install_package_run h pkg chosen (st : St W) :
  exists b a st1 es, install_package h pkg chosen st = mkRun (Ok (b, a)) st1 es.
Proof.
  destruct (install_package_total h (_detect_installed_managers h) pkg chosen st)
    as [b [a Hv]].
  unfold install_package. rewrite (run_eta (install_package_with _ _ _ _ _)), Hv.
  now exists b, a, (final (install_package_with h (_detect_installed_managers h) pkg chosen st)),
    (effects (install_package_with h (_detect_installed_managers h) pkg chosen st)).
Qed.

(** The lines counted as installed and as failed. *)
Lemma bulk_loop_run h lines : forall r (st : St W),
  exists outcomes st1 es,
    bulk_loop h lines r st =
      mkRun (Ok (mkBulkResults (total_packages r)
                   (successful r + length (filter (fun o => snd (fst o)) outcomes))
                   (failed r + length (filter (fun o => negb (snd (fst o))) outcomes))
                   (results r ++ outcomes))) st1 es /\
    map (fun o => fst (fst o)) outcomes = lines.
Proof.
  induction lines as [|line rest IH]; intros r st.
  - exists [], st, []. cbn. rewrite !Nat.add_0_r, app_nil_r. now destruct r.
  - cbn [bulk_loop]. rewrite bind_cprint.
    destruct (install_package_run h line None st) as [b [a [st1 [es1 E]]]].
    rewrite (bind_run_ok _ _ _ _ _ _ E). cbn [value final effects].
    match goal with
    | |- context [bulk_loop h rest ?r1 st1] =>
        destruct (IH r1 st1) as [outcomes [st2 [es2 [E2 Hl]]]]; rewrite E2
    end.
    exists ((line, b, length a) :: outcomes), st2.
    eexists. cbn [value final effects total_packages successful failed results].
    split; [|cbn; now rewrite Hl].
    f_equal. f_equal. destruct b; cbn [filter fst snd negb length]; rewrite <- app_assoc;
      f_equal; lia.
Qed.

(** What a run of [bulk_install_from_file] returns: the dict of a
    failure, or the dict of the results of the loop over the requirement
    lines of the file. *)
Lemma bulk_install_run (h : Host) (file_path : string) (st : St W) :
  let R := bulk_install_from_file h file_path st in
  (exists error, value R = Ok (failure_dict error) /\ commands_run (effects R) = []) \/
  (exists outcomes text,
     value R = Ok (results_dict
                     (mkBulkResults (length outcomes)
                        (length (filter (fun o => snd (fst o)) outcomes))
                        (length (filter (fun o => negb (snd (fst o))) outcomes))
                        outcomes)) /\
     fst (world_read_text file_path (snd (world_path_exists file_path (world st)))) = Ok text /\
     requirement_lines (str_strip text) <> [] /\
     map (fun o => fst (fst o)) outcomes = requirement_lines (str_strip text)).
Proof.
  intros R. unfold R, bulk_install_from_file. rewrite bind_cprint.
  cbn [value effects commands_run].
  pose proof (call_run (world_path_exists file_path) st) as Ex.
  destruct (world_path_exists file_path (world st)) as [[found|e] w1]; cbn [fst snd] in *.
  2:{ left. exists e. rewrite (try_except_raise _ _ _ _ _ _ (bind_run_raise _ _ _ _ _ _ Ex)).
      split; reflexivity. }
  destruct found; cbn [negb].
  2:{ left. exists "File not found".
      erewrite try_except_ok
        by (rewrite (bind_run_ok _ _ _ _ _ _ Ex); reflexivity).
      split; reflexivity. }
  pose proof (call_run (world_read_text file_path) (mkSt w1 (attempts st))) as Er.
  cbn [world attempts] in Er.
  destruct (world_read_text file_path w1) as [[text|e] w2]; cbn [fst snd] in *.
  2:{ left. exists e.
      erewrite try_except_raise
        by (rewrite (bind_run_ok _ _ _ _ _ _ Ex); cbn [negb value final effects app];
            rewrite (bind_run_raise _ _ _ _ _ _ Er); reflexivity).
      split; reflexivity. }
  destruct (requirement_lines (str_strip text)) as [|line rest] eqn:Hlines.
  { left. exists "No packages found".
    erewrite try_except_ok
      by (rewrite (bind_run_ok _ _ _ _ _ _ Ex); cbn [negb value final effects app];
          rewrite (bind_run_ok _ _ _ _ _ _ Er); cbn [value final effects app];
          rewrite Hlines; reflexivity).
    split; reflexivity. }
  right.
  destruct (bulk_loop_run h (line :: rest)
              (mkBulkResults (length (line :: rest)) 0 0 []) (mkSt w2 (attempts st)))
    as [outcomes [st3 [es3 [El Hmap]]]].
  cbn [total_packages successful failed results app Nat.add] in El.
  assert (Hlen : length outcomes = length (line :: rest))
    by (rewrite <- Hmap; now rewrite length_map).
  exists outcomes, text. rewrite <- Hlen in El.
  split.
  - erewrite try_except_ok
      by (rewrite (bind_run_ok _ _ _ _ _ _ Ex); cbn [negb value final effects app];
          rewrite (bind_run_ok _ _ _ _ _ _ Er); cbn [value final effects app];
          rewrite Hlines, bind_cprint, <- Hlen;
          rewrite (bind_run_ok _ _ _ _ _ _ El); cbn [value final effects];
          rewrite !bind_cprint; reflexivity).
    reflexivity.
  - split; [reflexivity|]. rewrite Hlines. split; [discriminate | exact Hmap].
Qed.



(** X14.  [main] with [--install-from] ends with the exit code 1 on
    every run, also when every package of the file was installed: the
    dict of a completed run has no key [success], and the exit code is
    0 only if [results.get("success", False)] is true. *)
Theorem install_from_always_exits_1 (h : Host) (file_path : string) (st : St W) :
  value (main_install_from h file_path st) = Ok 1%Z.
Proof.
  unfold main_install_from.
  pose proof (run_eta (bulk_install_from_file h file_path st)) as E.
  destruct (bulk_install_run h file_path st)
    as [[error [Hv _]] | [outcomes [text [Hv _]]]];
    rewrite Hv in E; rewrite (bind_run_ok _ _ _ _ _ _ E); reflexivity.
Qed.

End bulk_facts.

(** ** Statistics of the record store *)

Section stats_facts.
Context {W : Type} {WO : World W} {SU : Surroundings W}.
Local Abbreviation M := (monad.M W).

Lemma list_sum_set (d : dict nat) k :
  list_sum (dict_values
              (dict_set d k (match dict_get d k with Some n => n | None => O end + 1)%nat))
  = (list_sum (dict_values d) + 1)%nat.
Proof.
  induction d as [|[k0 v0] d IH]; [reflexivity|].
  cbn [dict_set dict_get]. destruct (String.eqb k k0).
  - unfold dict_values, list_sum. cbn [map snd fold_right]. lia.
  - unfold dict_values, list_sum in *. cbn [map snd fold_right]. rewrite IH. lia.
Qed.

Lemma group_sum packages : forall d,
  list_sum (dict_values (stats.group_by_manager packages d))
  = (list_sum (dict_values d) + length packages)%nat.
Proof.
  induction packages as [|pkg rest IH]; intros d; cbn [stats.group_by_manager length].
  - lia.
  - rewrite IH, list_sum_set. lia.
Qed.

Lemma group_wf packages : forall d,
  dict_wf d -> dict_wf (stats.group_by_manager packages d).
Proof.
  induction packages as [|pkg rest IH]; intros d H; cbn [stats.group_by_manager];
    [exact H|]. apply IH. now apply dict_set_wf.
Qed.

Lemma group_get packages m : forall d,
  dict_get (stats.group_by_manager packages d) m =
  match length (filter (fun pkg => String.eqb (row_manager pkg) m) packages) with
  | O => dict_get d m
  | Datatypes.S c =>
      Some (match dict_get d m with Some n => n | None => O end + Datatypes.S c)%nat
  end.
Proof.
  set (f := fun pkg => String.eqb (row_manager pkg) m).
  induction packages as [|pkg rest IH]; intros d; [reflexivity|].
  cbn [stats.group_by_manager filter]. rewrite IH, dict_get_set.
  unfold f at 2. destruct (String.eqb_spec (row_manager pkg) m) as [E|E].
  - rewrite <- E, String.eqb_refl. cbn [length].
    generalize (length (filter f rest)). intros [|c]; f_equal; lia.
  - destruct (String.eqb_spec m (row_manager pkg)) as [E'|_]; [now elim E|].
    reflexivity.
Qed.

Lemma recent_loop_prefix w packages : forall recent,
  exists before later,
    packages = before ++ later /\
    stats.recent_loop w packages recent =
      recent ++ map (fun pkg => stats.mkRecent (row_name pkg) (row_manager pkg)
                                  (row_install_date pkg))
                    (filter (fun pkg =>
                               opt_truthy (row_install_date pkg) &&
                               match world_is_recent
                                       (match row_install_date pkg with
                                        | Some d => d | None => EmptyString end) w with
                               | Ok true => true
                               | _ => false
                               end) before) /\
    Forall (fun pkg => opt_truthy (row_install_date pkg) = true ->
                       forall e, world_is_recent
                                   (match row_install_date pkg with
                                    | Some d => d | None => EmptyString end) w
                                 <> Raise e) before /\
    match later with
    | [] => True
    | pkg :: _ =>
        opt_truthy (row_install_date pkg) = true /\
        exists e, world_is_recent
                    (match row_install_date pkg with
                     | Some d => d | None => EmptyString end) w = Raise e
    end.
Proof.
  induction packages as [|pkg rest IH]; intros recent.
  - exists [], []. cbn. rewrite app_nil_r. repeat split. constructor.
  - cbn [stats.recent_loop].
    destruct (opt_truthy (row_install_date pkg)) eqn:Hd.
    + destruct (world_is_recent _ w) as [[|]|e] eqn:Hr.
      * destruct (IH (recent ++ [stats.mkRecent (row_name pkg) (row_manager pkg)
                                   (row_install_date pkg)]))
          as [before [later [-> [E [Hall Hend]]]]].
        exists (pkg :: before), later. split; [reflexivity|].
        split; [|split; [|exact Hend]].
        -- rewrite E. cbn [filter]. rewrite Hd, Hr. cbn [andb map].
           now rewrite <- app_assoc.
        -- constructor; [|exact Hall]. intros _ e. rewrite Hr. discriminate.
      * destruct (IH recent) as [before [later [-> [E [Hall Hend]]]]].
        exists (pkg :: before), later. split; [reflexivity|].
        split; [|split; [|exact Hend]].
        -- rewrite E. cbn [filter]. now rewrite Hd, Hr.
        -- constructor; [|exact Hall]. intros _ e. rewrite Hr. discriminate.
      * exists [], (pkg :: rest). cbn. rewrite app_nil_r.
        split; [reflexivity|]. split; [reflexivity|]. split; [constructor|].
        split; [exact Hd | now exists e].
    + destruct (IH recent) as [before [later [-> [E [Hall Hend]]]]].
      exists (pkg :: before), later. split; [reflexivity|].
      split; [|split; [|exact Hend]].
      * rewrite E. cbn [filter]. now rewrite Hd.
      * constructor; [|exact Hall]. intros H. congruence.
Qed.

(** X15.  In the statistics the counts by manager add up to the total:
    [packages_by_manager] has each manager once, with the number of rows
    of that manager (and no entry for a manager without rows), the sum
    of its counts is [total_packages], the number of rows; there are at
    most as many recent installations as rows; and at most the thirteen
    supported managers are counted as available.  An exception of the
    record store is not caught. *)
Theorem statistics_counts_add_up (h : Host) (st : St W) :
  let R := stats.get_package_statistics h st in
  match fst (world_get_installed_packages None (world st)) with
  | Raise e => value R = Raise e
  | Ok packages =>
      exists s,
        value R = Ok s /\
        stats.total_packages s = length packages /\
        dict_wf (stats.packages_by_manager s) /\
        list_sum (dict_values (stats.packages_by_manager s)) = stats.total_packages s /\
        (forall m,
           dict_get (stats.packages_by_manager s) m =
           match length (filter (fun pkg => String.eqb (row_manager pkg) m) packages) with
           | O => None
           | c => Some c
           end) /\
        (length (stats.recent_installations s) <= stats.total_packages s)%nat /\
        (stats.available_managers s <= stats.total_supported_managers s)%nat /\
        stats.total_supported_managers s = 13%nat
  end.
Proof.
  intros R. unfold R, stats.get_package_statistics.
  pose proof (call_run (world_get_installed_packages None) st) as E.
  destruct (world_get_installed_packages None (world st)) as [[packages|e] w1];
    cbn [fst snd] in *.
  2:{ now rewrite (bind_run_raise _ _ _ _ _ _ E). }
  rewrite (bind_run_ok _ _ _ _ _ _ E). eexists. split; [reflexivity|].
  cbn [stats.total_packages stats.packages_by_manager stats.recent_installations
       stats.available_managers stats.total_supported_managers].
  split; [reflexivity|]. split; [apply group_wf; constructor|].
  split; [now rewrite group_sum|]. split.
  - intros m. rewrite group_get. cbn [dict_get].
    now destruct (length (filter _ packages)).
  - split; [|split; [|reflexivity]].
    + destruct (recent_loop_prefix w1 packages []) as [before [later [-> [Er _]]]].
      cbn [world final] in *. rewrite Er, app_nil_l, length_map, length_app.
      pose proof (filter_length_le
        (fun pkg => opt_truthy (row_install_date pkg) &&
           match world_is_recent
                   (match row_install_date pkg with
                    | Some d => d | None => EmptyString end) w1 with
           | Ok true => true
           | _ => false
           end) before). lia.
    + unfold dict_values. rewrite <- (length_map snd (_detect_installed_managers h)).
      apply filter_length_le.
Qed.

(** X16.  The recent installations are collected in the order of the
    rows, from the rows that have a date and whose date is within the
    last seven days, up to the first row whose date cannot be parsed or
    compared: the exception ends the loop, the rows after it are not
    looked at, and what was collected before it is kept. *)
Theorem recent_installations_stop_at_bad_date (h : Host) (st : St W) :
  let R := stats.get_package_statistics h st in
  let date pkg := match row_install_date pkg with Some d => d | None => EmptyString end in
  match world_get_installed_packages None (world st) with
  | (Raise e, _) => value R = Raise e
  | (Ok packages, w) =>
      exists s before later,
        value R = Ok s /\ packages = before ++ later /\
        stats.recent_installations s =
          map (fun pkg => stats.mkRecent (row_name pkg) (row_manager pkg)
                            (row_install_date pkg))
              (filter (fun pkg => opt_truthy (row_install_date pkg) &&
                                  match world_is_recent (date pkg) w with
                                  | Ok true => true
                                  | _ => false
                                  end) before) /\
        Forall (fun pkg => opt_truthy (row_install_date pkg) = true ->
                           forall e, world_is_recent (date pkg) w <> Raise e) before /\
        match later with
        | [] => True
        | pkg :: _ =>
            opt_truthy (row_install_date pkg) = true /\
            exists e, world_is_recent (date pkg) w = Raise e
        end
  end.
Proof.
  intros R date. unfold R, stats.get_package_statistics.
  pose proof (call_run (world_get_installed_packages None) st) as E.
  destruct (world_get_installed_packages None (world st)) as [[packages|e] w1];
    cbn [fst snd] in *.
  2:{ now rewrite (bind_run_raise _ _ _ _ _ _ E). }
  rewrite (bind_run_ok _ _ _ _ _ _ E).
  destruct (recent_loop_prefix w1 packages []) as [before [later [Hp [Er [Hall Hend]]]]].
  eexists _, before, later. split; [reflexivity|]. split; [exact Hp|].
  cbn [stats.recent_installations world final]. split; [exact Er|].
  split; [exact Hall | exact Hend].
Qed.

End stats_facts.

(** ** Exporting the record store *)

Section export_facts.
Context {PS : PyStr} {W : Type} {WO : World W} {SU : Surroundings W}.
Local Abbreviation M := (monad.M W).

Lemma leb_refl s : String.leb s s = true.
Proof. now destruct (String.leb_total s s). Qed.

Lemma insert_by_name_perm x l : Permutation (insert_by_name x l) (x :: l).
Proof.
  induction l as [|y l IH]; cbn [insert_by_name]; [reflexivity|].
  destruct (String.leb (row_name x) (row_name y)); [reflexivity|].
  rewrite IH. apply perm_swap.
Qed.

Lemma sort_by_name_perm l : Permutation (sort_by_name l) l.
Proof.
  induction l as [|x l IH]; cbn [sort_by_name]; [reflexivity|].
  now rewrite insert_by_name_perm, IH.
Qed.

Lemma insert_by_name_sorted x l : Sorted name_le l -> Sorted name_le (insert_by_name x l).
Proof.
  induction 1 as [|y l Hs IH Hhd]; cbn [insert_by_name]; [repeat constructor|].
  destruct (String.leb (row_name x) (row_name y)) eqn:E.
  - constructor; [now constructor | now constructor].
  - constructor; [exact IH|].
    assert (Hyx : name_le y x).
    { unfold name_le. destruct (String.leb_total (row_name x) (row_name y)); congruence. }
    destruct l as [|z l]; cbn [insert_by_name]; [now constructor|].
    destruct (String.leb (row_name x) (row_name z)); constructor; [exact Hyx|].
    now inversion Hhd.
Qed.

Lemma sort_by_name_sorted l : Sorted name_le (sort_by_name l).
Proof.
  induction l as [|x l IH]; cbn [sort_by_name]; [constructor|].
  now apply insert_by_name_sorted.
Qed.

Lemma insert_by_name_stable n x l :
  with_name n (insert_by_name x l) = with_name n (x :: l).
Proof.
  unfold with_name. induction l as [|y l IH]; cbn [insert_by_name]; [reflexivity|].
  destruct (String.leb (row_name x) (row_name y)) eqn:E; [reflexivity|].
  cbn [filter] in *. rewrite IH.
  destruct (String.eqb_spec (row_name x) n) as [Hx|Hx]; [|reflexivity].
  destruct (String.eqb_spec (row_name y) n) as [Hy|Hy]; [|reflexivity].
  rewrite Hx, Hy, leb_refl in E. discriminate E.
Qed.

Lemma sort_by_name_stable n l : with_name n (sort_by_name l) = with_name n l.
Proof.
  induction l as [|x l IH]; cbn [sort_by_name]; [reflexivity|].
  rewrite insert_by_name_stable. unfold with_name in *. cbn [filter]. now rewrite IH.
Qed.

(** X17.  [export_packages] runs no command and never raises.  It
    returns False, having written nothing, when the record store raises
    or has no row for the manager.  Otherwise it writes one file: the
    given one, or [crossfire_<manager>_requirements_<timestamp>.txt];
    the text written has one line per row, the rows stably sorted by
    name, each line ended by a line feed; and it returns True exactly
    when the write did not raise. *)
Theorem export_packages_outcome
    (manager : string) (output_file : option string) (st : St W) :
  let R := export_packages manager output_file st in
  let out_path w :=
    if opt_truthy output_file
    then match output_file with Some f => f | None => EmptyString end
    else ("crossfire_" ++ manager ++ "_requirements_" ++ world_timestamp w ++ ".txt")%string in
  commands_run (effects R) = [] /\
  match world_get_installed_packages (Some manager) (world st) with
  | (Raise e, w1) => value R = Ok false /\ world (final R) = w1
  | (Ok [], w1) => value R = Ok false /\ world (final R) = w1
  | (Ok packages, w1) =>
      exists sorted,
        Permutation sorted packages /\ Sorted name_le sorted /\
        (forall n, with_name n sorted = with_name n packages) /\
        export_content packages = (String.concat LF (map export_line sorted) ++ LF)%string /\
        match world_write_text (out_path w1) (export_content packages) w1 with
        | (Ok _, w2) => value R = Ok true /\ world (final R) = w2
        | (Raise e, w2) => value R = Ok false /\ world (final R) = w2
        end
  end.
Proof.
  intros R out_path. unfold R, export_packages. rewrite bind_cprint.
  cbn [value final effects commands_run].
  pose proof (call_run (world_get_installed_packages (Some manager)) st) as Eq.
  destruct (world_get_installed_packages (Some manager) (world st))
    as [[packages|e] w1]; cbn [fst snd] in *.
  2:{ erewrite try_except_raise by (rewrite (bind_run_raise _ _ _ _ _ _ Eq); reflexivity).
      repeat split. }
  destruct packages as [|pkg rest].
  { erewrite try_except_ok by (rewrite (bind_run_ok _ _ _ _ _ _ Eq); reflexivity).
    repeat split. }
  set (st1 := mkSt w1 (attempts st)) in *.
  assert (Ep : (if opt_truthy output_file
                then ret (match output_file with Some f => f | None => EmptyString end)
                else timestamp <- observe world_timestamp ;;
                     ret ("crossfire_" ++ manager ++ "_requirements_" ++ timestamp
                          ++ ".txt")%string) st1
               = mkRun (Ok (out_path w1)) st1 []).
  { unfold out_path. now destruct (opt_truthy output_file). }
  pose proof (call_run (world_write_text (out_path w1) (export_content (pkg :: rest))) st1) as Ew.
  cbn [world attempts st1] in Ew.
  assert (Hsorted : exists sorted,
            Permutation sorted (pkg :: rest) /\ Sorted name_le sorted /\
            (forall n, with_name n sorted = with_name n (pkg :: rest)) /\
            export_content (pkg :: rest)
            = (String.concat LF (map export_line sorted) ++ LF)%string).
  { exists (sort_by_name (pkg :: rest)). split; [apply sort_by_name_perm|].
    split; [apply sort_by_name_sorted|]. split; [intros n; apply sort_by_name_stable|].
    reflexivity. }
  destruct Hsorted as [sorted [H1 [H2 [H3 H4]]]].
  destruct (world_write_text (out_path w1) (export_content (pkg :: rest)) w1)
    as [[[]|e] w2]; cbn [fst snd] in *.
  - erewrite try_except_ok
      by (rewrite (bind_run_ok _ _ _ _ _ _ Eq); cbn [value final effects app]; fold st1;
          rewrite (bind_run_ok _ _ _ _ _ _ Ep); cbn [value final effects app];
          rewrite (bind_run_ok _ _ _ _ _ _ Ew); cbn [value final effects app];
          rewrite !bind_cprint; reflexivity).
    split; [reflexivity|]. exists sorted. repeat split; assumption.
  - erewrite try_except_raise
      by (rewrite (bind_run_ok _ _ _ _ _ _ Eq); cbn [value final effects app]; fold st1;
          rewrite (bind_run_ok _ _ _ _ _ _ Ep); cbn [value final effects app];
          rewrite (bind_run_raise _ _ _ _ _ _ Ew); reflexivity).
    split; [reflexivity|]. exists sorted. repeat split; assumption.
Qed.

Lemma prefix_app s t : prefix s (s ++ t) = true.
Proof.
  induction s as [|c s IH]; [now destruct t|].
  cbn [append prefix]. now destruct (Ascii.ascii_dec c c) as [_|n]; [|elim n].
Qed.

Lemma str_in_prefix sub s : prefix sub s = true -> str_in sub s = true.
Proof. intros H. destruct s; cbn [str_in]; now rewrite H. Qed.

Lemma str_in_app_l a sub s : str_in sub s = true -> str_in sub (a ++ s) = true.
Proof.
  intros H. induction a as [|c a IH]; [exact H|].
  cbn [append str_in]. now rewrite IH, orb_true_r.
Qed.

(** X18.  A line that [export_packages] writes for a package with a
    known version has the form [name==version], whatever manager the
    package was installed with, and the version specifier makes the
    ranker take it for a Python package: when pip is available, pip is
    the first candidate for the line, so a file exported from another
    manager is installed with pip first when it is given back to
    [--install-from]. *)
Theorem exported_line_ranks_pip_first
    (h : Host) (pkg : PackageRow) (v : string) (installed : dict bool) :
  row_version pkg = Some v -> str_truthy v = true -> v <> "unknown" ->
  get_truthy installed "pip" = true ->
  export_line pkg = (row_name pkg ++ "==" ++ v)%string /\
  _looks_like_python_pkg (export_line pkg) = true /\
  exists rest,
    _ordered_install_manager_candidates h (export_line pkg) installed = "pip" :: rest.
Proof.
  intros Hv Ht Hu Hpip.
  assert (Hline : export_line pkg = (row_name pkg ++ "==" ++ v)%string).
  { unfold export_line. rewrite Hv. cbn [opt_truthy]. rewrite Ht.
    destruct (String.eqb_spec v "unknown") as [E|_]; [now elim Hu | reflexivity]. }
  assert (Hlooks : _looks_like_python_pkg (export_line pkg) = true).
  { apply (version_specifier_looks_python _ "=="); [now left|].
    rewrite Hline. apply str_in_app_l, str_in_prefix, prefix_app. }
  split; [exact Hline|]. split; [exact Hlooks|].
  rewrite ranker_unfold. unfold heuristic_prefs. rewrite Hlooks, Hpip. cbn [andb].
  destruct (add_system_extends installed (_system_manager_priority h)
              (["pip"] ++
               (if _looks_like_npm_pkg (export_line pkg) && get_truthy installed "npm"
                then ["npm"] else []))) as [t1 ->].
  destruct (add_remaining_extends installed
              ((["pip"] ++
                (if _looks_like_npm_pkg (export_line pkg) && get_truthy installed "npm"
                 then ["npm"] else [])) ++ t1)) as [t2 ->].
  eexists. reflexivity.
Qed.

End export_facts.

(** ** Reading back an exported file, with the ASCII reading of [strip]
    and [splitlines] *)

Section read_back.
#[local] Existing Instance ascii_PyStr.

Lemma append_nil_r s : (s ++ "")%string = s.
Proof. induction s as [|c s IH]; cbn [append]; now rewrite ?IH. Qed.

Lemma append_assoc_str a b c : ((a ++ b) ++ c)%string = (a ++ (b ++ c))%string.
Proof. induction a as [|x a IH]; cbn [append]; now rewrite ?IH. Qed.

Lemma rstrip_app_space s c :
  is_space c = true -> rstrip (s ++ String c EmptyString) = rstrip s.
Proof.
  intros Hc. induction s as [|a s IH]; cbn [append rstrip]; [now rewrite Hc|].
  now rewrite IH.
Qed.

Lemma rstrip_plain s : forall c,
  is_space (last_char c s) = false -> rstrip (String c s) = String c s.
Proof.
  induction s as [|c' s IH]; intros c H; cbn [last_char] in H.
  - cbn [rstrip]. now rewrite H.
  - change (rstrip (String c (String c' s)))
      with (match rstrip (String c' s) with
            | EmptyString => if is_space c then EmptyString else String c EmptyString
            | r => String c r
            end).
    now rewrite (IH c' H).
Qed.

Lemma last_char_app a : forall d b, last_char d (a ++ b) = last_char (last_char d a) b.
Proof. induction a as [|x a IH]; intros d b; cbn [append last_char]; [reflexivity | apply IH]. Qed.

Lemma not_linebreak_not_cr c : is_linebreak c = false -> Ascii.eqb c "013"%char = false.
Proof.
  intros H. destruct (Ascii.eqb_spec c "013"%char) as [->|_]; [discriminate H | reflexivity].
Qed.

Lemma splitlines_from_plain l : forall cur rest,
  all_chars (fun c => negb (is_linebreak c)) l = true ->
  splitlines_from cur (l ++ rest) = splitlines_from (cur ++ l) rest.
Proof.
  induction l as [|c l IH]; intros cur rest H; cbn [append].
  - now rewrite append_nil_r.
  - cbn [all_chars] in H. apply andb_true_iff in H. destruct H as [Hc Hl].
    apply negb_true_iff in Hc. cbn [splitlines_from].
    rewrite (not_linebreak_not_cr c Hc), Hc, (IH _ _ Hl), append_assoc_str.
    reflexivity.
Qed.

Lemma splitlines_from_lf cur s :
  splitlines_from cur (LF ++ s) = cur :: splitlines_from EmptyString s.
Proof. reflexivity. Qed.

Lemma plain_line_inv s :
  plain_line s = true ->
  exists c s', s = String c s' /\ is_space c = false /\ Ascii.eqb c "#"%char = false /\
               is_space (last_char c s') = false /\
               all_chars (fun c => negb (is_linebreak c)) s = true.
Proof.
  destruct s as [|c s']; [discriminate|]. unfold plain_line. intros H.
  repeat (apply andb_true_iff in H; destruct H as [H ?]).
  exists c, s'. repeat split; try assumption; now apply negb_true_iff.
Qed.

Lemma concat_two l l2 ls :
  String.concat LF (l :: l2 :: ls) = (l ++ LF ++ String.concat LF (l2 :: ls))%string.
Proof. reflexivity. Qed.

Lemma splitlines_concat ls : forall l,
  Forall (fun s => plain_line s = true) (l :: ls) ->
  splitlines_from EmptyString (String.concat LF (l :: ls)) = l :: ls.
Proof.
  induction ls as [|l2 ls IH]; intros l H; inversion H as [|? ? Hl Hls]; subst.
  - destruct (plain_line_inv l Hl) as [c [s' [-> [_ [_ [_ Hall]]]]]].
    cbn [String.concat].
    rewrite <- (append_nil_r (String c s')) at 1.
    rewrite (splitlines_from_plain _ _ _ Hall). reflexivity.
  - destruct (plain_line_inv l Hl) as [c [s' [-> [_ [_ [_ Hall]]]]]].
    rewrite concat_two, (splitlines_from_plain _ _ _ Hall), splitlines_from_lf.
    now rewrite (IH l2 Hls).
Qed.

Lemma concat_ends ls : forall l,
  Forall (fun s => plain_line s = true) (l :: ls) ->
  exists c s', String.concat LF (l :: ls) = String c s' /\
               is_space c = false /\ is_space (last_char c s') = false.
Proof.
  induction ls as [|l2 ls IH]; intros l H; inversion H as [|? ? Hl Hls]; subst.
  - destruct (plain_line_inv l Hl) as [c [s' [-> [Hc [_ [Hlast _]]]]]].
    now exists c, s'.
  - destruct (plain_line_inv l Hl) as [c [s' [-> [Hc _]]]].
    destruct (IH l2 Hls) as [c2 [s2 [E [_ Hlast]]]].
    rewrite concat_two, E. exists c, (s' ++ LF ++ String c2 s2)%string.
    split; [reflexivity|]. split; [exact Hc|].
    rewrite last_char_app. exact Hlast.
Qed.

Lemma strip_plain s : plain_line s = true -> str_strip s = s.
Proof.
  intros H. destruct (plain_line_inv s H) as [c [s' [-> [Hc [_ [Hlast _]]]]]].
  cbn [str_strip ascii_PyStr lstrip]. rewrite Hc. now apply rstrip_plain.
Qed.

Lemma plain_lines_kept ls :
  Forall (fun s => plain_line s = true) ls ->
  map str_strip
    (filter (fun line => str_truthy (str_strip line) && negb (startswith line "#")) ls) = ls.
Proof.
  induction 1 as [|l ls Hl _ IH]; [reflexivity|].
  cbn [filter]. rewrite (strip_plain l Hl).
  destruct (plain_line_inv l Hl) as [c [s' [-> [_ [Hhash _]]]]].
  assert (Hs : startswith (String c s') "#" = false).
  { unfold startswith. cbn [prefix].
    destruct (Ascii.ascii_dec "#" c) as [<-|_]; [discriminate Hhash | reflexivity]. }
  rewrite Hs. cbn [str_truthy negb andb map].
  rewrite (strip_plain _ Hl), IH. reflexivity.
Qed.

(** X19.  Writing and reading back: when the lines [export_packages]
    writes for the rows are plain (not empty, no comment sign in front,
    no line break inside, no white space at either end), the requirement
    lines [bulk_install_from_file] finds in the exported text are
    exactly those lines, in the exported order. *)
Theorem export_then_read_back (packages : list PackageRow) :
  packages <> [] ->
  Forall (fun pkg => plain_line (export_line pkg) = true) packages ->
  requirement_lines (str_strip (export_content packages))
  = map export_line (sort_by_name packages).
Proof.
  intros Hne Hplain.
  assert (Hlines : Forall (fun s => plain_line s = true)
                     (map export_line (sort_by_name packages))).
  { apply Forall_map.
    apply (Permutation_Forall (Permutation_sym (sort_by_name_perm packages))).
    exact Hplain. }
  unfold export_content.
  destruct (map export_line (sort_by_name packages)) as [|l ls] eqn:El.
  { exfalso. apply Hne. apply map_eq_nil in El.
    apply (Permutation_nil). rewrite <- El. apply sort_by_name_perm. }
  destruct (concat_ends ls l Hlines) as [c [s' [E [Hc Hlast]]]].
  assert (Hstrip : str_strip (String.concat LF (l :: ls) ++ LF) = String.concat LF (l :: ls)).
  { cbn [str_strip ascii_PyStr]. rewrite E. cbn [append lstrip]. rewrite Hc.
    change (String c (s' ++ LF)) with (String c s' ++ LF)%string.
    unfold LF. rewrite rstrip_app_space by reflexivity. now apply rstrip_plain. }
  rewrite Hstrip. unfold requirement_lines.
  change (str_splitlines (String.concat LF (l :: ls)))
    with (splitlines_from EmptyString (String.concat LF (l :: ls))).
  rewrite (splitlines_concat ls l Hlines). now apply plain_lines_kept.
Qed.

End read_back.

(** ** Updating the managers *)

Section update_facts.
Context {PS : PyStr} {W : Type} {WO : World W} {SU : Surroundings W}.
Local Abbreviation M := (monad.M W).

Lemma cprint_unless_run quiet text color (st : St W) :
  cprint_unless quiet text color st
  = mkRun (Ok tt) st (if quiet then [] else [Cprint text color]).
Proof. now destruct quiet. Qed.

Lemma cprint_unless_silent (quiet : bool) text color :
  commands_run (if quiet then @nil event else [Cprint text color]) = [].
Proof. now destruct quiet. Qed.

Lemma run_update_run cmd (st : St W) :
  exists res w',
    (match cmd with
     | Argv argv => world_run_command argv 1200 1 true (world st)
     | ShellLine line => world_run_shell line 1200 1 true (world st)
     end) = (res, w') /\
    run_update cmd st =
      mkRun res (mkSt w' (attempts st))
        (match cmd with Argv argv => [RunCommand argv 1200 1 true] | ShellLine _ => [] end).
Proof.
  destruct cmd as [argv|line]; cbn [run_update].
  - rewrite run_command_run.
    destruct (world_run_command argv 1200 1 true (world st)) as [res w']. now exists res, w'.
  - rewrite call_run.
    destruct (world_run_shell line 1200 1 true (world st)) as [res w']. now exists res, w'.
Qed.

(** The attempt of [_update_manager] for a detected manager with a
    command: the exception of the run is caught. *)
Lemma update_attempt_run (quiet : bool) (m : string) (cmd : command) (st : St W) :
  let R :=
    try_except
      (cprint_unless quiet ("Updating " ++ _manager_human m ++ "...") "INFO" ;;
       result <- run_update cmd ;;
       if ok result then ret (m, true, "Update successful")
       else ret (m, false, update_error result))
      (fun e => ret (m, false, ("Exception: " ++ str_prefix 100 e)%string)) st in
  exists success msg,
    value R = Ok (m, success, msg) /\
    commands_run (effects R)
      = match cmd with Argv argv => [argv] | ShellLine _ => [] end /\
    match (match cmd with
           | Argv argv => world_run_command argv 1200 1 true (world st)
           | ShellLine line => world_run_shell line 1200 1 true (world st)
           end) with
    | (Ok res, w') =>
        success = ok res /\ world (final R) = w' /\
        (success = true -> msg = "Update successful")
    | (Raise e, w') => success = false /\ world (final R) = w'
    end.
Proof.
  intros R. unfold R. clear R.
  destruct (run_update_run cmd st) as [res [w' [Hw Er]]]. rewrite Hw.
  destruct res as [res|e].
  - destruct (ok res) eqn:Hok.
    + erewrite try_except_ok
        by (rewrite (bind_run_ok _ _ _ _ _ _ (cprint_unless_run _ _ _ _));
            cbn [value final effects]; rewrite (bind_run_ok _ _ _ _ _ _ Er), Hok; reflexivity).
      eexists _, _. split; [reflexivity|]. cbn [value final effects world].
      rewrite !commands_run_app, cprint_unless_silent.
      split; [now destruct cmd|]. repeat split.
    + erewrite try_except_ok
        by (rewrite (bind_run_ok _ _ _ _ _ _ (cprint_unless_run _ _ _ _));
            cbn [value final effects]; rewrite (bind_run_ok _ _ _ _ _ _ Er), Hok; reflexivity).
      eexists _, _. split; [reflexivity|]. cbn [value final effects world].
      rewrite !commands_run_app, cprint_unless_silent.
      split; [now destruct cmd|]. repeat split. discriminate.
  - erewrite try_except_raise
      by (rewrite (bind_run_ok _ _ _ _ _ _ (cprint_unless_run _ _ _ _));
          cbn [value final effects]; rewrite (bind_run_raise _ _ _ _ _ _ Er); reflexivity).
    eexists _, _. split; [reflexivity|]. cbn [value final effects world ret].
    rewrite !commands_run_app, cprint_unless_silent.
    split; [now destruct cmd|]. now split.
Qed.


(** X20.  [_update_manager] never raises, also when running the command
    raises.  It answers for the lower-cased name.  For a manager without
    an update command or one that is not detected it returns False
    without running or printing anything.  Otherwise it runs the one
    command of the manager, with the timeout 1200 and one retry, and
    returns True exactly when that command succeeded, with the message
    Update successful. *)
Theorem update_manager_outcome (h : Host) (quiet : bool) (manager : string) (st : St W) :
  let m := str_lower manager in
  let R := _update_manager h quiet manager st in
  exists success msg,
    value R = Ok (m, success, msg) /\
    match dict_get (update_commands h) m with
    | None => success = false /\ final R = st /\ effects R = []
    | Some cmd =>
        if get_truthy (_detect_installed_managers h) m then
          commands_run (effects R)
            = match cmd with Argv argv => [argv] | ShellLine _ => [] end /\
          match (match cmd with
                 | Argv argv => world_run_command argv 1200 1 true (world st)
                 | ShellLine line => world_run_shell line 1200 1 true (world st)
                 end) with
          | (Ok res, w') =>
              success = ok res /\ world (final R) = w' /\
              (success = true -> msg = "Update successful")
          | (Raise e, w') => success = false /\ world (final R) = w'
          end
        else success = false /\ final R = st /\ effects R = []
    end.
Proof.
  intros m R. unfold R, _update_manager. fold m. clearbody m. clear R.
  destruct (dict_get (update_commands h) m) as [cmd|]; [|now eexists _, _].
  destruct (get_truthy (_detect_installed_managers h) m); cbn [negb]; [|now eexists _, _].
  exact (update_attempt_run quiet m cmd st).
Qed.







End update_facts.

(** ** Searching with the command of a manager *)

Section cli_search_facts.
Context {PS : PyStr} {PW : PyWords} {W : Type} {WO : World W}.
Local Abbreviation M := (monad.M W).

Lemma cli_lines_shape mgr lines : forall acc,
  exists found,
    fold_left (cli_line mgr) lines acc = acc ++ found /\
    (length found <= length lines)%nat /\
    Forall (fun r => manager r = mgr /\ relevance_score r = 5%Q /\
                     version r = JStr "unknown" /\ homepage r = JNull) found.
Proof.
  induction lines as [|line lines IH]; intros acc.
  - exists []. cbn [fold_left length]. rewrite app_nil_r.
    split; [reflexivity|]. split; [lia | constructor].
  - cbn [fold_left]. unfold cli_line at 2.
    destruct (str_split_first (str_strip line)) as [|name rest].
    + destruct (IH acc) as [found [E [Hlen Hall]]]. exists found.
      split; [exact E|]. split; [cbn [length]; lia | exact Hall].
    + destruct (IH (acc ++ [mkSearchResult (JStr name)
                              (JStr (str_prefix 200 match rest with
                                                    | d :: _ => d
                                                    | [] => EmptyString
                                                    end))
                              (JStr "unknown") mgr JNull 5]))
        as [found [E [Hlen Hall]]].
      eexists (_ :: found). split; [rewrite E, <- app_assoc; reflexivity|].
      split; [cbn [length]; lia|]. constructor; [now repeat split | exact Hall].
Qed.

(** X22.  A search through the command line of a manager runs that one
    command, with the timeout 30 and one retry.  It returns at most ten
    results and at most one for each line of the output, each for the
    manager asked, with the fixed score 5 and the version unknown; it
    returns none when the command fails, and it does not catch an
    exception of [run_command]. *)
Theorem cli_search_results (cmd : list string) (mgr : string) (st : St W) :
  let R := _cli_search cmd mgr st in
  effects R = [RunCommand cmd 30 1 false] /\
  match world_run_command cmd 30 1 false (world st) with
  | (Raise e, w') => value R = Raise e /\ world (final R) = w'
  | (Ok res, w') =>
      world (final R) = w' /\
      exists found,
        value R = Ok found /\
        (length found <= 10)%nat /\
        (length found <= length (str_splitlines (out res)))%nat /\
        (ok res = false -> found = []) /\
        Forall (fun r => manager r = mgr /\ relevance_score r = 5%Q /\
                         version r = JStr "unknown" /\ homepage r = JNull) found
  end.
Proof.
  intros R. unfold R, _cli_search.
  pose proof (run_command_run cmd 30 1 false st) as E.
  destruct (world_run_command cmd 30 1 false (world st)) as [[res|e] w']; cbn [fst snd] in E.
  2:{ rewrite (bind_run_raise _ _ _ _ _ _ E). now repeat split. }
  rewrite (bind_run_ok _ _ _ _ _ _ E). cbn [value final effects world ret app].
  split; [reflexivity|]. split; [reflexivity|].
  eexists. split; [reflexivity|].
  destruct (ok res).
  - destruct (cli_lines_shape mgr (str_splitlines (out res)) []) as [found [-> [Hlen Hall]]].
    rewrite app_nil_l. split; [|split; [|split; [discriminate|]]].
    + rewrite length_firstn. lia.
    + rewrite length_firstn. lia.
    + apply Forall_forall. intros r Hr. apply In_firstn in Hr.
      revert r Hr. now apply Forall_forall.
  - cbn. repeat split; try lia. constructor.
Qed.

End cli_search_facts.

(** ** Removal without a chosen manager *)

Section removal_facts.
Context {PS : PyStr} {W : Type} {WO : World W}.
Local Abbreviation M := (monad.M W).

(** With a record store that does not raise, the removal loop stops at
    the first success, as the install loop does. *)
Lemma remove_loop_stops_at_first_success h pkg :
  record_store_reliable ->
  forall candidates (st : St W),
  exists b failures hit untried,
    value (remove_loop h pkg candidates st) = Ok (b, attempts st ++ failures ++ hit) /\
    filter (fun m => dict_has (REMOVE_HANDLERS h) m) candidates
      = map fst (failures ++ hit) ++ untried /\
    commands_run (effects (remove_loop h pkg candidates st))
      = map (remove_command h pkg) (map fst (failures ++ hit)) /\
    Forall (fun x => ok (snd x) = false) failures /\
    ((b = true /\ exists mgr res, hit = [(mgr, res)] /\ ok res = true) \/
     (b = false /\ hit = [] /\ untried = [])).
Proof.
  intros [_ Hdel]. induction candidates as [|mgr rest IH]; intros st.
  - exists false, [], [], []. rewrite remove_loop_nil. cbn. rewrite app_nil_r.
    split; [reflexivity|]. split; [reflexivity|]. split; [reflexivity|].
    split; [constructor|]. right. auto.
  - cbn [filter]. unfold dict_has at 1.
    destruct (dict_get (REMOVE_HANDLERS h) mgr) as [cmd_builder|] eqn:Hh.
    2:{ rewrite (remove_loop_skip h pkg mgr rest st Hh). apply IH. }
    assert (Hcmd : remove_command h pkg mgr = cmd_builder pkg)
      by (unfold remove_command; now rewrite Hh).
    destruct (world_run_command (cmd_builder pkg) 600 0 true (world st))
      as [[res|e] w'] eqn:Hrun.
    + destruct (ok res) eqn:Hok.
      * destruct (Hdel pkg mgr w') as [w'' Hw''].
        destruct (remove_attempt_succeeds pkg mgr cmd_builder st res w' w'' Hrun Hok Hw'')
          as [l1 [l2 E]].
        rewrite (remove_loop_return h pkg mgr rest cmd_builder st _ _ true Hh E).
        exists true, [], [(mgr, res)],
               (filter (fun m => dict_has (REMOVE_HANDLERS h) m) rest).
        cbn. rewrite Hcmd.
        split; [reflexivity|]. split; [reflexivity|]. split; [reflexivity|].
        split; [constructor|]. left. split; [reflexivity|].
        now exists mgr, res.
      * destruct (remove_attempt_command_fails pkg mgr cmd_builder st res w' Hrun Hok)
          as [l1 [l2 E]].
        rewrite (remove_loop_next h pkg mgr rest cmd_builder st _ _ Hh E).
        destruct (IH (mkSt w' (attempts st ++ [(mgr, res)])))
          as [b [failures [hit [untried [Hv [Hf [Hc [Hall Hend]]]]]]]].
        exists b, ((mgr, res) :: failures), hit, untried.
        cbn [value effects attempts] in *. rewrite Hv, Hf, commands_run_app, Hc.
        cbn. rewrite Hcmd, <- app_assoc.
        split; [reflexivity|]. split; [reflexivity|]. split; [reflexivity|].
        split; [now constructor | assumption].
    + destruct (remove_attempt_run_raises pkg mgr cmd_builder st e w' Hrun) as [l1 [l2 E]].
      rewrite (remove_loop_next h pkg mgr rest cmd_builder st _ _ Hh E).
      destruct (IH (mkSt w' (attempts st ++ [synthetic mgr e])))
        as [b [failures [hit [untried [Hv [Hf [Hc [Hall Hend]]]]]]]].
      exists b, (synthetic mgr e :: failures), hit, untried.
      cbn [value effects attempts] in *. rewrite Hv, Hf, commands_run_app, Hc.
      cbn. rewrite Hcmd, <- app_assoc.
      split; [reflexivity|]. split; [reflexivity|]. split; [reflexivity|].
      split; [now constructor | assumption].
Qed.

Lemma filter_idem {A} (f : A -> bool) l : filter f (filter f l) = filter f l.
Proof.
  apply filter_all. intros x Hx. now apply filter_In in Hx.
Qed.

(** X23.  With a record store that does not raise, [remove_package]
    without a chosen manager goes through the ranked candidates that
    have a removal handler, in their order, one command and one record
    each, and stops at the first removal that succeeds: the package is
    not removed from the managers ranked after it.  It returns False
    after every such candidate has failed, or at once when there is
    none. *)
Theorem remove_package_follows_ranking (h : Host) (pkg : string) (st : St W) :
  record_store_reliable ->
  let ranked :=
    filter (fun m => dict_has (REMOVE_HANDLERS h) m)
           (_ordered_install_manager_candidates h pkg (_detect_installed_managers h)) in
  let R := remove_package h pkg None st in
  exists b records untried,
    value R = Ok (b, records) /\
    ranked = map fst records ++ untried /\
    commands_run (effects R) = map (remove_command h pkg) (map fst records) /\
    if b then
      exists failures m r,
        records = failures ++ [(m, r)] /\ ok r = true /\
        Forall (fun x => ok (snd x) = false) failures
    else untried = [] /\ Forall (fun x => ok (snd x) = false) records.
Proof.
  intros Hrel ranked R. unfold R, remove_package.
  destruct (any_installed (_detect_installed_managers h)) eqn:Hany.
  - rewrite (remove_package_unfold h _ pkg None st Hany).
    cbv zeta. fold ranked. cbn [value effects commands_run].
    destruct ranked as [|m rest] eqn:Hranked.
    + exists false, [], []. cbn. repeat split. constructor.
    + destruct (remove_loop_stops_at_first_success h pkg Hrel (m :: rest)
                  (mkSt (world st) []))
        as [b [failures [hit [untried [Hv [Hf [Hc [Hall Hend]]]]]]]].
      rewrite <- Hranked in Hf at 1. unfold ranked in Hf at 1.
      rewrite filter_idem in Hf. fold ranked in Hf. rewrite Hranked in Hf.
      exists b, (failures ++ hit), untried. cbn [attempts app] in Hv.
      split; [exact Hv|]. split; [exact Hf|]. split; [exact Hc|].
      destruct Hend as [[-> [mgr [res [-> Hok]]]] | [-> [-> ->]]].
      * now exists failures, mgr, res.
      * rewrite app_nil_r. now split.
  - assert (Hr : ranked = []).
    { unfold ranked. rewrite ranker_empty; [reflexivity|]. now apply any_installed_none. }
    clearbody ranked. subst ranked.
    unfold remove_package_with. rewrite bind_cprint, Hany. cbn.
    exists false, [], []. repeat split. constructor.
Qed.

End removal_facts.

(** ** Runs of the detector, the tables and [run_command] on concrete hosts *)

Section more_scenarios.
#[local] Existing Instance ascii_PyStr.

(** X4 for the install handler of apt. *)
Lemma handlers_pass_package_witness :
  (dict_get (INSTALL_HANDLERS debian) "apt" = Some _apt_install \/
   dict_get (REMOVE_HANDLERS debian) "apt" = Some _apt_install) /\
  exists program options, forall pkg, _apt_install pkg = program :: options ++ [pkg].
Proof.
  assert (H : dict_get (INSTALL_HANDLERS debian) "apt" = Some _apt_install \/
              dict_get (REMOVE_HANDLERS debian) "apt" = Some _apt_install)
    by (left; reflexivity).
  split; [exact H|].
  exact (handlers_pass_package_as_last_argument debian "apt" _apt_install H).
Defined.

(** X5 for apt on Debian. *)
Lemma candidate_command_witness :
  In "apt" (_ordered_install_manager_candidates debian "curl"
              (_detect_installed_managers debian)) /\
  exists cmd_builder program rest,
    dict_get (INSTALL_HANDLERS debian) "apt" = Some cmd_builder /\
    which debian program = true /\
    (cmd_builder "curl" = program :: rest \/ cmd_builder "curl" = "sudo" :: program :: rest).
Proof.
  assert (H : In "apt" (_ordered_install_manager_candidates debian "curl"
                          (_detect_installed_managers debian)))
    by (vm_compute; left; reflexivity).
  split; [exact H|].
  exact (candidate_command_names_detected_program debian "curl" "apt" H).
Defined.

(** X6 on Debian, where every command exits with 1. *)
Lemma install_follows_ranking_witness :
  @record_store_reliable Steady Steady_World /\
  exists b records untried,
    value (install_package debian "curl" None
             (mkSt {| steady_run := fun _ => exits 1 |} [])) = Ok (b, records) /\
    _ordered_install_manager_candidates debian "curl" (_detect_installed_managers debian)
      = map fst records ++ untried.
Proof.
  split; [exact steady_store_reliable|].
  destruct (install_package_follows_ranking debian "curl"
              (mkSt {| steady_run := fun _ => exits 1 |} []) steady_store_reliable)
    as [b [records [untried [Hv [Hr _]]]]].
  exists b, records, untried. split; [exact Hv | exact Hr].
Defined.

(** X8 where no program can be started: with one retry the call
    behaves, after the first exception, as the call without retry. *)
Lemma run_command_retry_witness :
  (0 <= 1)%Z /\
  execution.run_command ["apt"; "update"] 30 1 false no_exec
  = execution.run_command ["apt"; "update"] 30 (1 - 1) false no_exec.
Proof.
  assert (H : (0 <= 1)%Z) by discriminate.
  split; [exact H|].
  exact (run_command_retries_exceptions_only ["apt"; "update"] 30 1 false no_exec H).
Defined.

(** The ranking on Debian for a package no heuristic knows. *)
Lemma debian_curl_ranking :
  _ordered_install_manager_candidates debian "curl" (_detect_installed_managers debian)
  = ["apt"; "pip"] /\
  list_managers_status debian
  = [("pip", "Installed"); ("npm", "Not Installed"); ("apt", "Installed");
     ("dnf", "Not Installed"); ("yum", "Not Installed"); ("pacman", "Not Installed");
     ("zypper", "Not Installed"); ("apk", "Not Installed"); ("brew", "Not Installed");
     ("choco", "Not Installed"); ("winget", "Not Installed"); ("snap", "Not Installed");
     ("flatpak", "Not Installed")].
Proof. split; reflexivity. Qed.

(** [install_manager] on Debian: pip is already there, snap is installed
    with apt, and npm needs a manual installation. *)
Lemma install_manager_on_debian :
  let run m := install_manager debian m (mkSt quiet []) in
  (value (run "PIP"), commands_run (effects (run "PIP"))) = (Ok true, []) /\
  (value (run "snap"), commands_run (effects (run "snap")))
    = (Ok true, [["sudo"; "apt"; "install"; "-y"; "snapd"]]) /\
  (value (run "npm"), commands_run (effects (run "npm"))) = (Ok false, []) /\
  (value (run "cargo"), commands_run (effects (run "cargo"))) = (Ok false, []).
Proof. vm_compute. repeat split. Qed.

(** The options of a command line of the shell, and the package name
    that is lost when it is also the value of an option. *)
Lemma shell_parsing_examples :
  _parse_kv ["flask"; "--manager"; "pip"; "--limit"] = [("manager", "pip")] /\
  _parse_kv ["--manager"; "--limit"; "5"] = [("manager", "--limit")] /\
  first_positional ["flask"; "--manager"; "pip"] (_parse_kv ["flask"; "--manager"; "pip"])
    = Some "flask" /\
  first_positional ["pip"; "--manager"; "pip"] (_parse_kv ["pip"; "--manager"; "pip"])
    = None.
Proof. vm_compute. repeat split. Qed.

End more_scenarios.

(** ** Runs of the functions around the orchestrators on a desk *)

Section desk_scenarios.
#[local] Existing Instance ascii_PyStr.

(** X18 for a package installed with npm. *)
Lemma exported_line_witness :
  row_version left_pad = Some "1.3.0" /\ str_truthy "1.3.0" = true /\
  "1.3.0" <> "unknown" /\
  get_truthy (_detect_installed_managers node_box) "pip" = true /\
  export_line left_pad = "left-pad==1.3.0" /\
  exists rest,
    _ordered_install_manager_candidates node_box (export_line left_pad)
      (_detect_installed_managers node_box) = "pip" :: rest.
Proof.
  assert (Hu : "1.3.0" <> "unknown") by discriminate.
  split; [reflexivity|]. split; [reflexivity|]. split; [exact Hu|]. split; [reflexivity|].
  destruct (exported_line_ranks_pip_first node_box left_pad "1.3.0"
              (_detect_installed_managers node_box) eq_refl eq_refl Hu eq_refl)
    as [Hline [_ Hrank]].
  split; [exact Hline | exact Hrank].
Defined.

(** X19 for the two npm rows. *)
Lemma read_back_witness :
  [left_pad; express] <> [] /\
  Forall (fun pkg => plain_line (export_line pkg) = true) [left_pad; express] /\
  requirement_lines (str_strip (export_content [left_pad; express]))
  = ["express"; "left-pad==1.3.0"].
Proof.
  assert (Hne : [left_pad; express] <> []) by discriminate.
  assert (Hplain : Forall (fun pkg => plain_line (export_line pkg) = true)
                     [left_pad; express])
    by (repeat constructor).
  split; [exact Hne|]. split; [exact Hplain|].
  exact (export_then_read_back [left_pad; express] Hne Hplain).
Defined.


(** The updates of that run did succeed. *)
Lemma update_all_reports_success_then_fails :
  let R := main_update_manager debian false "all" (mkSt (desk_with [] []) []) in
  printed "SUCCESS" (effects R)
    = ["Python (pip): Update successful"; "APT: Update successful";
       "Manager updates complete: 2/2 successful"] /\
  printed "ERROR" (effects R)
    = ["Unexpected error: 'NoneType' object has no attribute 'values'"] /\
  value R = Ok 1%Z /\
  value (main_update_manager debian false "apt" (mkSt (desk_with [] []) [])) = Ok 0%Z.
Proof. vm_compute. repeat split. Qed.

(** A requirements file with a comment, a blank line, a version
    specifier and an indented comment: the indented comment is taken for
    a package, every line is installed, and the exit code is 1. *)
Lemma install_from_scenario :
  let text := ("# tools" ++ LF ++ "requests==2.31" ++ LF ++ LF ++ "  flask  " ++ LF
               ++ "  # pinned" ++ LF)%string in
  let st := mkSt (desk_with [("reqs.txt", text)] []) [] in
  requirement_lines (str_strip text) = ["requests==2.31"; "flask"; "# pinned"] /\
  value (bulk_install_from_file debian "reqs.txt" st)
    = Ok (results_dict
            (mkBulkResults 3 3 0
               [("requests==2.31", true, 1%nat); ("flask", true, 1%nat);
                ("# pinned", true, 1%nat)])) /\
  value (main_install_from debian "reqs.txt" st) = Ok 1%Z /\
  value (bulk_install_from_file debian "missing.txt" st)
    = Ok (failure_dict "File not found").
Proof. vm_compute. repeat split. Qed.

(** Exporting the npm rows and installing from the exported file: the
    lines come back, and pip is asked first for the line with a
    version. *)
Lemma export_then_install_scenario :
  let st := mkSt (desk_with [] [left_pad; express; flask_row]) [] in
  let exported := export_packages "npm" (Some "npm.txt") st in
  value exported = Ok true /\
  desk_files (world (final exported)) "npm.txt"
    = Some ("express" ++ LF ++ "left-pad==1.3.0" ++ LF)%string /\
  commands_run (effects (bulk_install_from_file node_box "npm.txt" (final exported)))
    = [["npm"; "install"; "-g"; "express"];
       ["/usr/bin/python3"; "-m"; "pip"; "install"; "--user"; "left-pad==1.3.0"]] /\
  value (export_packages "brew" None st) = Ok false.
Proof. vm_compute. repeat split. Qed.

(** The statistics of three rows, the second with a date that cannot be
    parsed: the row after it is not among the recent installations. *)
Lemma statistics_scenario :
  exists s,
    value (stats.get_package_statistics debian (mkSt dated_desk [])) = Ok s /\
    stats.total_packages s = 3%nat /\
    stats.packages_by_manager s = [("npm", 2%nat); ("pip", 1%nat)] /\
    map stats.recent_name (stats.recent_installations s) = ["left-pad"] /\
    (stats.available_managers s, stats.total_supported_managers s) = (2%nat, 13%nat).
Proof. eexists. vm_compute. repeat split. Qed.

End desk_scenarios.

(** ** Removal on a concrete host *)

Section removal_scenarios.
#[local] Existing Instance ascii_PyStr.

(** X23 on Debian, where every command exits with 1. *)
Lemma remove_follows_ranking_witness :
  @record_store_reliable Steady Steady_World /\
  exists b records untried,
    value (remove_package debian "curl" None
             (mkSt {| steady_run := fun _ => exits 1 |} [])) = Ok (b, records) /\
    filter (fun m => dict_has (REMOVE_HANDLERS debian) m)
      (_ordered_install_manager_candidates debian "curl" (_detect_installed_managers debian))
      = map fst records ++ untried.
Proof.
  split; [exact steady_store_reliable|].
  destruct (remove_package_follows_ranking debian "curl"
              (mkSt {| steady_run := fun _ => exits 1 |} []) steady_store_reliable)
    as [b [records [untried [Hv [Hr _]]]]].
  exists b, records, untried. split; [exact Hv | exact Hr].
Defined.

(** A package that pip and apt both hold is removed from the first
    only. *)
Lemma remove_stops_at_first_manager :
  let R := remove_package debian "requests" None (mkSt quiet []) in
  value R = Ok (true, [("pip", mkRunResult true 0 "" "")]) /\
  commands_run (effects R)
    = [["/usr/bin/python3"; "-m"; "pip"; "uninstall"; "-y"; "requests"]].
Proof. vm_compute. repeat split. Qed.

End removal_scenarios.
